(** * node-hydna: the winksock/1 client core (index.js)

    A shallow embedding of the client in index.js: the frame codec
    ([toBuffer] of [DataFrame], [SignalFrame] and [OpenRequest]), the
    incremental parser ([parserImplementation]), the mode parser
    ([getBinMode]) and the object graph of channels, connections and open
    requests with the methods that mutate it.

    JavaScript numbers that the code only uses as integers are [Z]; the
    32-bit bitwise operators are written out with their wrap-around.
    Buffers are [list Z] (one element per byte); a store into a buffer
    truncates to eight bits.  Objects with identity (channels, connections,
    open requests) live in a store and are named by references. *)

From Stdlib Require Import ZArith List String Ascii Lia Bool.
From stdpp Require Import base gmap list strings.

Open Scope Z_scope.

(** ** JavaScript integer operators *)

Module Js.

Definition two32 : Z := 4294967296.
Definition two31 : Z := 2147483648.

(** ToUint32 and ToInt32 on an integral number. *)
Definition to_uint32 (x : Z) : Z := x mod two32.
Definition to_int32 (x : Z) : Z := (x + two31) mod two32 - two31.

(** [a << n], [a >> n], [a >>> n], [a | b], [a & b]. *)
Definition shl (a n : Z) : Z := to_int32 (Z.shiftl (to_int32 a) (n mod 32)).
Definition shr (a n : Z) : Z := Z.shiftr (to_int32 a) (n mod 32).
Definition ushr (a n : Z) : Z := Z.shiftr (to_uint32 a) (n mod 32).
Definition bor (a b : Z) : Z := to_int32 (Z.lor (to_int32 a) (to_int32 b)).
Definition band (a b : Z) : Z := to_int32 (Z.land (to_int32 a) (to_int32 b)).

(** [a % b]: the remainder takes the sign of the dividend. *)
Definition rem (a b : Z) : Z := Z.rem a b.

(** [buffer[i] = v]: the stored byte is [v] truncated to eight bits. *)
Definition store_byte (v : Z) : Z := v mod 256.

(** [buffer[i]]: a read past the end is [undefined], which the bitwise
    operators take as 0. *)
Definition rd (b : list Z) (i : Z) : Z :=
  if i <? 0 then 0 else nth (Z.to_nat i) b 0.

(** [buffer.slice(start, end)] and the ranges of [buffer.copy]. *)
Definition slice (b : list Z) (s e : Z) : list Z :=
  firstn (Z.to_nat (e - s)) (skipn (Z.to_nat s) b).

Definition blen (b : list Z) : Z := Z.of_nat (List.length b).

End Js.

(** ** Errors and results *)

(** Exceptions.  [Diverged] stands for a call that does not return (a
    walk along a cyclic [next] chain); no [catch] sees it. *)
Inductive JsError : Type :=
| Error (msg : string)
| TypeError (msg : string)
| ReferenceError (msg : string)
| URIError (msg : string)
| Diverged.

Inductive Res (A : Type) : Type :=
| Ok (a : A)
| Throw (e : JsError).
Arguments Ok {A} a.
Arguments Throw {A} e.

(** ** Frame codec *)

Definition MAX_PAYLOAD_SIZE : Z := 10240.
Definition ALL_CHANNELS : Z := 0.

Definition READ : Z := 1.
Definition WRITE : Z := 2.
Definition EMIT : Z := 4.

Definition OP_NOOP : Z := 0.
Definition OP_OPEN : Z := 1.

Module OpenRequestFlag.
Definition FLAG_ALLOW : Z := 0.
Definition FLAG_REDIRECT : Z := 1.
Definition FLAG_DENY : Z := 7.
End OpenRequestFlag.

Module SignalFlag.
Definition FLAG_EMIT : Z := 0.
Definition FLAG_END : Z := 1.
Definition FLAG_ERROR : Z := 7.
End SignalFlag.

(** The body shared by the three [toBuffer] methods; they differ in the
    constant [op] of [buffer[6] = op << 3 | flag].  [data] is [None] for a
    missing (falsy) payload. *)
Definition frame_length (data : option (list Z)) : Z :=
  7 + match data with Some d => Js.blen d | None => 0 end.

Definition frame_header (op id flag length : Z) : list Z :=
  [ Js.store_byte (Js.ushr length 8);
    Js.store_byte (Js.rem length 256);
    Js.store_byte (Js.ushr id 24);
    Js.store_byte (Js.ushr id 16);
    Js.store_byte (Js.ushr id 8);
    Js.store_byte (Js.rem id 256);
    Js.store_byte (Js.bor (Js.shl op 3) flag) ].

Definition frame_toBuffer (op id flag : Z) (data : option (list Z)) : list Z :=
  let length := frame_length data in
  frame_header op id flag length ++
  (if 7 <? length then match data with Some d => d | None => [] end else []).

(** [DataFrame] and [SignalFrame] are plain records of (id, flag, data). *)
Inductive Packet : Type :=
| DataFrame (id : option Z) (flag : Z) (data : option (list Z))
| SignalFrame (id : option Z) (flag : Z) (data : option (list Z)).

(** A [null] id in [id >>> 24] and [id % 256] is 0. *)
Definition id_num (id : option Z) : Z := default 0 id.

Definition Packet_toBuffer (p : Packet) : list Z :=
  match p with
  | DataFrame id flag data => frame_toBuffer 2 (id_num id) flag data
  | SignalFrame id flag data => frame_toBuffer 3 (id_num id) flag data
  end.

Definition OpenRequest_toBuffer_of (id flag : Z) (data : option (list Z)) : list Z :=
  frame_toBuffer 1 id flag data.

(** [packet.id = newid] *)
Definition Packet_set_id (p : Packet) (newid : option Z) : Packet :=
  match p with
  | DataFrame _ flag data => DataFrame newid flag data
  | SignalFrame _ flag data => SignalFrame newid flag data
  end.

(** ** Incremental parser *)

(** The three variables closed over by [conn.sock.ondata]. *)
Record ParserState : Type := mkParser {
  ps_buffer : option (list Z);
  ps_offset : Z;
  ps_length : Z
}.

Definition parser_init : ParserState := mkParser None 0 0.

(** Header fields as the loop body computes them. *)
Definition packetlen_at (buffer : list Z) (offset : Z) : Z :=
  Js.bor (Js.shl (Js.rd buffer offset) 8) (Js.rd buffer (offset + 1)).

Definition ch_at (buffer : list Z) (offset : Z) : Z :=
  Js.bor (Js.bor (Js.shl (Js.rd buffer (offset + 3)) 16)
                 (Js.shl (Js.rd buffer (offset + 4)) 8))
         (Js.rd buffer (offset + 5))
  + Js.ushr (Js.shl (Js.rd buffer (offset + 2)) 24) 0.

Definition desc_at (buffer : list Z) (offset : Z) : Z := Js.rd buffer (offset + 6).

Definition op_of_desc (desc : Z) : Z := Js.shr (Js.band (Js.shr desc 1) 15) 2.
Definition flag_of_desc (desc : Z) : Z := Js.shr (Js.band (Js.shl desc 1) 15) 1.

(** The prologue of [ondata]: the bytes the loop works on.  With a
    residual buffer the unread tail and the new chunk are copied into a
    fresh buffer; without one the chunk is used in place. *)
Definition parser_input (ps : ParserState) (chunk : list Z) (start end_ : Z)
  : list Z * Z * Z :=
  match ps_buffer ps with
  | Some old =>
    let tmpbuff := Js.slice old (ps_offset ps) (ps_length ps)
                   ++ Js.slice chunk start end_ in
    (tmpbuff, 0, Js.blen tmpbuff)
  | None => (chunk, start, end_)
  end.

(** How one run of [ondata] ends. *)
Inductive ParseExit : Type :=
| PDone       (* the while loop ended, by its condition or by [break] *)
| PReturned   (* [return conn.destroy(...)] *)
| PThrew (e : JsError).

Section Parser.

(** The connection, as far as the parser sees it. *)
Context {S : Type}.
Variable live : S -> bool.                          (* [conn.id] is truthy *)
Variable destroy : JsError -> S -> Res unit * S.    (* [conn.destroy(err)] *)
Variable processOpen processData processSignal :
  Z -> Z -> list Z -> Z -> Z -> S -> Res unit * S.

(** [switch (op)] *)
Definition dispatch (op ch flag : Z) (buffer : list Z) (s e : Z) (c : S)
  : Res unit * S :=
  if op =? 0 then (Ok tt, c)
  else if op =? 1 then processOpen ch flag buffer s e c
  else if op =? 2 then processData ch flag buffer s e c
  else if op =? 3 then processSignal ch flag buffer s e c
  else (Ok tt, c).

(** The while loop.  [fuel] bounds the number of iterations; every
    iteration that continues advances [offset] by at least 7, so
    [length - offset] iterations always suffice (see
    [parse_loop_fuel]).  The result is the exit, the final [offset]
    and the connection. *)
Fixpoint parse_loop (fuel : nat) (buffer : list Z) (offset length : Z) (c : S)
  : ParseExit * Z * S :=
  match fuel with
  | O => (PDone, offset, c)
  | Datatypes.S fuel' =>
    if (offset <? length) && live c then
      if length <? offset + 2 then (PDone, offset, c)
      else
        let packetlen := packetlen_at buffer offset in
        if packetlen <? 7 then
          match destroy (Error "bad packet size") c with
          | (Ok _, c') => (PReturned, offset, c')
          | (Throw e, c') => (PThrew e, offset, c')
          end
        else if length <? offset + packetlen then (PDone, offset, c)
        else
          let ch := ch_at buffer offset in
          let desc := desc_at buffer offset in
          let op := op_of_desc desc in
          let flag := flag_of_desc desc in
          match dispatch op ch flag buffer (offset + 7) (offset + packetlen) c with
          | (Ok _, c') => parse_loop fuel' buffer (offset + packetlen) length c'
          | (Throw e, c') => (PThrew e, offset, c')
          end
    else (PDone, offset, c)
  end.

(** The epilogue of [ondata] after the loop: [if (length - offset === 0)
    buffer = null], skipped by the [return] and by an exception. *)
Definition parser_run (buffer : list Z) (offset length : Z) (c : S)
  : Res unit * ParserState * S :=
  match parse_loop (Z.to_nat (length - offset)) buffer offset length c with
  | (PDone, offset', c') =>
    (Ok tt,
     mkParser (if length - offset' =? 0 then None else Some buffer) offset' length,
     c')
  | (PReturned, offset', c') => (Ok tt, mkParser (Some buffer) offset' length, c')
  | (PThrew e, offset', c') => (Throw e, mkParser (Some buffer) offset' length, c')
  end.

(** [conn.sock.ondata = function(chunk, start, end)] *)
Definition ondata (ps : ParserState) (chunk : list Z) (start end_ : Z) (c : S)
  : Res unit * ParserState * S :=
  let '(buffer, offset, length) := parser_input ps chunk start end_ in
  parser_run buffer offset length c.

End Parser.

(** The parser run against a connection that only records what is
    dispatched to it. *)
Record Dispatched : Type := mkDispatched {
  d_op : Z;
  d_ch : Z;
  d_flag : Z;
  d_payload : list Z
}.

Definition log_process (op ch flag : Z) (buffer : list Z) (s e : Z)
  (log : list Dispatched) : Res unit * list Dispatched :=
  (Ok tt, log ++ [mkDispatched op ch flag (Js.slice buffer s e)]).


(** ** Values, strings and the host environment *)

(** The JavaScript values the public methods are called with. *)
Inductive JsVal : Type :=
| VUndefined
| VNull
| VBool (b : bool)
| VNumber (n : Z)
| VNaN
| VString (s : string)
| VBuffer (b : list Z).

Definition truthy (v : JsVal) : bool :=
  match v with
  | VUndefined | VNull | VNaN => false
  | VBool b => b
  | VNumber n => negb (n =? 0)
  | VString s => negb (String.eqb s "")
  | VBuffer _ => true
  end.

(** Strings are kept as their UTF-8 bytes, so that [new Buffer(s, "utf8")]
    and [buffer.toString("utf8", start, end)] are changes of
    representation. *)
Definition utf8_encode (s : string) : list Z :=
  map (fun a => Z.of_N (N_of_ascii a)) (list_ascii_of_string s).

Definition utf8_decode (b : list Z) : string :=
  string_of_list_ascii (map (fun z => ascii_of_N (Z.to_N (z mod 256))) b).

(** [/i]: ASCII letters compare without case. *)
Definition lower (a : ascii) : ascii :=
  let n := N_of_ascii a in
  if ((65 <=? n) && (n <=? 90))%N then ascii_of_N (n + 32) else a.

Definition lower_string (s : string) : string :=
  string_of_list_ascii (map lower (list_ascii_of_string s)).

(** The result of [require("url").parse(url)], as far as [connect] and
    [getConnection] read it.  A missing component is [None]. *)
Record Url : Type := mkUrl {
  url_protocol : option string;
  url_host : string;
  url_pathname : option string;
  url_query : option string;
  url_href : string
}.

(** Built-ins of the host that the client calls and does not define. *)
Record Host : Type := mkHost {
  url_parse : string -> Url;
  parseInt : string -> option Z;                     (* [None] is NaN *)
  decodeURIComponent : string -> Res string;
  toString : JsVal -> string;                        (* [data.toString()] *)
  toNumber : string -> option Z;
  JSON_stringify : JsVal -> Res string;
  JSON_parse : string -> Res JsVal;
  Buffer_of_string : string -> option string -> Res (list Z);
                                                      (* [new Buffer(s, enc)] *)
  Buffer_toString : list Z -> option string -> string (* [buf.toString(enc)] *)
}.

(** [VALID_ENCODINGS_RE = /^(ascii|utf8|base64|json)/i]: a prefix test. *)
Definition VALID_ENCODINGS_RE_test (encoding : string) : bool :=
  existsb (fun p => String.prefix p (lower_string encoding))
          ["ascii"; "utf8"; "base64"; "json"]%string.

(** ** The object graph *)

Abbreviation chanRef := nat.
Abbreviation connRef := nat.
Abbreviation reqRef := nat.

(** What [chan.emit] delivers. *)
Inductive Event : Type :=
| EvConnect
| EvDrain
| EvError (e : JsError)
| EvClose (hadError : bool) (message : option string)
| EvData (message : JsVal) (priority : Z)
| EvSignal (message : option string).

(** A [Channel].  [ch_events] is the sequence of events emitted so far,
    oldest first; [ch_listeners] the event names with a listener.
    [finalizeDestroyChannel] assigns [chan._writequeue] (lower case), a
    property nothing reads, so it has no field here and [ch_writeQueue]
    is left alone there. *)
Record Channel : Type := mkChannel {
  ch_id : option Z;
  ch_connecting : bool;
  ch_opening : bool;
  ch_closing : bool;
  ch_connection : option connRef;
  ch_request : option reqRef;
  ch_mode : option Z;
  ch_writeQueue : option (list Packet);
  ch_encoding : option string;
  ch_url : option string;
  ch_readable : bool;
  ch_writable : bool;
  ch_emitable : bool;
  ch_destroyed : bool;
  ch_endsig : option Packet;
  ch_listeners : list string;
  ch_events : list Event
}.

(** [new Channel()] *)
Definition Channel_new : Channel :=
  mkChannel None false false false None None None None None None
            false false false false None [] [].

(** The socket handed over by the handshake.  [sk_written] are the
    buffers passed to [sock.write], oldest first.  What [write] answers
    is the host's business: [sk_broken] makes it throw, otherwise it
    returns [sk_flushes]. *)
Record Socket : Type := mkSocket {
  sk_written : list (list Z);
  sk_flushes : bool;
  sk_broken : option JsError;
  sk_timeout : Z;
  sk_timeout_listeners : nat
}.

Record Connection : Type := mkConnection {
  cn_id : option string;
  cn_chanRefCount : Z;
  cn_reqRefCount : Z;
  cn_channels : gmap Z chanRef;
  cn_requests : gmap Z reqRef;
  cn_sock : option Socket;
  cn_parser : ParserState
}.

(** An [OpenRequest].  [rq_chan] is the channel captured by the
    [onresponse] and [onclose] closures that [Connection.open] installs;
    it is [None] until then. *)
Record OpenRequest : Type := mkOpenRequest {
  rq_conn : connRef;
  rq_id : Z;
  rq_flag : Z;
  rq_data : option (list Z);
  rq_present : bool;
  rq_sent : bool;
  rq_destroyed : bool;
  rq_prev : option reqRef;
  rq_next : option reqRef;
  rq_chan : option chanRef
}.

Definition OpenRequest_toBuffer (r : OpenRequest) : list Z :=
  OpenRequest_toBuffer_of (rq_id r) (rq_flag r) (rq_data r).

(** Callbacks queued with [process.nextTick]. *)
Inductive Task : Type :=
| TickAlreadyOpen (chan : chanRef)   (* in [Connection.open] *)
| TickSend (req : reqRef).           (* in [OpenRequest.send] *)

(** The store: the three kinds of objects, the two class-level tables
    [Connection.all] and [Connection.disposed], the tick queue and the
    handshakes started by [getSock] and not yet answered.  In
    [Connection.all] a key set to [undefined] is a key removed. *)
Record World : Type := mkWorld {
  w_channels : gmap nat Channel;
  w_requests : gmap nat OpenRequest;
  w_connections : gmap nat Connection;
  w_all : gmap string connRef;
  w_disposed : gmap string connRef;
  w_ticks : list Task;
  w_handshakes : list (connRef * Url);
  w_next : nat                       (* the next unused reference *)
}.

Definition World_init : World := mkWorld ∅ ∅ ∅ ∅ ∅ [] [] 0.

(** Field assignments. *)

Definition set_ch_id (v : option Z) (x : Channel) : Channel :=
  mkChannel v (ch_connecting x) (ch_opening x) (ch_closing x)
    (ch_connection x) (ch_request x) (ch_mode x) (ch_writeQueue x)
    (ch_encoding x) (ch_url x) (ch_readable x) (ch_writable x) (ch_emitable x)
    (ch_destroyed x) (ch_endsig x) (ch_listeners x) (ch_events x).

Definition set_ch_connecting (v : bool) (x : Channel) : Channel :=
  mkChannel (ch_id x) v (ch_opening x) (ch_closing x) (ch_connection x)
    (ch_request x) (ch_mode x) (ch_writeQueue x) (ch_encoding x) (ch_url x)
    (ch_readable x) (ch_writable x) (ch_emitable x) (ch_destroyed x)
    (ch_endsig x) (ch_listeners x) (ch_events x).

Definition set_ch_closing (v : bool) (x : Channel) : Channel :=
  mkChannel (ch_id x) (ch_connecting x) (ch_opening x) v (ch_connection x)
    (ch_request x) (ch_mode x) (ch_writeQueue x) (ch_encoding x) (ch_url x)
    (ch_readable x) (ch_writable x) (ch_emitable x) (ch_destroyed x)
    (ch_endsig x) (ch_listeners x) (ch_events x).

Definition set_ch_connection (v : option connRef) (x : Channel) : Channel :=
  mkChannel (ch_id x) (ch_connecting x) (ch_opening x) (ch_closing x) v
    (ch_request x) (ch_mode x) (ch_writeQueue x) (ch_encoding x) (ch_url x)
    (ch_readable x) (ch_writable x) (ch_emitable x) (ch_destroyed x)
    (ch_endsig x) (ch_listeners x) (ch_events x).

Definition set_ch_request (v : option reqRef) (x : Channel) : Channel :=
  mkChannel (ch_id x) (ch_connecting x) (ch_opening x) (ch_closing x)
    (ch_connection x) v (ch_mode x) (ch_writeQueue x) (ch_encoding x)
    (ch_url x) (ch_readable x) (ch_writable x) (ch_emitable x)
    (ch_destroyed x) (ch_endsig x) (ch_listeners x) (ch_events x).

Definition set_ch_mode (v : option Z) (x : Channel) : Channel :=
  mkChannel (ch_id x) (ch_connecting x) (ch_opening x) (ch_closing x)
    (ch_connection x) (ch_request x) v (ch_writeQueue x) (ch_encoding x)
    (ch_url x) (ch_readable x) (ch_writable x) (ch_emitable x)
    (ch_destroyed x) (ch_endsig x) (ch_listeners x) (ch_events x).

Definition set_ch_writeQueue (v : option (list Packet))
    (x : Channel) : Channel :=
  mkChannel (ch_id x) (ch_connecting x) (ch_opening x) (ch_closing x)
    (ch_connection x) (ch_request x) (ch_mode x) v (ch_encoding x) (ch_url x)
    (ch_readable x) (ch_writable x) (ch_emitable x) (ch_destroyed x)
    (ch_endsig x) (ch_listeners x) (ch_events x).

Definition set_ch_encoding (v : option string) (x : Channel) : Channel :=
  mkChannel (ch_id x) (ch_connecting x) (ch_opening x) (ch_closing x)
    (ch_connection x) (ch_request x) (ch_mode x) (ch_writeQueue x) v
    (ch_url x) (ch_readable x) (ch_writable x) (ch_emitable x)
    (ch_destroyed x) (ch_endsig x) (ch_listeners x) (ch_events x).

Definition set_ch_url (v : option string) (x : Channel) : Channel :=
  mkChannel (ch_id x) (ch_connecting x) (ch_opening x) (ch_closing x)
    (ch_connection x) (ch_request x) (ch_mode x) (ch_writeQueue x)
    (ch_encoding x) v (ch_readable x) (ch_writable x) (ch_emitable x)
    (ch_destroyed x) (ch_endsig x) (ch_listeners x) (ch_events x).

Definition set_ch_readable (v : bool) (x : Channel) : Channel :=
  mkChannel (ch_id x) (ch_connecting x) (ch_opening x) (ch_closing x)
    (ch_connection x) (ch_request x) (ch_mode x) (ch_writeQueue x)
    (ch_encoding x) (ch_url x) v (ch_writable x) (ch_emitable x)
    (ch_destroyed x) (ch_endsig x) (ch_listeners x) (ch_events x).

Definition set_ch_writable (v : bool) (x : Channel) : Channel :=
  mkChannel (ch_id x) (ch_connecting x) (ch_opening x) (ch_closing x)
    (ch_connection x) (ch_request x) (ch_mode x) (ch_writeQueue x)
    (ch_encoding x) (ch_url x) (ch_readable x) v (ch_emitable x)
    (ch_destroyed x) (ch_endsig x) (ch_listeners x) (ch_events x).

Definition set_ch_emitable (v : bool) (x : Channel) : Channel :=
  mkChannel (ch_id x) (ch_connecting x) (ch_opening x) (ch_closing x)
    (ch_connection x) (ch_request x) (ch_mode x) (ch_writeQueue x)
    (ch_encoding x) (ch_url x) (ch_readable x) (ch_writable x) v
    (ch_destroyed x) (ch_endsig x) (ch_listeners x) (ch_events x).

Definition set_ch_destroyed (v : bool) (x : Channel) : Channel :=
  mkChannel (ch_id x) (ch_connecting x) (ch_opening x) (ch_closing x)
    (ch_connection x) (ch_request x) (ch_mode x) (ch_writeQueue x)
    (ch_encoding x) (ch_url x) (ch_readable x) (ch_writable x)
    (ch_emitable x) v (ch_endsig x) (ch_listeners x) (ch_events x).

Definition set_ch_endsig (v : option Packet) (x : Channel) : Channel :=
  mkChannel (ch_id x) (ch_connecting x) (ch_opening x) (ch_closing x)
    (ch_connection x) (ch_request x) (ch_mode x) (ch_writeQueue x)
    (ch_encoding x) (ch_url x) (ch_readable x) (ch_writable x) (ch_emitable x)
    (ch_destroyed x) v (ch_listeners x) (ch_events x).

Definition set_ch_events (v : list Event) (x : Channel) : Channel :=
  mkChannel (ch_id x) (ch_connecting x) (ch_opening x) (ch_closing x)
    (ch_connection x) (ch_request x) (ch_mode x) (ch_writeQueue x)
    (ch_encoding x) (ch_url x) (ch_readable x) (ch_writable x) (ch_emitable x)
    (ch_destroyed x) (ch_endsig x) (ch_listeners x) v.

Definition set_sk_written (v : list (list Z)) (x : Socket) : Socket :=
  mkSocket v (sk_flushes x) (sk_broken x) (sk_timeout x)
    (sk_timeout_listeners x).

Definition set_sk_timeout (v : Z) (x : Socket) : Socket :=
  mkSocket (sk_written x) (sk_flushes x) (sk_broken x) v
    (sk_timeout_listeners x).

Definition set_sk_timeout_listeners (v : nat) (x : Socket) : Socket :=
  mkSocket (sk_written x) (sk_flushes x) (sk_broken x) (sk_timeout x) v.

Definition set_cn_id (v : option string) (x : Connection) : Connection :=
  mkConnection v (cn_chanRefCount x) (cn_reqRefCount x) (cn_channels x)
    (cn_requests x) (cn_sock x) (cn_parser x).

Definition set_cn_chanRefCount (v : Z) (x : Connection) : Connection :=
  mkConnection (cn_id x) v (cn_reqRefCount x) (cn_channels x) (cn_requests x)
    (cn_sock x) (cn_parser x).

Definition set_cn_reqRefCount (v : Z) (x : Connection) : Connection :=
  mkConnection (cn_id x) (cn_chanRefCount x) v (cn_channels x) (cn_requests x)
    (cn_sock x) (cn_parser x).

Definition set_cn_channels (v : gmap Z chanRef) (x : Connection) : Connection :=
  mkConnection (cn_id x) (cn_chanRefCount x) (cn_reqRefCount x) v
    (cn_requests x) (cn_sock x) (cn_parser x).

Definition set_cn_requests (v : gmap Z reqRef) (x : Connection) : Connection :=
  mkConnection (cn_id x) (cn_chanRefCount x) (cn_reqRefCount x)
    (cn_channels x) v (cn_sock x) (cn_parser x).

Definition set_cn_sock (v : option Socket) (x : Connection) : Connection :=
  mkConnection (cn_id x) (cn_chanRefCount x) (cn_reqRefCount x)
    (cn_channels x) (cn_requests x) v (cn_parser x).

Definition set_cn_parser (v : ParserState) (x : Connection) : Connection :=
  mkConnection (cn_id x) (cn_chanRefCount x) (cn_reqRefCount x)
    (cn_channels x) (cn_requests x) (cn_sock x) v.

Definition set_rq_present (v : bool) (x : OpenRequest) : OpenRequest :=
  mkOpenRequest (rq_conn x) (rq_id x) (rq_flag x) (rq_data x) v (rq_sent x)
    (rq_destroyed x) (rq_prev x) (rq_next x) (rq_chan x).

Definition set_rq_sent (v : bool) (x : OpenRequest) : OpenRequest :=
  mkOpenRequest (rq_conn x) (rq_id x) (rq_flag x) (rq_data x) (rq_present x) v
    (rq_destroyed x) (rq_prev x) (rq_next x) (rq_chan x).

Definition set_rq_destroyed (v : bool) (x : OpenRequest) : OpenRequest :=
  mkOpenRequest (rq_conn x) (rq_id x) (rq_flag x) (rq_data x) (rq_present x)
    (rq_sent x) v (rq_prev x) (rq_next x) (rq_chan x).

Definition set_rq_prev (v : option reqRef) (x : OpenRequest) : OpenRequest :=
  mkOpenRequest (rq_conn x) (rq_id x) (rq_flag x) (rq_data x) (rq_present x)
    (rq_sent x) (rq_destroyed x) v (rq_next x) (rq_chan x).

Definition set_rq_next (v : option reqRef) (x : OpenRequest) : OpenRequest :=
  mkOpenRequest (rq_conn x) (rq_id x) (rq_flag x) (rq_data x) (rq_present x)
    (rq_sent x) (rq_destroyed x) (rq_prev x) v (rq_chan x).

Definition set_rq_chan (v : option chanRef) (x : OpenRequest) : OpenRequest :=
  mkOpenRequest (rq_conn x) (rq_id x) (rq_flag x) (rq_data x) (rq_present x)
    (rq_sent x) (rq_destroyed x) (rq_prev x) (rq_next x) v.

Definition set_w_channels (v : gmap nat Channel) (x : World) : World :=
  mkWorld v (w_requests x) (w_connections x) (w_all x) (w_disposed x)
    (w_ticks x) (w_handshakes x) (w_next x).

Definition set_w_requests (v : gmap nat OpenRequest) (x : World) : World :=
  mkWorld (w_channels x) v (w_connections x) (w_all x) (w_disposed x)
    (w_ticks x) (w_handshakes x) (w_next x).

Definition set_w_connections (v : gmap nat Connection) (x : World) : World :=
  mkWorld (w_channels x) (w_requests x) v (w_all x) (w_disposed x) (w_ticks x)
    (w_handshakes x) (w_next x).

Definition set_w_all (v : gmap string connRef) (x : World) : World :=
  mkWorld (w_channels x) (w_requests x) (w_connections x) v (w_disposed x)
    (w_ticks x) (w_handshakes x) (w_next x).

Definition set_w_disposed (v : gmap string connRef) (x : World) : World :=
  mkWorld (w_channels x) (w_requests x) (w_connections x) (w_all x) v
    (w_ticks x) (w_handshakes x) (w_next x).

Definition set_w_ticks (v : list Task) (x : World) : World :=
  mkWorld (w_channels x) (w_requests x) (w_connections x) (w_all x)
    (w_disposed x) v (w_handshakes x) (w_next x).

Definition set_w_handshakes (v : list (connRef * Url)) (x : World) : World :=
  mkWorld (w_channels x) (w_requests x) (w_connections x) (w_all x)
    (w_disposed x) (w_ticks x) v (w_next x).

Definition set_w_next (v : nat) (x : World) : World :=
  mkWorld (w_channels x) (w_requests x) (w_connections x) (w_all x)
    (w_disposed x) (w_ticks x) (w_handshakes x) v.

(** ** Stateful code: a state and exception monad over the store *)

Definition M (A : Type) : Type := World -> Res A * World.

Definition ret {A : Type} (a : A) : M A := fun w => (Ok a, w).

Definition throw {A : Type} (e : JsError) : M A := fun w => (Throw e, w).

Definition bind {A B : Type} (m : M A) (k : A -> M B) : M B :=
  fun w => match m w with
           | (Ok a, w') => k a w'
           | (Throw e, w') => (Throw e, w')
           end.

Notation "x <- m ;; k" := (bind m (fun x => k))
  (at level 100, m at next level, right associativity).
Notation "m ;; k" := (bind m (fun _ => k))
  (at level 100, right associativity).

(** [try { m } catch (e) { h e }] *)
Definition try_catch {A : Type} (m : M A) (h : JsError -> M A) : M A :=
  fun w => match m w with
           | (Ok a, w') => (Ok a, w')
           | (Throw Diverged, w') => (Throw Diverged, w')
           | (Throw e, w') => h e w'
           end.

Definition get_world : M World := fun w => (Ok w, w).
Definition modify (f : World -> World) : M unit := fun w => (Ok tt, f w).

Fixpoint for_each {A : Type} (l : list A) (f : A -> M unit) : M unit :=
  match l with
  | [] => ret tt
  | x :: l' => f x ;; for_each l' f
  end.

(** Dereferencing.  Every reference the code holds names an object; the
    [TypeError] of a dangling one is never raised from a store built by
    the constructors below. *)
Definition get_chan (c : chanRef) : M Channel :=
  fun w => match w_channels w !! c with
           | Some ch => (Ok ch, w)
           | None => (Throw (TypeError "dangling channel reference"), w)
           end.

Definition get_conn (c : connRef) : M Connection :=
  fun w => match w_connections w !! c with
           | Some cn => (Ok cn, w)
           | None => (Throw (TypeError "dangling connection reference"), w)
           end.

Definition get_req (r : reqRef) : M OpenRequest :=
  fun w => match w_requests w !! r with
           | Some rq => (Ok rq, w)
           | None => (Throw (TypeError "dangling request reference"), w)
           end.

Definition upd_chan (c : chanRef) (f : Channel -> Channel) : M unit :=
  modify (fun w => set_w_channels (alter f c (w_channels w)) w).

Definition upd_conn (c : connRef) (f : Connection -> Connection) : M unit :=
  modify (fun w => set_w_connections (alter f c (w_connections w)) w).

Definition upd_req (r : reqRef) (f : OpenRequest -> OpenRequest) : M unit :=
  modify (fun w => set_w_requests (alter f r (w_requests w)) w).

(** [new]: the object is stored under the next unused reference. *)
Definition alloc_chan (ch : Channel) : M chanRef :=
  fun w => (Ok (w_next w),
            set_w_next (Datatypes.S (w_next w))
              (set_w_channels (<[w_next w := ch]> (w_channels w)) w)).

Definition alloc_conn (cn : Connection) : M connRef :=
  fun w => (Ok (w_next w),
            set_w_next (Datatypes.S (w_next w))
              (set_w_connections (<[w_next w := cn]> (w_connections w)) w)).

Definition alloc_req (rq : OpenRequest) : M reqRef :=
  fun w => (Ok (w_next w),
            set_w_next (Datatypes.S (w_next w))
              (set_w_requests (<[w_next w := rq]> (w_requests w)) w)).

(** [process.nextTick(task)] *)
Definition nextTick (t : Task) : M unit :=
  modify (fun w => set_w_ticks (w_ticks w ++ [t]) w).

(** Truthiness of [chan.id] (a number or [null]) and of [conn.id] (a
    string or [null]). *)
Definition id_truthy (id : option Z) : bool :=
  match id with Some z => negb (z =? 0) | None => false end.

Definition str_truthy (s : option string) : bool :=
  match s with Some x => negb (String.eqb x "") | None => false end.

(** [chan.emit(...)] *)
Definition emit (c : chanRef) (ev : Event) : M unit :=
  upd_chan c (fun ch => set_ch_events (ch_events ch ++ [ev]) ch).

(** [chan._events && chan._events[name]] *)
Definition has_listener (ch : Channel) (name : string) : bool :=
  existsb (String.eqb name) (ch_listeners ch).

(** ** Connection: disposal and the socket *)

(** [Connection.prototype.setDisposed] *)
Definition Connection_setDisposed (conn : connRef) (state : bool) : M unit :=
  cn <- get_conn conn ;;
  match cn_id cn, cn_sock cn with
  | Some id, Some sock =>
    if negb (str_truthy (Some id)) then ret tt
    else if state then
      upd_conn conn (set_cn_sock
        (Some (set_sk_timeout_listeners (Datatypes.S (sk_timeout_listeners sock))
                 (set_sk_timeout 200 sock)))) ;;
      modify (fun w => set_w_all (delete id (w_all w))
                         (set_w_disposed (<[id := conn]> (w_disposed w)) w))
    else
      modify (fun w => set_w_all (<[id := conn]> (w_all w))
                         (set_w_disposed (delete id (w_disposed w)) w)) ;;
      upd_conn conn (set_cn_sock
        (Some (set_sk_timeout_listeners 0%nat (set_sk_timeout 0 sock))))
  | _, _ => ret tt
  end.

(** [if (conn.chanRefCount == 0 && conn.reqRefCount == 0)
    conn.setDisposed(true)] *)
Definition dispose_if_unused (conn : connRef) : M unit :=
  cn <- get_conn conn ;;
  if (cn_chanRefCount cn =? 0) && (cn_reqRefCount cn =? 0)
  then Connection_setDisposed conn true
  else ret tt.

(** [Connection.prototype.write], on the bytes of [packet.toBuffer()]. *)
Definition Connection_write (conn : connRef) (buf : list Z) : M bool :=
  cn <- get_conn conn ;;
  match cn_sock cn with
  | Some sock =>
    match sk_broken sock with
    | Some e => throw e
    | None =>
      upd_conn conn (set_cn_sock
        (Some (set_sk_written (sk_written sock ++ [buf]) sock))) ;;
      ret (sk_flushes sock)
    end
  | None => ret false
  end.

(** [finalizeDestroyChannel(chan, err, message)] *)
Definition finalizeDestroyChannel (chan : chanRef) (err : option JsError)
  (message : option string) : M unit :=
  ch <- get_chan chan ;;
  let id := ch_id ch in
  if ch_destroyed ch then ret tt
  else
    match ch_connection ch, id with
    | Some conn, Some idz =>
      if id_truthy id then
        cn <- get_conn conn ;;
        if decide (cn_channels cn !! idz = Some chan) then
          upd_conn conn (fun cn =>
            set_cn_chanRefCount (cn_chanRefCount cn - 1)
              (set_cn_channels (delete idz (cn_channels cn)) cn)) ;;
          dispose_if_unused conn
        else ret tt
      else ret tt
    | _, _ => ret tt
    end ;;
    upd_chan chan (fun ch =>
      set_ch_connection None (set_ch_request None (set_ch_destroyed true
        (set_ch_emitable false (set_ch_writable false (set_ch_readable false
          (set_ch_id None ch))))))) ;;
    match err with
    | Some e => emit chan (EvError e)
    | None => ret tt
    end ;;
    emit chan (EvClose (bool_decide (is_Some err)) message).

(** ** OpenRequest *)

(** [while (next.next && (next = next.next)) {}]: the last request of the
    chain that starts at [r]. *)
Fixpoint chain_last (fuel : nat) (reqs : gmap nat OpenRequest) (r : reqRef)
  : Res reqRef :=
  match fuel with
  | O => Throw Diverged
  | Datatypes.S fuel' =>
    match reqs !! r with
    | None => Throw (TypeError "dangling request reference")
    | Some rq =>
      match rq_next rq with
      | Some n => chain_last fuel' reqs n
      | None => Ok r
      end
    end
  end.

(** A chain without a cycle visits each stored request at most once. *)
Definition chain_fuel (w : World) : nat := Datatypes.S (size (w_requests w)).

(** [new OpenRequest(conn, id, flag, data)] *)
Definition OpenRequest_new (conn : connRef) (id flag : Z) (data : option (list Z))
  : M reqRef :=
  cn <- get_conn conn ;;
  this <- alloc_req (mkOpenRequest conn id flag data false false false
                                   None None None) ;;
  match cn_requests cn !! id with
  | Some first =>
    w <- get_world ;;
    match chain_last (chain_fuel w) (w_requests w) first with
    | Ok last => upd_req last (set_rq_next (Some this))
    | Throw e => throw e
    end
  | None =>
    upd_conn conn (fun cn => set_cn_requests (<[id := this]> (cn_requests cn)) cn)
  end ;;
  upd_conn conn (fun cn => set_cn_reqRefCount (cn_reqRefCount cn + 1) cn) ;;
  ret this.

(** [OpenRequest.prototype.destroy]; [onclose] is the closure of
    [Connection.open]: [if (err) finalizeDestroyChannel(chan, err)]. *)
Definition OpenRequest_destroy (r : reqRef) (err : option JsError) : M unit :=
  rq <- get_req r ;;
  if rq_destroyed rq then ret tt
  else
    cn <- get_conn (rq_conn rq) ;;
    (if str_truthy (cn_id cn) then
       upd_conn (rq_conn rq)
         (fun cn => set_cn_reqRefCount (cn_reqRefCount cn - 1) cn) ;;
       dispose_if_unused (rq_conn rq)
     else ret tt) ;;
    match rq_chan rq, err with
    | Some chan, Some e => finalizeDestroyChannel chan (Some e) None
    | _, _ => ret tt
    end ;;
    upd_req r (set_rq_destroyed true).

(** [OpenRequest.prototype.destroyAndNext] *)
Fixpoint OpenRequest_destroyAndNext_n (fuel : nat) (r : reqRef)
  (err : option JsError) : M unit :=
  match fuel with
  | O => throw Diverged
  | Datatypes.S fuel' =>
    rq <- get_req r ;;
    match rq_next rq with
    | Some n => OpenRequest_destroyAndNext_n fuel' n err
    | None => ret tt
    end ;;
    OpenRequest_destroy r err
  end.

Definition OpenRequest_destroyAndNext (r : reqRef) (err : option JsError)
  : M unit :=
  w <- get_world ;;
  OpenRequest_destroyAndNext_n (chain_fuel w) r err.

(** [OpenRequest.prototype.send]; the deferred part is [TickSend]. *)
Definition OpenRequest_send (r : reqRef) : M unit :=
  rq <- get_req r ;;
  if rq_present rq then ret tt
  else
    upd_req r (set_rq_present true) ;;
    if rq_sent rq then throw (Error "OpenRequest is already sent")
    else nextTick (TickSend r).

(** [OpenRequest.prototype.cancel] *)
Definition OpenRequest_cancel (r : reqRef) : M bool :=
  rq <- get_req r ;;
  let id := rq_id rq in
  let conn := rq_conn rq in
  cn <- get_conn conn ;;
  if rq_sent rq then ret false
  else
    (if decide (cn_requests cn !! id = Some r) then
       match rq_next rq with
       | Some n =>
         upd_conn conn (fun cn => set_cn_requests (<[id := n]> (cn_requests cn)) cn)
       | None =>
         upd_conn conn (fun cn => set_cn_requests (delete id (cn_requests cn)) cn)
       end
     else
       match rq_prev rq with
       | Some _ => upd_req r (set_rq_prev (rq_next rq))
       | None => ret tt
       end) ;;
    OpenRequest_destroy r None ;;
    ret true.

(** ** Connection: destruction *)

(** [Connection.prototype.destroy].  The two [for ... in] loops visit the
    keys present when they start and skip those deleted meanwhile; the
    order of the keys is the host's. *)
Definition Connection_destroy (conn : connRef) (err : option JsError)
  (message : option string) : M unit :=
  cn <- get_conn conn ;;
  match cn_id cn with
  | Some id =>
    if negb (str_truthy (Some id)) then ret tt
    else
      upd_conn conn (set_cn_id None) ;;
      for_each (map_to_list (cn_channels cn)) (fun kv =>
        cn' <- get_conn conn ;;
        match cn_channels cn' !! kv.1 with
        | Some chan => finalizeDestroyChannel chan err message
        | None => ret tt
        end) ;;
      for_each (map_to_list (cn_requests cn)) (fun kv =>
        cn' <- get_conn conn ;;
        match cn_requests cn' !! kv.1 with
        | Some request => OpenRequest_destroyAndNext request err
        | None => ret tt
        end) ;;
      upd_conn conn (fun cn =>
        set_cn_reqRefCount 0 (set_cn_chanRefCount 0
          (set_cn_requests ∅ (set_cn_channels ∅ cn)))) ;;
      modify (fun w => set_w_disposed (delete id (w_disposed w))
                         (set_w_all (delete id (w_all w)) w)) ;;
      upd_conn conn (set_cn_sock None)
  | None => ret tt
  end.

(** The callback that [OpenRequest.send] defers. *)
Definition OpenRequest_send_tick (r : reqRef) : M unit :=
  upd_req r (set_rq_sent true) ;;
  rq <- get_req r ;;
  try_catch (Connection_write (rq_conn rq) (OpenRequest_toBuffer rq) ;; ret tt)
            (fun err => Connection_destroy (rq_conn rq) (Some err) None).

(** ** Channel: writing out, destroying, opening *)

(** [Channel.prototype._writeOut]; [destroy] is [this.destroy]. *)
Definition Channel_writeOut_with (destroy : chanRef -> option JsError -> M unit)
  (c : chanRef) (packet : Packet) : M bool :=
  ch <- get_chan c ;;
  match ch_writeQueue ch with
  | Some queue =>
    upd_chan c (set_ch_writeQueue (Some (queue ++ [packet]))) ;;
    ret false
  | None =>
    if ch_connecting ch then
      upd_chan c (set_ch_writeQueue (Some [packet])) ;;
      ret false
    else
      match ch_connection ch with
      | Some conn => Connection_write conn (Packet_toBuffer packet)
      | None =>
        destroy c (Some (Error "Channel is not writable")) ;;
        ret false
      end
  end.

(** [Channel.prototype.destroy]; [destroy] is the method itself, for the
    call that [_writeOut] may make. *)
Definition Channel_destroy_body (destroy : chanRef -> option JsError -> M unit)
  (c : chanRef) (err : option JsError) : M unit :=
  ch <- get_chan c ;;
  if ch_destroyed ch || ch_closing ch || negb (id_truthy (ch_id ch)) then ret tt
  else
    match ch_connection ch with
    | None => finalizeDestroyChannel c None None
    | Some _ => ret tt
    end ;;
    upd_chan c (fun ch =>
      set_ch_closing true (set_ch_emitable false (set_ch_writable false
        (set_ch_readable false ch)))) ;;
    ch1 <- get_chan c ;;
    cancelled <- match ch_request ch1, ch_endsig ch1 with
                 | Some r, None => OpenRequest_cancel r
                 | _, _ => ret false
                 end ;;
    if cancelled then
      upd_chan c (set_ch_request None) ;;
      finalizeDestroyChannel c err None
    else
      ch2 <- get_chan c ;;
      let sig := match ch_endsig ch2 with
                 | Some s => s
                 | None => SignalFrame (ch_id ch2) SignalFlag.FLAG_END None
                 end in
      match ch_request ch2 with
      | Some _ =>
        (* wait for the open response before the END is sent *)
        upd_chan c (set_ch_endsig (Some sig))
      | None =>
        try_catch (Channel_writeOut_with destroy c sig ;; ret tt)
                  (fun _ => ret tt)
      end.

(** [destroy] and [_writeOut] call each other.  The only call of
    [destroy] from inside [destroy] happens with [_closing] already set
    and returns at its first test, so two levels are all that is ever
    entered (see [Channel_destroy_depth]). *)
Fixpoint Channel_destroy_n (depth : nat) (c : chanRef) (err : option JsError)
  : M unit :=
  match depth with
  | O => throw Diverged
  | Datatypes.S d => Channel_destroy_body (Channel_destroy_n d) c err
  end.

Definition Channel_destroy : chanRef -> option JsError -> M unit :=
  Channel_destroy_n 2.

Definition Channel_writeOut : chanRef -> Packet -> M bool :=
  Channel_writeOut_with Channel_destroy.

(** The [for] loop of [_open] over the queued packets.  The result is
    the last [flushed], or [None] when the loop left [_open] through
    [return]. *)
Fixpoint Channel_open_drain (c : chanRef) (newid : Z) (queue : list Packet)
  (flushed : bool) : M (option bool) :=
  match queue with
  | [] => ret (Some flushed)
  | packet :: rest =>
    r <- try_catch
           (f <- Channel_writeOut c (Packet_set_id packet (Some newid)) ;;
            ret (Some f))
           (fun writeException =>
              Channel_destroy c (Some writeException) ;; ret None) ;;
    match r with
    | Some f => Channel_open_drain c newid rest f
    | None => ret None
    end
  end.

(** [Channel.prototype._open].  The function has no variable [self]: when
    the channel is closing, evaluating [self._endsig] raises a
    ReferenceError. *)
Definition Channel_open (c : chanRef) (newid : Z) : M unit :=
  ch <- get_chan c ;;
  let queue := ch_writeQueue ch in
  upd_chan c (fun ch =>
    set_ch_request None (set_ch_writeQueue None (set_ch_connecting false
      (set_ch_id (Some newid) ch)))) ;;
  match ch_connection ch with
  | None => throw (TypeError "Cannot read property 'channels' of null")
  | Some conn =>
    upd_conn conn (fun cn =>
      set_cn_chanRefCount (cn_chanRefCount cn + 1)
        (set_cn_channels (<[newid := c]> (cn_channels cn)) cn)) ;;
    drained <- match queue with
               | Some (p :: q) => Channel_open_drain c newid (p :: q) false
               | _ => ret (Some false)
               end ;;
    match drained with
    | None => ret tt
    | Some flushed =>
      ch' <- get_chan c ;;
      if ch_closing ch' then throw (ReferenceError "self is not defined")
      else
        emit c EvConnect ;;
        if flushed then emit c EvDrain else ret tt
    end
  end.

(** ** OpenRequest: the response *)

(** The four payload bytes of a REDIRECT as [processResponse] reads them. *)
Definition redirect_content (data : list Z) (start : Z) : Z :=
  Js.bor (Js.bor (Js.shl (Js.rd data (start + 1)) 16)
                 (Js.shl (Js.rd data (start + 2)) 8))
         (Js.rd data (start + 3))
  + Js.ushr (Js.shl (Js.rd data start) 24) 0.

(** [this.onresponse(newid)], the closure of [Connection.open]. *)
Definition OpenRequest_onresponse (rq : OpenRequest) (newid : Z) : M unit :=
  match rq_chan rq with
  | Some chan => Channel_open chan newid
  | None => throw (TypeError "undefined is not a function")
  end.

(** The first statement of [processResponse]: the request leaves the head
    of its queue.  After ALLOW the successors are destroyed; otherwise
    the successor becomes the head and is sent. *)
Definition OpenRequest_processResponse_queue (rq : OpenRequest) (flag : Z)
  : M unit :=
  let conn := rq_conn rq in
  match rq_next rq with
  | Some next =>
    if flag =? OpenRequestFlag.FLAG_ALLOW then
      OpenRequest_destroyAndNext next (Some (Error "Channel is already open"))
    else
      upd_req next (set_rq_prev None) ;;
      upd_conn conn (fun cn =>
        set_cn_requests (<[rq_id rq := next]> (cn_requests cn)) cn) ;;
      OpenRequest_send next
  | None =>
    upd_conn conn (fun cn =>
      set_cn_requests (delete (rq_id rq) (cn_requests cn)) cn)
  end.

(** [OpenRequest.prototype.processResponse] *)
Definition OpenRequest_processResponse (r : reqRef) (flag : Z)
  (data : list Z) (start end_ : Z) : M unit :=
  rq <- get_req r ;;
  let conn := rq_conn rq in
  OpenRequest_processResponse_queue rq flag ;;
  if flag =? OpenRequestFlag.FLAG_ALLOW then
    OpenRequest_onresponse rq (rq_id rq) ;;
    OpenRequest_destroy r None
  else if flag =? OpenRequestFlag.FLAG_REDIRECT then
    if negb (end_ - start =? 4) then
      Connection_destroy conn (Some (Error "Bad open resp")) None
    else
      OpenRequest_onresponse rq (redirect_content data start) ;;
      OpenRequest_destroy r None
  else
    let content := if end_ - start =? 0 then None
                   else Some (utf8_decode (Js.slice data start end_)) in
    OpenRequest_destroy r
      (Some (Error (if str_truthy content then default "" content
                    else "ERR_OPEN_DENIED"))).

(** ** Connection: opening and inbound dispatch *)

(** [Connection.prototype.processOpen].  The function has no variable
    [sock]: when no request is pending for [id], evaluating
    [sock.destroy] raises a ReferenceError. *)
Definition Connection_processOpen (conn : connRef) (id flag : Z)
  (data : list Z) (start end_ : Z) : M unit :=
  cn <- get_conn conn ;;
  match cn_requests cn !! id with
  | None => throw (ReferenceError "sock is not defined")
  | Some request => OpenRequest_processResponse request flag data start end_
  end.

(** [Connection.prototype.open] *)
Definition Connection_open (conn : connRef) (chan : chanRef) (id mode : Z)
  (token : option (list Z)) : M (option reqRef) :=
  cn <- get_conn conn ;;
  let oldchan := cn_channels cn !! id in
  old_open <- match oldchan with
              | Some oc => och <- get_chan oc ;; ret (negb (ch_closing och))
              | None => ret false
              end ;;
  if old_open then
    nextTick (TickAlreadyOpen chan) ;;
    ret None
  else
    request <- OpenRequest_new conn id mode token ;;
    upd_req request (set_rq_chan (Some chan)) ;;
    (if bool_decide (is_Some (cn_sock cn)) && bool_decide (oldchan = None)
     then OpenRequest_send request
     else ret tt) ;;
    ret (Some request).

(** The callback deferred by [Connection.open] for an id in use. *)
Definition Connection_open_tick (chan : chanRef) : M unit :=
  finalizeDestroyChannel chan (Some (Error "Channel is already open")) None.

(** [new Connection(id)] and [Connection.prototype.connect]: [getSock]
    starts the handshake, whose answer arrives later
    ([Connection_onSock]). *)
Definition Connection_new (id : string) : M connRef :=
  conn <- alloc_conn (mkConnection (Some id) 0 0 ∅ ∅ None parser_init) ;;
  modify (fun w => set_w_all (<[id := conn]> (w_all w)) w) ;;
  ret conn.

Definition Connection_connect (conn : connRef) (url : Url) : M unit :=
  cn <- get_conn conn ;;
  match cn_sock cn with
  | Some _ => throw (Error "Socket already connected")
  | None => modify (fun w => set_w_handshakes (w_handshakes w ++ [(conn, url)]) w)
  end.

(** [Connection.getConnection] *)
Definition Connection_getConnection (url : Url) : M connRef :=
  let id := (default "" (url_protocol url) ++ url_host url)%string in
  w <- get_world ;;
  match w_all w !! id with
  | Some connection => ret connection
  | None =>
    match w_disposed w !! id with
    | Some connection =>
      Connection_setDisposed connection false ;;
      ret connection
    | None =>
      connection <- Connection_new id ;;
      Connection_connect connection url ;;
      ret connection
    end
  end.

(** The callback of [getSock] in [Connection.prototype.connect]. *)
Definition Connection_onSock (conn : connRef) (answer : JsError + Socket)
  : M unit :=
  cn <- get_conn conn ;;
  let requests := cn_requests cn in
  match answer with
  | inl err => Connection_destroy conn (Some err) None
  | inr sock =>
    upd_conn conn (fun cn => set_cn_parser parser_init (set_cn_sock (Some sock) cn)) ;;
    (if cn_reqRefCount cn =? 0 then Connection_setDisposed conn true else ret tt) ;;
    try_catch
      (for_each (map_to_list requests) (fun kv =>
         rq <- get_req kv.2 ;;
         Connection_write conn (OpenRequest_toBuffer rq) ;;
         upd_req kv.2 (set_rq_sent true)))
      (fun writeException => Connection_destroy conn (Some writeException) None)
  end.

(** ** Mode expressions *)

(** The regular expressions the client needs: literals compared without
    case, sequence, alternation, the greedy [{0,1}], capturing groups and
    the end anchor. *)
Inductive Regex : Type :=
| RChar (c : ascii)
| RSeq (r1 r2 : Regex)
| RAlt (r1 r2 : Regex)
| ROpt (r : Regex)
| RGroup (n : nat) (r : Regex)
| REnd.

(** Captures: [match[n]], [None] for [undefined]. *)
Definition Captures : Type := list (option (list ascii)).

(** The backtracking matcher as a list of successes, in the order in which
    backtracking tries them: each result is the captures and the input
    left.  An alternation tries its left branch first, [{0,1}] tries one
    occurrence before none. *)
Fixpoint rx_run (r : Regex) (caps : Captures) (input : list ascii)
  : list (Captures * list ascii) :=
  match r with
  | RChar c =>
    match input with
    | a :: rest => if Ascii.eqb (lower a) (lower c) then [(caps, rest)] else []
    | [] => []
    end
  | RSeq r1 r2 =>
    flat_map (fun cr => rx_run r2 cr.1 cr.2) (rx_run r1 caps input)
  | RAlt r1 r2 => rx_run r1 caps input ++ rx_run r2 caps input
  | ROpt r1 => rx_run r1 caps input ++ [(caps, input)]
  | RGroup n r1 =>
    map (fun cr =>
           (<[n := Some (firstn (List.length input - List.length cr.2) input)]> cr.1,
            cr.2))
        (rx_run r1 caps input)
  | REnd => match input with [] => [(caps, input)] | _ => [] end
  end.

(** [str.match(re)] for a pattern that starts with [^] (so that only
    position 0 is tried) and has [ngroups] groups. *)
Definition rx_match (r : Regex) (ngroups : nat) (s : string) : option Captures :=
  match rx_run r (replicate (Datatypes.S ngroups) None) (list_ascii_of_string s) with
  | cr :: _ => Some cr.1
  | [] => None
  end.

(** The literal [c] followed by the characters of [s]. *)
Fixpoint rx_word (c : ascii) (s : string) : Regex :=
  match s with
  | EmptyString => RChar c
  | String d s' => RSeq (RChar c) (rx_word d s')
  end.

(** [MODE_RE = /^(r|read){0,1}(w|write){0,1}(?:\+){0,1}(e|emit){0,1}$/i] *)
Definition MODE_RE : Regex :=
  RSeq (ROpt (RGroup 1 (RAlt (RChar "r") (rx_word "r" "ead"))))
  (RSeq (ROpt (RGroup 2 (RAlt (RChar "w") (rx_word "w" "rite"))))
  (RSeq (ROpt (RChar "+"))
  (RSeq (ROpt (RGroup 3 (RAlt (RChar "e") (rx_word "e" "mit"))))
        REnd))).

(** The captures with their text in lower case. *)
Definition fold_caps (c : Captures) : Captures :=
  map (option_map (map lower)) c.

(** The language of a pattern, by its structure, and whether the pattern
    ends in [$]. *)
Fixpoint rx_lang (r : Regex) (l : list ascii) : Prop :=
  match r with
  | RChar c => exists a, l = [a] /\ lower a = lower c
  | RSeq r1 r2 => exists l1 l2, l = l1 ++ l2 /\ rx_lang r1 l1 /\ rx_lang r2 l2
  | RAlt r1 r2 => rx_lang r1 l \/ rx_lang r2 l
  | ROpt r1 => l = [] \/ rx_lang r1 l
  | RGroup _ r1 => rx_lang r1 l
  | REnd => l = []
  end.

Fixpoint rx_anchored (r : Regex) : bool :=
  match r with
  | RSeq _ r2 => rx_anchored r2
  | REnd => true
  | _ => false
  end.

(** [match[n]] as a condition. *)
Definition capture_truthy (caps : Captures) (n : nat) : bool :=
  match caps !! n with
  | Some (Some (_ :: _)) => true
  | _ => false
  end.

(** [getBinMode]; [None] is [null]. *)
Definition getBinMode (modeExpr : JsVal) : option Z :=
  if negb (truthy modeExpr) then Some 0
  else
    match modeExpr with
    | VString s =>
      match rx_match MODE_RE 3 s with
      | None => None
      | Some m =>
        let result := 0 in
        let result := if capture_truthy m 1 then Js.bor result READ else result in
        let result := if capture_truthy m 2 then Js.bor result WRITE else result in
        let result := if capture_truthy m 3 then Js.bor result EMIT else result in
        Some result
      end
    | _ => None
    end.

(** The grammar of mode expressions as the specification words it:
    [(r|read)?(w|write)?\+?(e|emit)?], without regard to case.  [b] tells
    whether the optional part is there. *)
Definition mode_part (s : string) (alts : list string) (b : bool) : Prop :=
  if b then In (lower_string s) alts else s = EmptyString.

Definition mode_grammar (s : string) (r w e : bool) : Prop :=
  exists sr sw sp se : string,
    s = (sr ++ sw ++ sp ++ se)%string
    /\ mode_part sr ["r"; "read"]%string r
    /\ mode_part sw ["w"; "write"]%string w
    /\ (sp = EmptyString \/ sp = "+"%string)
    /\ mode_part se ["e"; "emit"]%string e.

Definition mode_bits (r w e : bool) : Z :=
  Z.lor (if r then READ else 0)
        (Z.lor (if w then WRITE else 0) (if e then EMIT else 0)).

(** ** Channel: the public methods *)

Section WithHost.

Variable H : Host.

(** The first half of [Channel.prototype.connect]: the parsed URL and
    the channel id, or the validation error. *)
Definition connect_target (url : JsVal) : Res (Url * Z) :=
  match url with
  | VString s =>
    let s := if String.prefix "http://" s || String.prefix "https://" s
             then s else ("http://" ++ s)%string in
    let url := url_parse H s in
    if negb (bool_decide (url_protocol url = Some "https:"%string))
       && negb (bool_decide (url_protocol url = Some "http:"%string))
    then Throw (Error "bad protocol, expected `http` or `https`")
    else
      let id :=
        match url_pathname url with
        | Some pathname =>
          if negb (String.eqb pathname "")
             && negb (String.length pathname =? 1)%nat
          then
            if String.eqb (String.substring 0 2 pathname) "/x"
            then parseInt H ("0" ++ String.substring 1 (String.length pathname) pathname)
            else parseInt H (String.substring 1 (String.length pathname) pathname)
          else Some 1
        | None => Some 1
        end in
      match id with
      | None => Throw (Error "Invalid channel")
      | Some id =>
        if 4294967295 <? id
        then Throw (Error "Invalid channel expected no between x0 and xFFFFFFFF")
        else Ok (url, id)
      end
  | _ => Throw (Error "bad argument, `url`, expected String")
  end.

(** [Channel.prototype.connect].  [var uri] is declared and never
    assigned: it is [undefined] where [uri.query] is evaluated. *)
Definition Channel_connect (c : chanRef) (url mode : JsVal) : M unit :=
  ch <- get_chan c ;;
  let uri : option Url := None in
  if ch_connecting ch then throw (Error "Already connecting")
  else
    match connect_target url with
    | Throw e => throw e
    | Ok (url, id) =>
      match getBinMode mode with
      | None => throw (Error "Invalid mode")
      | Some mode =>
        token <- (if str_truthy (url_query url) then
                    match uri with
                    | None =>
                      throw (TypeError "Cannot read property 'query' of undefined")
                    | Some uri =>
                      match decodeURIComponent H (default "" (url_query uri)) with
                      | Ok q => ret (Some (utf8_encode q))
                      | Throw e => throw e
                      end
                    end
                  else ret None) ;;
        upd_chan c (fun ch =>
          set_ch_emitable (Js.band mode EMIT =? EMIT)
            (set_ch_writable (Js.band mode WRITE =? WRITE)
              (set_ch_readable (Js.band mode READ =? READ)
                (set_ch_url (Some (url_href url))
                  (set_ch_connecting true
                    (set_ch_mode (Some mode)
                      (set_ch_id (Some id) ch))))))) ;;
        connection <- Connection_getConnection url ;;
        upd_chan c (set_ch_connection (Some connection)) ;;
        request <- Connection_open connection c id mode token ;;
        upd_chan c (set_ch_request request)
      end
    end.

(** [hydna.createChannel(url, mode)] *)
Definition createChannel (url mode : JsVal) : M chanRef :=
  chan <- alloc_chan Channel_new ;;
  Channel_connect chan url mode ;;
  ret chan.

(** [Channel.prototype.setEncoding] *)
Definition Channel_setEncoding (c : chanRef) (encoding : option string) : M unit :=
  if str_truthy encoding && negb (VALID_ENCODINGS_RE_test (default "" encoding))
  then throw (Error "Encoding method not supported")
  else upd_chan c (set_ch_encoding encoding).

(** [(x || 1) - 1] on the priority argument; [None] is NaN. *)
Definition priority_flag (arg : JsVal) : option Z :=
  match (if truthy arg then arg else VNumber 1) with
  | VNumber n => Some (n - 1)
  | VBool b => Some ((if b then 1 else 0) - 1)
  | VString s => option_map (fun n => n - 1) (toNumber H s)
  | VNull => Some (-1)
  | VUndefined | VNaN | VBuffer _ => None
  end.

(** The payload of [write] and [dispatch] for data that is not a
    Buffer. *)
Definition encode_payload (data : JsVal) (encoding : option string)
  : Res (list Z) :=
  if str_truthy encoding && negb (VALID_ENCODINGS_RE_test (default "" encoding))
  then Throw (Error "Encoding method is not supported")
  else if bool_decide (encoding = Some "json"%string) then
    match JSON_stringify H data with
    | Ok s => Buffer_of_string H s (Some "utf8"%string)
    | Throw e => Throw e
    end
  else Buffer_of_string H (toString H data) encoding.

(** The payload [write] and [dispatch] send: the Buffer itself, or the
    encoded text. *)
Definition payload_of (data : JsVal) (encoding : option string)
  : Res (list Z) :=
  match data with
  | VBuffer b => Ok b
  | _ => encode_payload data encoding
  end.

(** [typeof arguments[1] == "string" && arguments[1]] *)
Definition arg_encoding (arg1 : JsVal) : option string :=
  match arg1 with VString s => Some s | _ => None end.

(** [Channel.prototype.write(data, encoding, priority)]; [arg1] and
    [arg2] are [arguments[1]] and [arguments[2]]. *)
Definition Channel_write (c : chanRef) (data arg1 arg2 : JsVal) : M bool :=
  ch <- get_chan c ;;
  let encoding := arg_encoding arg1 in
  let flag := priority_flag arg2 in
  if negb (ch_writable ch) then throw (Error "Channel is not writable")
  else
    match flag with
    | None => throw (Error "Bad priority, expected Number between 1-4")
    | Some flag =>
      if (flag <? 0) || (3 <? flag)
      then throw (Error "Bad priority, expected Number between 1-4")
      else if negb (truthy data) then throw (Error "Expected `data`")
      else
        let flag := Js.bor (Js.shl flag 1)
                           (match data with VBuffer _ => 0 | _ => 1 end) in
        match payload_of data encoding with
        | Throw e => throw e
        | Ok payload =>
          if MAX_PAYLOAD_SIZE <? Js.blen payload
          then throw (Error "Cannot send data, max length reach.")
          else
            try_catch
              (Channel_writeOut c (DataFrame (ch_id ch) flag (Some payload)))
              (fun writeException =>
                 Channel_destroy c (Some writeException) ;; ret false)
        end
    end.

(** [Channel.prototype.dispatch(data, encoding)] *)
Definition Channel_dispatch (c : chanRef) (data : JsVal)
  (encoding : option string) : M bool :=
  ch <- get_chan c ;;
  if negb (ch_emitable ch) then throw (Error "Channel is not emitable.")
  else if negb (truthy data) then throw (Error "Expected `data`")
  else
    match payload_of data encoding with
    | Throw e => throw e
    | Ok payload =>
      if MAX_PAYLOAD_SIZE <? Js.blen payload
      then throw (Error "Cannot send data, max length reach.")
      else
        try_catch
          (Channel_writeOut c
             (SignalFrame (ch_id ch) SignalFlag.FLAG_EMIT (Some payload)))
          (fun writeException =>
             Channel_destroy c (Some writeException) ;; ret false)
    end.

(** [Channel.prototype.end(message)]; [None] is a missing argument. *)
Definition Channel_end (c : chanRef) (message : option string) : M unit :=
  ch <- get_chan c ;;
  if ch_destroyed ch || ch_closing ch then ret tt
  else
    let payload := if str_truthy message
                   then Some (utf8_encode (default "" message)) else None in
    upd_chan c (set_ch_endsig
                  (Some (SignalFrame (ch_id ch) SignalFlag.FLAG_END payload))) ;;
    Channel_destroy c None.

(** [Channel.prototype.ondata] *)
Definition Channel_ondata (c : chanRef) (data : list Z) (start end_ flag : Z)
  : M unit :=
  ch <- get_chan c ;;
  let encoding := ch_encoding ch in
  let message := Js.slice data start end_ in
  decoded <-
    (if str_truthy encoding || negb (Js.band flag 1 =? 0) then
       if bool_decide (encoding = Some "json"%string) then
         match JSON_parse H (Buffer_toString H message (Some "utf8"%string)) with
         | Ok v => ret (Some v)
         | Throw Diverged => throw Diverged
         | Throw exception => Channel_destroy c (Some exception) ;; ret None
         end
       else ret (Some (VString (Buffer_toString H message encoding)))
     else ret (Some (VBuffer message))) ;;
  match decoded with
  | None => ret tt
  | Some message =>
    if has_listener ch "data"
    then emit c (EvData message (Js.shr flag 1 + 1))
    else ret tt
  end.

(** [Channel.prototype.onsignal] *)
Definition Channel_onsignal (c : chanRef) (data : list Z) (start end_ : Z)
  : M unit :=
  ch <- get_chan c ;;
  let message := if end_ - start =? 0 then None
                 else Some (utf8_decode (Js.slice data start end_)) in
  if has_listener ch "signal" then emit c (EvSignal message) else ret tt.

(** [Connection.prototype.processData] *)
Definition Connection_processData (conn : connRef) (id flag : Z)
  (data : list Z) (start end_ : Z) : M unit :=
  cn <- get_conn conn ;;
  let channels := cn_channels cn in
  let deliver (chan : chanRef) : M unit :=
    ch <- get_chan chan ;;
    if ch_readable ch then Channel_ondata chan data start end_ flag
    else ret tt in
  if id =? ALL_CHANNELS then
    for_each (map_to_list channels) (fun kv =>
      cn' <- get_conn conn ;;
      match cn_channels cn' !! kv.1 with
      | Some chan => deliver chan
      | None => ret tt
      end)
  else
    match channels !! id with
    | Some chan => deliver chan
    | None => ret tt
    end.

(** [Connection.prototype.processSignal] *)
Definition Connection_processSignal (conn : connRef) (id flag : Z)
  (data : list Z) (start end_ : Z) : M unit :=
  cn <- get_conn conn ;;
  let channels := cn_channels cn in
  let signal (chan : chanRef) : M unit :=
    ch <- get_chan chan ;;
    if negb (ch_closing ch) then Channel_onsignal chan data start end_
    else ret tt in
  if flag =? SignalFlag.FLAG_EMIT then
    if id =? ALL_CHANNELS then
      for_each (map_to_list channels) (fun kv =>
        cn' <- get_conn conn ;;
        match cn_channels cn' !! kv.1 with
        | Some chan => signal chan
        | None => ret tt
        end)
    else
      match channels !! id with
      | Some chan => signal chan
      | None => ret tt
      end
  else if (flag =? SignalFlag.FLAG_END) || (flag =? SignalFlag.FLAG_ERROR) then
    let message := if end_ - start =? 0 then None
                   else Some (utf8_decode (Js.slice data start end_)) in
    let failure := Error (if str_truthy message then default "" message
                          else "ERR_UNKNOWN") in
    if id =? ALL_CHANNELS then
      if negb (flag =? SignalFlag.FLAG_END)
      then Connection_destroy conn (Some failure) None
      else Connection_destroy conn None message
    else
      match channels !! id with
      | None => ret tt
      | Some chan =>
        ch <- get_chan chan ;;
        if ch_closing ch then
          finalizeDestroyChannel chan None None ;;
          cn' <- get_conn conn ;;
          match cn_requests cn' !! id with
          | Some request => OpenRequest_send request
          | None => ret tt
          end
        else
          try_catch
            (Connection_write conn
               (Packet_toBuffer (SignalFrame (Some id) SignalFlag.FLAG_END None)) ;;
             ret tt)
            (fun writeException =>
               Connection_destroy conn (Some writeException) None) ;;
          if negb (flag =? SignalFlag.FLAG_END)
          then finalizeDestroyChannel chan (Some failure) None
          else finalizeDestroyChannel chan None message
      end
  else Connection_destroy conn (Some (Error "Server sent an unknown SIGFLAG")) None.

(** The parser installed by [parserImplementation(conn)], run on the
    store: [conn.sock.ondata(chunk, start, end)]. *)
Definition conn_live (conn : connRef) (w : World) : bool :=
  match w_connections w !! conn with
  | Some cn => str_truthy (cn_id cn)
  | None => false
  end.

Definition Connection_ondata (conn : connRef) (chunk : list Z) (start end_ : Z)
  : M unit :=
  cn <- get_conn conn ;;
  match cn_sock cn with
  | None => ret tt
  | Some _ =>
    fun w =>
      let '(r, ps, w') :=
        ondata (conn_live conn)
               (fun e => Connection_destroy conn (Some e) None)
               (Connection_processOpen conn)
               (Connection_processData conn)
               (Connection_processSignal conn)
               (cn_parser cn) chunk start end_ w in
      (r, set_w_connections (alter (set_cn_parser ps) conn (w_connections w')) w')
  end.

(** One turn of the tick queue. *)
Definition run_tick : M unit :=
  w <- get_world ;;
  match w_ticks w with
  | [] => ret tt
  | t :: rest =>
    modify (set_w_ticks rest) ;;
    match t with
    | TickAlreadyOpen chan => Connection_open_tick chan
    | TickSend r => OpenRequest_send_tick r
    end
  end.

End WithHost.

(** ** A host for running examples

    Enough of the built-ins to run the client on plain ASCII input: URLs
    of the form [http://host[/path][?query]], [parseInt] on decimal and
    [0x] hexadecimal digits, and text encodings that keep the bytes. *)

Module ExampleHost.

(** [s] up to the first [c], and what follows it. *)
Fixpoint split_at (c : ascii) (s : string) : string * option string :=
  match s with
  | EmptyString => (EmptyString, None)
  | String a s' =>
    if Ascii.eqb a c then (EmptyString, Some s')
    else let '(before, after) := split_at c s' in (String a before, after)
  end.

Definition url_parse (href : string) : Url :=
  let '(scheme, rest) := split_at "/" href in
  let rest := String.substring 1 (String.length href) (default "" rest) in
  let '(front, query) := split_at "?" rest in
  let '(host, path) := split_at "/" front in
  mkUrl (Some scheme) host
        (Some ("/" ++ default "" path)%string)
        query href.

Definition digit (radix : Z) (a : ascii) : option Z :=
  let n := Z.of_N (N_of_ascii (lower a)) in
  let d := if (48 <=? n) && (n <=? 57) then Some (n - 48)
           else if (97 <=? n) && (n <=? 102) then Some (n - 87)
           else None in
  match d with
  | Some v => if v <? radix then Some v else None
  | None => None
  end.

(** The value of the longest prefix of digits; [None] without one. *)
Fixpoint digits (radix : Z) (s : string) (acc : option Z) : option Z :=
  match s with
  | EmptyString => acc
  | String a s' =>
    match digit radix a with
    | Some d => digits radix s' (Some (default 0 acc * radix + d))
    | None => acc
    end
  end.

Definition parseInt (s : string) : option Z :=
  if String.prefix "0x" (lower_string s)
  then digits 16 (String.substring 2 (String.length s) s) None
  else digits 10 s None.

Definition host : Host :=
  mkHost url_parse parseInt
         (fun s => Ok s)
         (fun v => match v with VString s => s | _ => EmptyString end)
         (fun s => digits 10 s None)
         (fun v => match v with
                   | VString s => Ok s
                   | _ => Throw (TypeError "not serialisable")
                   end)
         (fun s => Ok (VString s))
         (fun s _ => Ok (utf8_encode s))
         (fun b _ => utf8_decode b).

(** A socket that accepts every write. *)
Definition sock : Socket := mkSocket [] true None 0 0.

End ExampleHost.

(** ** Observations and example runs *)

(** The store and the result a computation ends with. *)
Definition exec {A : Type} (m : M A) (w : World) : World := (m w).2.
Definition result {A : Type} (m : M A) (w : World) : Res A := (m w).1.

(** The requests queued for channel [id] on [conn], head first: the chain
    of [next] that starts at [conn.requests[id]]. *)
Fixpoint chain_from (fuel : nat) (reqs : gmap nat OpenRequest) (r : reqRef)
  : list reqRef :=
  match fuel with
  | O => []
  | Datatypes.S fuel' =>
    r :: match reqs !! r with
         | Some rq =>
           match rq_next rq with
           | Some n => chain_from fuel' reqs n
           | None => []
           end
         | None => []
         end
  end.

Definition queue_of (w : World) (conn : connRef) (id : Z) : list reqRef :=
  match w_connections w !! conn with
  | Some cn =>
    match cn_requests cn !! id with
    | Some r => chain_from (chain_fuel w) (w_requests w) r
    | None => []
    end
  | None => []
  end.

(** The buffers written to the socket of [conn] so far. *)
Definition written (w : World) (conn : connRef) : list (list Z) :=
  match w_connections w !! conn with
  | Some cn => match cn_sock cn with Some sock => sk_written sock | None => [] end
  | None => []
  end.

(** The events emitted on a channel so far. *)
Definition events_of (w : World) (c : chanRef) : list Event :=
  match w_channels w !! c with Some ch => ch_events ch | None => [] end.

Definition chan_field {A : Type} (f : Channel -> A) (w : World) (c : chanRef)
  : option A :=
  f <$> w_channels w !! c.

Definition req_field {A : Type} (f : OpenRequest -> A) (w : World) (r : reqRef)
  : option A :=
  f <$> w_requests w !! r.

Module Scenario.

Import ExampleHost.

(** [createChannel("localhost:7010/1", "rw")] in an empty store: the
    channel is object 0, its connection 1, its open request 2. *)
Definition chan : chanRef := 0%nat.
Definition conn : connRef := 1%nat.
Definition req : reqRef := 2%nat.

Definition w_connecting : World :=
  exec (createChannel host (VString "localhost:7010/1") (VString "rw")) World_init.

(** The handshake succeeds: the OPEN request goes out. *)
Definition w_sent : World := exec (Connection_onSock conn (inr sock)) w_connecting.

(** The server's OPEN/ALLOW for channel 1. *)
Definition allow_1 : list Z := frame_toBuffer OP_OPEN 1 OpenRequestFlag.FLAG_ALLOW None.

Definition w_open : World :=
  exec (Connection_ondata host conn allow_1 0 (Js.blen allow_1)) w_sent.

(** An OPEN response for channel 9, for which nothing is pending. *)
Definition open_9 : list Z := frame_toBuffer OP_OPEN 9 OpenRequestFlag.FLAG_ALLOW None.

(** [end("bye")], respectively [destroy()], after the request was sent
    and before the server has answered. *)
Definition w_ending : World := exec (Channel_end chan (Some "bye"%string)) w_sent.
Definition w_destroying : World := exec (Channel_destroy chan None) w_sent.

(** A second channel for the same id before the handshake has
    completed: channel 3 with request 4, queued behind request 2. *)
Definition chan2 : chanRef := 3%nat.
Definition req2 : reqRef := 4%nat.

Definition w_two : World :=
  exec (createChannel host (VString "localhost:7010/1") (VString "rw")) w_connecting.

(** The second channel is destroyed before the handshake completes;
    then the handshake succeeds, the server denies the first request and
    the tick queue runs. *)
Definition w_two_destroyed : World := exec (Channel_destroy chan2 None) w_two.

Definition deny_1 : list Z := frame_toBuffer OP_OPEN 1 OpenRequestFlag.FLAG_DENY None.

Definition w_two_denied : World :=
  exec run_tick
    (exec (Connection_ondata host conn deny_1 0 (Js.blen deny_1))
       (exec (Connection_onSock conn (inr sock)) w_two_destroyed)).

End Scenario.

(** Channel [c] writes straight to the socket of [conn]: it is neither
    connecting nor queueing, and the socket takes writes. *)
Definition write_ready (w : World) (c : chanRef) (ch : Channel)
  (conn : connRef) (sock : Socket) : Prop :=
  w_channels w !! c = Some ch
  /\ ch_connecting ch = false /\ ch_writeQueue ch = None
  /\ ch_connection ch = Some conn
  /\ (exists cn, w_connections w !! conn = Some cn /\ cn_sock cn = Some sock)
  /\ sk_broken sock = None.

(** A channel that is open on a connection whose socket takes writes. *)
Definition open_channel (w : World) (c : chanRef) (ch : Channel)
  (conn : connRef) (sock : Socket) : Prop :=
  write_ready w c ch conn sock
  /\ ch_destroyed ch = false /\ ch_closing ch = false
  /\ id_truthy (ch_id ch) = true
  /\ ch_request ch = None.

(** A channel that waits for the answer to its open request [r] on a
    connection whose socket takes writes. *)
Definition opening_channel (w : World) (c : chanRef) (ch : Channel)
  (conn : connRef) (sock : Socket) : Prop :=
  w_channels w !! c = Some ch
  /\ ch_closing ch = false
  /\ ch_connection ch = Some conn
  /\ (exists cn, w_connections w !! conn = Some cn /\ cn_sock cn = Some sock)
  /\ sk_broken sock = None.

(** The socket after one more buffer was written. *)
Definition sock_push (bufs : list (list Z)) (sock : Socket) : Socket :=
  set_sk_written (sk_written sock ++ bufs) sock.

(** A property of the store that a computation keeps, however it ends. *)
Definition preserves (P : World -> Prop) {A : Type} (m : M A) : Prop :=
  forall w, P w -> P (m w).2.

(** Connection [conn] is not live: [conn.id] is [null]. *)
Definition is_dead (conn : connRef) (w : World) : Prop := conn_live conn w = false.

(** The big-endian value of four bytes. *)
Definition be32 (b0 b1 b2 b3 : Z) : Z :=
  b0 * 16777216 + b1 * 65536 + b2 * 256 + b3.

(** Two states of a socket that differ at most in the idle timer. *)
Definition same_socket (sock sock' : Socket) : Prop :=
  sk_written sock' = sk_written sock
  /\ sk_flushes sock' = sk_flushes sock
  /\ sk_broken sock' = sk_broken sock.

Module Example.

Import ExampleHost Scenario.

(** "Hello", and a payload one byte over the limit. *)
Definition hello : list Z := [72; 101; 108; 108; 111].
Definition oversize : list Z := repeat 0 (Z.to_nat 10241).

(** A message of 65529 bytes. *)
Definition long_message : string :=
  string_of_list_ascii (repeat "a"%char (Z.to_nat 65529)).

(** The channel of [w_open], its socket and the request of [w_sent]. *)
Definition ch_open : Channel :=
  mkChannel (Some 1) false false false (Some conn) None (Some 3) None None
            (Some "http://localhost:7010/1"%string) true true false false None
            [] [EvConnect].

Definition sock_open : Socket := mkSocket [[0; 7; 0; 0; 0; 1; 11]] true None 0 0.

Definition rq_sent_ : OpenRequest :=
  mkOpenRequest conn 1 3 None false true false None None (Some chan).

(** A store with one unconnected channel, object 0. *)
Definition w_fresh : World := exec (alloc_chan Channel_new) World_init.

End Example.

(** ** Streams of frames *)

(** A frame given by the fields a dispatch reports, and its bytes on the
    wire. *)
Definition frame_ok (d : Dispatched) : Prop :=
  1 <= d_op d <= 3 /\ 0 <= d_ch d < Js.two32 /\ 0 <= d_flag d <= 7
  /\ Js.blen (d_payload d) <= MAX_PAYLOAD_SIZE.

Definition frame_bytes (d : Dispatched) : list Z :=
  frame_toBuffer (d_op d) (d_ch d) (d_flag d) (Some (d_payload d)).

Definition stream (ds : list Dispatched) : list Z :=
  concat (map frame_bytes ds).

(** [ondata] against the connection that records its dispatches, from a
    given parser state and record. *)
Definition parse_log_from (ps : ParserState) (chunk : list Z)
  (log : list Dispatched) : Res unit * ParserState * list Dispatched :=
  ondata (fun _ => true) (fun _ log => (Ok tt, log))
         (log_process 1) (log_process 2) (log_process 3)
         ps chunk 0 (Js.blen chunk) log.

(** The bytes a parser state still holds unread. *)
Definition residual (ps : ParserState) : list Z :=
  match ps_buffer ps with
  | Some b => Js.slice b (ps_offset ps) (ps_length ps)
  | None => []
  end.

(** The chunks of a connection fed to [ondata] one after the other, until
    one call throws. *)
Fixpoint parse_chunks (ps : ParserState) (chunks : list (list Z))
  (log : list Dispatched) : Res unit * ParserState * list Dispatched :=
  match chunks with
  | [] => (Ok tt, ps, log)
  | chunk :: rest =>
    match parse_log_from ps chunk log with
    | (Ok _, ps', log') => parse_chunks ps' rest log'
    | (Throw e, ps', log') => (Throw e, ps', log')
    end
  end.

(** ** Frames of the connection bookkeeping *)

(** An observation of a connection that does not look at the idle timer
    of its socket. *)
Definition timer_blind {A : Type} (g : Connection -> A) : Prop :=
  forall cn sock t n,
    cn_sock cn = Some sock ->
    g (set_cn_sock (Some (set_sk_timeout_listeners n (set_sk_timeout t sock))) cn)
    = g cn.

(** [w'] differs from [w] at most in the connections and in the tables
    [Connection.all] and [Connection.disposed]. *)
Definition conns_only (w w' : World) : Prop :=
  w_channels w' = w_channels w /\ w_requests w' = w_requests w
  /\ w_ticks w' = w_ticks w /\ w_handshakes w' = w_handshakes w
  /\ w_next w' = w_next w.

(** The connections after channel [chan], whose record was [ch], has left
    the connection it is registered with. *)
Definition unregister (chan : chanRef) (ch : Channel)
  (conns : gmap nat Connection) : gmap nat Connection :=
  match ch_connection ch, ch_id ch with
  | Some conn, Some idz =>
    if id_truthy (Some idz) then
      match conns !! conn with
      | Some cn =>
        if decide (cn_channels cn !! idz = Some chan)
        then <[conn := set_cn_chanRefCount (cn_chanRefCount cn - 1)
                         (set_cn_channels (delete idz (cn_channels cn)) cn)]> conns
        else conns
      | None => conns
      end
    else conns
  | _, _ => conns
  end.

(** The channel record after [finalizeDestroyChannel]. *)
Definition closed_channel (ch : Channel) (err : option JsError)
  (message : option string) : Channel :=
  set_ch_events
    (ch_events ch ++ match err with Some e => [EvError e] | None => [] end
                  ++ [EvClose (bool_decide (is_Some err)) message])
    (set_ch_connection None (set_ch_request None (set_ch_destroyed true
      (set_ch_emitable false (set_ch_writable false (set_ch_readable false
        (set_ch_id None ch))))))).

(** A connection without the idle timer of its socket. *)
Definition conn_core (cn : Connection) :=
  (cn_id cn, cn_chanRefCount cn, cn_reqRefCount cn, cn_channels cn,
   cn_requests cn, cn_parser cn,
   (fun s => (sk_written s, sk_flushes s, sk_broken s)) <$> cn_sock cn).

(** Two stores of connections that differ at most in idle timers. *)
Definition conns_eqv (m m' : gmap nat Connection) : Prop :=
  forall c, conn_core <$> m !! c = conn_core <$> m' !! c.

(** The connections after request [rq] gave back its reference: a
    connection that is not live keeps no count. *)
Definition release (rq : OpenRequest) (conns : gmap nat Connection)
  : gmap nat Connection :=
  match conns !! rq_conn rq with
  | Some cn =>
    if str_truthy (cn_id cn)
    then <[rq_conn rq := set_cn_reqRefCount (cn_reqRefCount cn - 1) cn]> conns
    else conns
  | None => conns
  end.


(** ** Well-formed registrations *)



(** ** The socket's events *)

(** The handlers that [Connection.prototype.connect] installs on the
    socket once the handshake has succeeded. *)



(** [sock.on("drain", function() {...})]; a key whose channel is gone
    would make [chan._events] fail. *)
Definition Connection_onSockDrain (conn : connRef) : M unit :=
  cn <- get_conn conn ;;
  for_each (map_to_list (cn_channels cn)) (fun kv =>
    cn' <- get_conn conn ;;
    match cn_channels cn' !! kv.1 with
    | Some chan =>
      ch <- get_chan chan ;;
      if has_listener ch "drain" then emit chan EvDrain else ret tt
    | None => throw (TypeError "Cannot read property '_events' of undefined")
    end).

(** ** Queues of open requests *)

(** [chain reqs r l]: following [next] from request [r] visits exactly
    the requests [l], in this order, and then ends. *)
Inductive chain (reqs : gmap nat OpenRequest) : reqRef -> list reqRef -> Prop :=
| chain_one (r : reqRef) (rq : OpenRequest) :
    reqs !! r = Some rq -> rq_next rq = None -> chain reqs r [r]
| chain_cons (r : reqRef) (rq : OpenRequest) (n : reqRef) (l : list reqRef) :
    reqs !! r = Some rq -> rq_next rq = Some n -> chain reqs n l ->
    chain reqs r (r :: l).

(** ** The getters of [Channel] *)

(** [Channel.prototype.readyState]; [None] is [undefined], which
    [state += "+emit"] turns into the text "undefined". *)
Definition Channel_readyState (ch : Channel) : option string :=
  if ch_connecting ch then Some "opening"%string
  else if ch_closing ch then Some "closing"%string
  else if negb (id_truthy (ch_id ch)) then Some "closed"%string
  else
    let state :=
      if ch_readable ch && ch_writable ch then Some "readwrite"%string
      else if ch_readable ch && negb (ch_writable ch) then Some "read"%string
      else if negb (ch_readable ch) && ch_writable ch then Some "write"%string
      else None in
    if ch_emitable ch
    then Some (default "undefined" state ++ "+emit")%string
    else state.

(** [Channel.prototype.url] *)
Definition Channel_url (ch : Channel) : option string :=
  if negb (id_truthy (ch_id ch)) || negb (bool_decide (is_Some (ch_connection ch)))
  then None
  else ch_url ch.

(** The flags that [connect] derives from the mode bits. *)
Definition with_mode (mode : Z) (ch : Channel) : Channel :=
  set_ch_emitable (Js.band mode EMIT =? EMIT)
    (set_ch_writable (Js.band mode WRITE =? WRITE)
      (set_ch_readable (Js.band mode READ =? READ) ch)).

(** What [readyState] says for each mode, from 0 to 7. *)
Definition readyState_table : list (option string) :=
  [ None; Some "read"; Some "write"; Some "readwrite";
    Some "undefined+emit"; Some "read+emit"; Some "write+emit";
    Some "readwrite+emit" ]%string.

(** ** The handshake: [getSock] *)

(** The fields of a parsed URL that [getSock] reads; [None] is [null] or
    [undefined]. *)
Record SockUrl : Type := mkSockUrl {
  su_protocol : option string;
  su_hostname : option string;
  su_port : option string
}.

(** [exports.followRedirects], [exports.agent], [exports.origin]. *)
Record Exports : Type := mkExports {
  followRedirects : bool;
  agent : option string;
  origin : option string
}.

(** The request [dorequest] makes: the module ([http] or [https]), the
    options, and the headers in the order they are set.  The port is the
    string of the URL or a number. *)
Record HttpRequest : Type := mkHttpRequest {
  hr_https : bool;
  hr_port : string + Z;
  hr_host : option string;
  hr_headers : list (string * string)
}.

(** What comes back for one request: the [error] event, the [upgrade]
    event with the response's [upgrade] header and the socket, or a
    complete response with its status code, its body (if any) and its
    [location] header. *)
Inductive HttpAnswer : Type :=
| AnsError (err : JsError)
| AnsUpgrade (upgrade : option string) (sock : Socket)
| AnsResponse (code : Z) (msg : option string) (location : option string).

(** The call of the callback [C]: [C(err)], or [C(null, sock)] with the
    error the socket was destroyed with before, if it was. *)
Inductive SockResult : Type :=
| SockFailed (err : JsError)
| SockReady (sock : Socket) (destroyed : option JsError).

Definition MAX_REDIRECTS : Z := 5.

Section GetSock.

(** [exports], [require("url").parse] on a header that may be missing,
    and [require("http").STATUS_CODES]. *)
Variable ex : Exports.
Variable parse : option string -> Res SockUrl.
Variable STATUS_CODES : Z -> option string.

(** The options and headers of the request for [url]. *)
Definition request_for (url : SockUrl) : HttpRequest :=
  let port :=
    if str_truthy (su_port url) then inl (default "" (su_port url))
    else inr (if bool_decide (su_protocol url = Some "http"%string)
              then 80 else 443) in
  mkHttpRequest
    (negb (bool_decide (su_protocol url = Some "http:"%string)))
    port (su_hostname url)
    ([("Connection"%string, "Upgrade"%string);
      ("Upgrade"%string, "winksock/1"%string)]
     ++ (if negb (followRedirects ex)
         then [("X-Accept-Redirects"%string, "no"%string)] else [])
     ++ (if str_truthy (agent ex)
         then [("User-Agent"%string, default ""%string (agent ex))] else [])
     ++ (if str_truthy (origin ex)
         then [("Origin"%string, default ""%string (origin ex))] else [])).

(** [dorequest(url)] with the counter [redirections], against the
    answers that the requests get, one each, in the order they are made.
    The result is the call of [C], if the answers suffice for one, and
    the requests made. *)
Fixpoint dorequest (url : SockUrl) (redirections : Z) (answers : list HttpAnswer)
  : option SockResult * list HttpRequest :=
  if negb (bool_decide (su_protocol url = Some "http:"%string))
     && negb (bool_decide (su_protocol url = Some "https:"%string))
  then
    (Some (SockFailed (Error ("Redirect, bad protocol `"
                              ++ default "null" (su_protocol url) ++ "`")%string)),
     [])
  else
    let req := request_for url in
    match answers with
    | [] => (None, [req])
    | AnsError err :: _ => (Some (SockFailed err), [req])
    | AnsUpgrade upgrade sock :: _ =>
      (Some (SockReady sock
               (if negb (bool_decide (upgrade = Some "winksock/1"%string))
                then Some (Error ("Bad protocol version "
                                  ++ default "undefined" upgrade)%string)
                else None)), [req])
    | AnsResponse code msg location :: rest =>
      if (code =? 301) || (code =? 302) || (code =? 307) then
        if followRedirects ex then
          if redirections =? MAX_REDIRECTS
          then (Some (SockFailed (Error "Max HTTP redirections reached")), [req])
          else
            match parse location with
            | Throw err => (Some (SockFailed err), [req])
            | Ok url' =>
              let '(result, made) := dorequest url' (redirections + 1) rest in
              (result, req :: made)
            end
        else
          (Some (SockFailed (Error "Redirected by host, followRedirects=false")),
           [req])
      else
        let status := default "undefined"%string (STATUS_CODES code) in
        (Some (SockFailed
                 (Error (if str_truthy msg
                         then (status ++ " (" ++ default "" msg ++ ")")%string
                         else status))), [req])
    end.

(** [getSock(url, C)] *)
Definition getSock (url : SockUrl) (answers : list HttpAnswer)
  : option SockResult * list HttpRequest :=
  dorequest url 1 answers.

End GetSock.

(** An answer that sends the client on: a redirect status with a
    location that parses to an http or https URL. *)
Definition redirecting (parse : option string -> Res SockUrl) (a : HttpAnswer)
  : Prop :=
  exists code msg location url,
    a = AnsResponse code msg location
    /\ (code = 301 \/ code = 302 \/ code = 307)
    /\ parse location = Ok url
    /\ (su_protocol url = Some "http:"%string
        \/ su_protocol url = Some "https:"%string).


(** ** Further example stores *)

Module Cases.

Import ExampleHost Scenario Example.

(** Two frames, and their bytes cut into five chunks. *)
Definition two_frames : list Dispatched :=
  [mkDispatched 2 1122867 3 hello; mkDispatched 3 5 1 []].

Definition five_chunks : list (list Z) :=
  [[0; 12; 0]; [17; 34; 51; 19; 72; 101]; [108; 108; 111; 0; 7; 0; 0; 0]; [5]; [25]].

(** The channel of [w_connecting]. *)
Definition ch_connecting_ : Channel :=
  mkChannel (Some 1) true false false (Some conn) (Some req) (Some 3) None None
            (Some "http://localhost:7010/1"%string) true true false false None
            [] [].

(** The open channel of [w_open] with listeners for data, signals and
    drain. *)
Definition ch_listening : Channel :=
  mkChannel (Some 1) false false false (Some conn) None (Some 3) None None
            (Some "http://localhost:7010/1"%string) true true false false None
            ["data"%string; "signal"%string; "drain"%string] [EvConnect].

Definition w_listening : World :=
  set_w_channels (<[chan := ch_listening]> (w_channels w_open)) w_open.

(** The connection of [w_open], and of [w_sent]. *)
Definition cn_open : Connection :=
  mkConnection (Some "http:localhost:7010"%string) 1 0 {[1 := chan]} ∅
               (Some sock_open) (mkParser None 7 7).

Definition cn_sent : Connection :=
  mkConnection (Some "http:localhost:7010"%string) 0 1 ∅ {[1 := req]}
               (Some sock_open) parser_init.

(** [end()] on the open channel: it is closing and waits for the
    server's END. *)
Definition w_closing : World := exec (Channel_end chan None) w_open.

Definition ch_closing_ : Channel :=
  mkChannel (Some 1) false false true (Some conn) None (Some 3) None None
            (Some "http://localhost:7010/1"%string) false false false false
            (Some (SignalFrame (Some 1) SignalFlag.FLAG_END None))
            [] [EvConnect].

Definition sock_closing : Socket :=
  mkSocket [[0; 7; 0; 0; 0; 1; 11]; [0; 7; 0; 0; 0; 1; 25]] true None 0 0.

Definition cn_closing : Connection :=
  mkConnection (Some "http:localhost:7010"%string) 1 0 {[1 := chan]} ∅
               (Some sock_closing) (mkParser None 7 7).



(** The connection and the request of [w_connecting]. *)
Definition cn_connecting : Connection :=
  mkConnection (Some "http:localhost:7010"%string) 0 1 ∅ {[1 := req]}
               None parser_init.

Definition rq_waiting : OpenRequest :=
  mkOpenRequest conn 1 3 None false false false None None (Some chan).

(** The URLs of channels 1 and 2 on the example host, parsed. *)
Definition url_1 : Url := url_parse "http://localhost:7010/1".
Definition url_2 : Url := url_parse "http://localhost:7010/2".

(** [w_open] with one more channel object, object 3, not connected. *)
Definition w_third : World := exec (alloc_chan Channel_new) w_open.

(** A server that answers every handshake request with a redirect. *)
Definition ex_default : Exports :=
  mkExports true (Some "node-winsock-client/1.0rc"%string) None.

Definition parse_location (location : option string) : Res SockUrl :=
  match location with
  | Some _ => Ok (mkSockUrl (Some "http:"%string) (Some "b"%string) None)
  | None => Throw (TypeError "Parameter 'url' must be a string")
  end.

Definition url_a : SockUrl :=
  mkSockUrl (Some "http:"%string) (Some "a"%string) None.

Definition six_redirects : list HttpAnswer :=
  repeat (AnsResponse 302 None (Some "http://b/"%string)) 6.






(** [w_open] after the socket has died: a write to it throws. *)
Definition sock_dead : Socket :=
  mkSocket [[0; 7; 0; 0; 0; 1; 11]] true (Some (Error "EPIPE")) 0 0.

Definition cn_dead : Connection :=
  mkConnection (Some "http:localhost:7010"%string) 1 0 {[1 := chan]} ∅
               (Some sock_dead) (mkParser None 7 7).

Definition w_dead : World :=
  set_w_connections (<[conn := cn_dead]> (w_connections w_open)) w_open.

(** The example host with a [JSON.parse] that accepts nothing, and
    [w_open] after [setEncoding("json")] on its channel. *)
Definition host_strict : Host :=
  match host with
  | mkHost a b c d e f _ h i =>
    mkHost a b c d e f (fun _ => Throw (Error "Unexpected token")) h i
  end.

Definition ch_json : Channel := set_ch_encoding (Some "json"%string) ch_open.

Definition w_json : World := exec (Channel_setEncoding chan (Some "json"%string)) w_open.

End Cases.

(** * Properties *)

(** ** JavaScript integer operators on small values *)

Module JsFacts.
Import Js.

Lemma to_int32_small x : - two31 <= x < two31 -> to_int32 x = x.
Proof.
  intros H. unfold to_int32, two32, two31 in *.
  rewrite Z.mod_small; lia.
Qed.

Lemma to_uint32_small x : 0 <= x < two32 -> to_uint32 x = x.
Proof. intros H. unfold to_uint32. apply Z.mod_small. exact H. Qed.

Lemma land_mul_pow2_low a b n :
  0 <= n -> 0 <= b < 2 ^ n -> Z.land (a * 2 ^ n) b = 0.
Proof.
  intros Hn Hb. apply Z.bits_inj'. intros i Hi.
  rewrite Z.land_spec, Z.bits_0.
  destruct (Z.lt_ge_cases i n) as [Hlt | Hge].
  - rewrite Z.mul_pow2_bits_low by lia. reflexivity.
  - destruct (Z.eq_dec b 0) as [-> | Hnz].
    + rewrite Z.bits_0. apply andb_false_r.
    + assert (Z.log2 b < n) by (apply Z.log2_lt_pow2; lia).
      rewrite (Z.bits_above_log2 b i) by lia. apply andb_false_r.
Qed.

Lemma lor_mul_pow2_add a b n :
  0 <= n -> 0 <= b < 2 ^ n -> Z.lor (a * 2 ^ n) b = a * 2 ^ n + b.
Proof.
  intros Hn Hb.
  rewrite <- Z.lxor_lor by (apply land_mul_pow2_low; lia).
  symmetry. apply Z.add_nocarry_lxor. apply land_mul_pow2_low; lia.
Qed.

Lemma to_uint32_to_int32 x : to_uint32 (to_int32 x) = to_uint32 x.
Proof.
  unfold to_uint32, to_int32, two32, two31.
  Z.div_mod_to_equations. lia.
Qed.

(** [hi << k | lo] on a byte [hi] and a [lo] below [2^k], for shifts
    that stay below [2^31]. *)
Lemma shl_small hi k :
  0 <= k <= 16 -> 0 <= hi < 256 -> shl hi k = hi * 2 ^ k.
Proof.
  intros Hk Hhi.
  assert (Hp : 0 < 2 ^ k <= 2 ^ 16)
    by (split; [apply Z.pow_pos_nonneg; lia | apply Z.pow_le_mono_r; lia]).
  change (2 ^ 16) with 65536 in Hp.
  unfold shl.
  rewrite (Z.mod_small k 32) by lia.
  rewrite (to_int32_small hi) by (unfold two31; lia).
  rewrite Z.shiftl_mul_pow2 by lia.
  apply to_int32_small. unfold two31. nia.
Qed.

(** [a | lo] where [a] is a multiple of [2^k] and [lo] is below [2^k]. *)
Lemma bor_add a lo k :
  0 <= k -> 0 <= a * 2 ^ k -> a * 2 ^ k + lo < two31 -> 0 <= lo < 2 ^ k ->
  bor (a * 2 ^ k) lo = a * 2 ^ k + lo.
Proof.
  intros Hk Ha Hs Hlo. unfold bor.
  rewrite (to_int32_small (a * 2 ^ k)) by (unfold two31 in *; lia).
  rewrite (to_int32_small lo) by (unfold two31 in *; lia).
  rewrite lor_mul_pow2_add by lia.
  apply to_int32_small. unfold two31 in *. lia.
Qed.

Lemma ushr_shl24 b : 0 <= b < 256 -> ushr (shl b 24) 0 = b * 16777216.
Proof.
  intros Hb. unfold ushr, shl.
  change (0 mod 32) with 0. change (24 mod 32) with 24.
  rewrite Z.shiftr_0_r, to_uint32_to_int32.
  rewrite (to_int32_small b) by (unfold two31; lia).
  rewrite Z.shiftl_mul_pow2 by lia. change (2 ^ 24) with 16777216.
  apply to_uint32_small. unfold two32. lia.
Qed.

Lemma ushr_u32 x k : 0 <= x < two32 -> 0 <= k < 32 -> ushr x k = x / 2 ^ k.
Proof.
  intros Hx Hk. unfold ushr.
  rewrite (Z.mod_small k 32) by lia.
  rewrite to_uint32_small by exact Hx.
  apply Z.shiftr_div_pow2. lia.
Qed.

(** The byte stored by [buffer[i] = x >>> 8], for any [x]. *)
Lemma ushr_byte x : store_byte (ushr x 8) = (x / 256) mod 256.
Proof.
  unfold store_byte, ushr, to_uint32, two32.
  change (8 mod 32) with 8.
  rewrite Z.shiftr_div_pow2 by lia. change (2 ^ 8) with 256.
  Z.div_mod_to_equations. lia.
Qed.

Lemma rem_nonneg x : 0 <= x -> rem x 256 = x mod 256.
Proof. intros Hx. unfold rem. apply Z.rem_mod_nonneg; lia. Qed.

Lemma store_byte_range v : 0 <= store_byte v < 256.
Proof. unfold store_byte. apply Z.mod_pos_bound. lia. Qed.

Lemma rd_cons0 x l : rd (x :: l) 0 = x.
Proof. reflexivity. Qed.

Lemma rd_app_l (a b : list Z) i :
  0 <= i < blen a -> rd (a ++ b) i = rd a i.
Proof.
  intros Hi. unfold rd, blen in *.
  destruct (i <? 0) eqn:E; [reflexivity|].
  apply app_nth1. lia.
Qed.

Lemma slice_app_r (a b : list Z) :
  slice (a ++ b) (blen a) (blen a + blen b) = b.
Proof.
  unfold slice, blen.
  replace (Z.of_nat (List.length a) + Z.of_nat (List.length b)
           - Z.of_nat (List.length a)) with (Z.of_nat (List.length b)) by lia.
  rewrite !Nat2Z.id.
  rewrite skipn_app, skipn_all, Nat.sub_diag. simpl.
  apply firstn_all.
Qed.

End JsFacts.

(** ** Frame codec *)

Section CodecFacts.
Import Js JsFacts.

Lemma frame_header_length op id flag len :
  blen (frame_header op id flag len) = 7.
Proof. reflexivity. Qed.

Lemma frame_toBuffer_blen op id flag data :
  blen (frame_toBuffer op id flag data) = frame_length data.
Proof.
  unfold frame_toBuffer, frame_length, blen.
  rewrite length_app. cbn [List.length frame_header].
  destruct data as [d|].
  - destruct (7 <? 7 + Z.of_nat (List.length d)) eqn:E.
    + lia.
    + apply Z.ltb_ge in E. cbn [List.length]. lia.
  - reflexivity.
Qed.

(** The length prefix read back is the frame length modulo [2^16]. *)
Lemma packetlen_header op id flag len rest :
  0 <= len ->
  packetlen_at (frame_header op id flag len ++ rest) 0 = len mod 65536.
Proof.
  intros Hlen. unfold packetlen_at, frame_header.
  cbn [app]. change (0 + 1) with 1.
  change (rd (?a :: ?b :: _) 1) with b. rewrite rd_cons0.
  rewrite ushr_byte.
  rewrite rem_nonneg by lia.
  unfold store_byte.
  rewrite Z.mod_mod by lia.
  pose proof (Z.mod_pos_bound (len / 256) 256 ltac:(lia)) as H0.
  pose proof (Z.mod_pos_bound len 256 ltac:(lia)) as H1.
  rewrite shl_small by lia.
  rewrite bor_add; change (2 ^ 8) with 256; unfold two31; try lia.
  Z.div_mod_to_equations. lia.
Qed.

Lemma ch_header op id flag len rest :
  0 <= id < two32 ->
  ch_at (frame_header op id flag len ++ rest) 0 = id.
Proof.
  intros Hid. unfold ch_at, frame_header. cbn [app].
  change (rd (?a :: ?b :: ?c :: ?d :: ?e :: ?f :: _) (0 + 5)) with f.
  change (rd (?a :: ?b :: ?c :: ?d :: ?e :: _) (0 + 4)) with e.
  change (rd (?a :: ?b :: ?c :: ?d :: _) (0 + 3)) with d.
  change (rd (?a :: ?b :: ?c :: _) (0 + 2)) with c.
  rewrite (ushr_u32 id 24), (ushr_u32 id 16), (ushr_u32 id 8)
    by (unfold two32 in *; lia).
  rewrite rem_nonneg by lia.
  unfold store_byte. rewrite Z.mod_mod by lia.
  change (2 ^ 24) with 16777216. change (2 ^ 16) with 65536.
  change (2 ^ 8) with 256. unfold two32 in Hid.
  pose proof (Z.mod_pos_bound (id / 16777216) 256 ltac:(lia)) as H2.
  pose proof (Z.mod_pos_bound (id / 65536) 256 ltac:(lia)) as H3.
  pose proof (Z.mod_pos_bound (id / 256) 256 ltac:(lia)) as H4.
  pose proof (Z.mod_pos_bound id 256 ltac:(lia)) as H5.
  rewrite ushr_shl24 by lia.
  rewrite !shl_small by lia.
  set (b2 := (id / 16777216) mod 256) in *.
  set (b3 := (id / 65536) mod 256) in *.
  set (b4 := (id / 256) mod 256) in *.
  set (b5 := id mod 256) in *.
  rewrite (bor_add b3 (b4 * 2 ^ 8) 16)
    by (change (2 ^ 8) with 256; change (2 ^ 16) with 65536; unfold two31; lia).
  replace (b3 * 2 ^ 16 + b4 * 2 ^ 8) with ((b3 * 256 + b4) * 2 ^ 8)
    by (change (2 ^ 8) with 256; change (2 ^ 16) with 65536; lia).
  rewrite (bor_add _ b5 8)
    by (change (2 ^ 8) with 256; unfold two31; lia).
  change (2 ^ 8) with 256.
  subst b2 b3 b4 b5. Z.div_mod_to_equations. lia.
Qed.

Lemma desc_header op flag :
  1 <= op <= 3 -> 0 <= flag <= 7 ->
  let desc := store_byte (bor (shl op 3) flag) in
  op_of_desc desc = op /\ flag_of_desc desc = flag.
Proof.
  intros Hop Hflag.
  assert (Eo : op = 1 \/ op = 2 \/ op = 3) by lia.
  assert (Ef : flag = 0 \/ flag = 1 \/ flag = 2 \/ flag = 3 \/
               flag = 4 \/ flag = 5 \/ flag = 6 \/ flag = 7) by lia.
  destruct Eo as [-> | [-> | ->]];
    destruct Ef as [-> | [-> | [-> | [-> | [-> | [-> | [-> | ->]]]]]]];
    vm_compute; split; reflexivity.
Qed.

End CodecFacts.

(** ** Incremental parser *)

Section ParserFacts.
Import Js JsFacts.

Context {S : Type}.
Variable live : S -> bool.
Variable destroy : JsError -> S -> Res unit * S.
Variable processOpen processData processSignal :
  Z -> Z -> list Z -> Z -> Z -> S -> Res unit * S.

Local Abbreviation ploop :=
  (parse_loop live destroy processOpen processData processSignal).
Local Abbreviation prun :=
  (parser_run live destroy processOpen processData processSignal).
Local Abbreviation pondata :=
  (ondata live destroy processOpen processData processSignal).
Local Abbreviation pdispatch :=
  (dispatch processOpen processData processSignal).

(** Once nothing is left to read the loop is over, whatever the fuel. *)
Lemma parse_loop_done fuel buffer offset length c :
  length <= offset -> ploop fuel buffer offset length c = (PDone, offset, c).
Proof.
  intros H. destruct fuel as [|fuel]; [reflexivity|].
  cbn [parse_loop].
  assert (E : (offset <? length) = false) by (apply Z.ltb_ge; lia).
  rewrite E. reflexivity.
Qed.

(** The fuel [ondata] provides is enough: the loop gives the same result
    with any two amounts of at least [length - offset]. *)
Lemma parse_loop_fuel f1 : forall f2 buffer offset length c,
  (Z.to_nat (length - offset) <= f1)%nat ->
  (Z.to_nat (length - offset) <= f2)%nat ->
  ploop f1 buffer offset length c = ploop f2 buffer offset length c.
Proof.
  induction f1 as [|f1 IH]; intros f2 buffer offset length c H1 H2.
  - rewrite !parse_loop_done by lia. reflexivity.
  - destruct f2 as [|f2].
    + rewrite !parse_loop_done by lia. reflexivity.
    + cbn [parse_loop].
      destruct ((offset <? length) && live c) eqn:Ec; [|reflexivity].
      apply andb_prop in Ec as [Elt _]. apply Z.ltb_lt in Elt.
      destruct (length <? offset + 2); [reflexivity|].
      destruct (packetlen_at buffer offset <? 7) eqn:E7; [reflexivity|].
      apply Z.ltb_ge in E7.
      destruct (length <? offset + packetlen_at buffer offset); [reflexivity|].
      destruct (pdispatch _ _ _ _ _ _ c) as [[u|e] c']; [|reflexivity].
      apply IH; lia.
Qed.

(** One iteration that dispatches, seen from [parser_run]. *)
Lemma parser_run_step buffer offset length c :
  live c = true -> offset + 2 <= length ->
  7 <= packetlen_at buffer offset ->
  offset + packetlen_at buffer offset <= length ->
  prun buffer offset length c =
  match pdispatch (op_of_desc (desc_at buffer offset)) (ch_at buffer offset)
                  (flag_of_desc (desc_at buffer offset)) buffer
                  (offset + 7) (offset + packetlen_at buffer offset) c with
  | (Ok _, c') => prun buffer (offset + packetlen_at buffer offset) length c'
  | (Throw e, c') => (Throw e, mkParser (Some buffer) offset length, c')
  end.
Proof.
  intros Hlive H2 H7 Hfit. unfold parser_run.
  destruct (Z.to_nat (length - offset)) as [|fuel] eqn:Ef; [lia|].
  cbn [parse_loop].
  assert (E1 : (offset <? length) = true) by (apply Z.ltb_lt; lia).
  assert (E2 : (length <? offset + 2) = false) by (apply Z.ltb_ge; lia).
  assert (E3 : (packetlen_at buffer offset <? 7) = false) by (apply Z.ltb_ge; lia).
  assert (E4 : (length <? offset + packetlen_at buffer offset) = false)
    by (apply Z.ltb_ge; lia).
  rewrite E1, Hlive, E2, E3, E4. cbn [andb].
  destruct (pdispatch _ _ _ _ _ _ c) as [[u|e] c']; [|reflexivity].
  rewrite (parse_loop_fuel fuel
             (Z.to_nat (length - (offset + packetlen_at buffer offset))))
    by lia.
  reflexivity.
Qed.


(** A frame produced by [toBuffer], fed whole to a parser without
    residue, is dispatched once. *)
Lemma ondata_frame c op id flag data :
  live c = true -> 1 <= op <= 3 -> 0 <= id < two32 -> 0 <= flag <= 7 ->
  frame_length data <= 7 + MAX_PAYLOAD_SIZE ->
  let buf := frame_toBuffer op id flag data in
  pondata parser_init buf 0 (blen buf) c =
  match pdispatch op id flag buf 7 (blen buf) c with
  | (Ok _, c') => (Ok tt, mkParser None (blen buf) (blen buf), c')
  | (Throw e, c') => (Throw e, mkParser (Some buf) 0 (blen buf), c')
  end.
Proof.
  intros Hlive Hop Hid Hflag Hlen buf.
  assert (HL : blen buf = frame_length data) by apply frame_toBuffer_blen.
  assert (H7 : 7 <= frame_length data).
  { unfold frame_length, blen. destruct data; lia. }
  unfold MAX_PAYLOAD_SIZE in Hlen.
  assert (Hpl : packetlen_at buf 0 = frame_length data).
  { unfold buf, frame_toBuffer. rewrite packetlen_header by lia.
    apply Z.mod_small. lia. }
  assert (Hch : ch_at buf 0 = id).
  { unfold buf, frame_toBuffer. apply ch_header. exact Hid. }
  assert (Hdesc : desc_at buf 0 = store_byte (bor (shl op 3) flag)).
  { reflexivity. }
  destruct (desc_header op flag Hop Hflag) as [Eop Eflag].
  unfold ondata, parser_input. cbn [ps_buffer parser_init].
  rewrite parser_run_step; rewrite ?Hpl, ?HL; try lia; try assumption.
  rewrite Hch, Hdesc, Eop, Eflag. change (0 + 7) with 7.
  rewrite Z.add_0_l.
  destruct (pdispatch op id flag buf 7 (frame_length data) c) as [[u|e] c'];
    [|reflexivity].
  unfold parser_run. rewrite parse_loop_done by lia.
  rewrite Z.sub_diag. reflexivity.
Qed.

End ParserFacts.

Lemma frame_payload_slice op id flag data :
  let buf := frame_toBuffer op id flag data in
  Js.slice buf 7 (Js.blen buf) = default [] data.
Proof.
  intros buf. unfold buf. rewrite frame_toBuffer_blen.
  unfold frame_toBuffer, frame_length.
  destruct data as [d|].
  - destruct (7 <? 7 + Js.blen d) eqn:E.
    + exact (JsFacts.slice_app_r (frame_header op id flag (7 + Js.blen d)) d).
    + apply Z.ltb_ge in E. unfold Js.blen in E.
      destruct d; [reflexivity | cbn [List.length] in E; lia].
  - reflexivity.
Qed.


(** ** Mode expressions *)

Section ModeFacts.

Lemma lower_idem a : lower (lower a) = lower a.
Proof. destruct a as [[] [] [] [] [] [] [] []]; reflexivity. Qed.

Lemma flat_map_map {A B C : Type} (g : A -> B) (f : B -> list C) l :
  flat_map f (map g l) = flat_map (fun x => f (g x)) l.
Proof. induction l as [|x l IH]; cbn; [reflexivity | now rewrite IH]. Qed.

Lemma map_flat_map {A B C : Type} (h : B -> C) (f : A -> list B) l :
  map h (flat_map f l) = flat_map (fun x => map h (f x)) l.
Proof.
  induction l as [|x l IH]; cbn; [reflexivity|].
  now rewrite map_app, IH.
Qed.

Lemma fold_caps_insert n v (c : Captures) :
  <[n := Some (map lower v)]> (fold_caps c) = fold_caps (<[n := Some v]> c).
Proof.
  unfold fold_caps. revert n.
  induction c as [|x c IH]; intros [|n]; cbn; try reflexivity.
  now rewrite IH.
Qed.

(** The matcher does not see the case of its input: on the lowered
    input it yields the lowered results, in the same order. *)
Lemma rx_run_lower r : forall caps input,
  rx_run r (fold_caps caps) (map lower input)
  = map (fun cr => (fold_caps cr.1, map lower cr.2)) (rx_run r caps input).
Proof.
  induction r as [c | r1 IH1 r2 IH2 | r1 IH1 r2 IH2 | r1 IH1 | n r1 IH1 | ];
    intros caps input; cbn [rx_run].
  - destruct input as [|a rest]; cbn; [reflexivity|].
    rewrite lower_idem. destruct (Ascii.eqb (lower a) (lower c)); reflexivity.
  - rewrite IH1, flat_map_map, map_flat_map.
    apply flat_map_ext. intros [c1 rest1]. cbn. apply IH2.
  - now rewrite IH1, IH2, map_app.
  - now rewrite IH1, map_app.
  - rewrite IH1, !map_map. apply map_ext. intros [c1 rest1]. cbn.
    rewrite !length_map, firstn_map, fold_caps_insert. reflexivity.
  - destruct input; reflexivity.
Qed.

Lemma capture_truthy_fold c n :
  capture_truthy (fold_caps c) n = capture_truthy c n.
Proof.
  unfold capture_truthy, fold_caps. revert n.
  induction c as [|x c IH]; intros [|n]; cbn; try reflexivity.
  - destruct x as [[|a l]|]; reflexivity.
  - apply IH.
Qed.

Lemma list_ascii_lower_string s :
  list_ascii_of_string (lower_string s) = map lower (list_ascii_of_string s).
Proof. unfold lower_string. apply list_ascii_of_string_of_list_ascii. Qed.

Lemma lower_string_app a b :
  lower_string (a ++ b) = (lower_string a ++ lower_string b)%string.
Proof.
  induction a as [|x a IH]; [reflexivity|].
  change (lower_string (String x a +:+ b))
    with (String (lower x) (lower_string (a +:+ b))).
  now rewrite IH.
Qed.

Lemma lower_string_empty s : lower_string s = EmptyString -> s = EmptyString.
Proof. destruct s; [reflexivity | discriminate]. Qed.

Lemma rx_match_lower r n s :
  rx_match r n (lower_string s) = option_map fold_caps (rx_match r n s).
Proof.
  unfold rx_match. rewrite list_ascii_lower_string.
  replace (replicate (Datatypes.S n) None)
    with (fold_caps (replicate (Datatypes.S n) None)) at 1.
  - rewrite rx_run_lower.
    destruct (rx_run r _ (list_ascii_of_string s)) as [|cr l]; reflexivity.
  - unfold fold_caps. induction (Datatypes.S n) as [|k IH]; cbn;
      [reflexivity | now rewrite IH].
Qed.

Lemma getBinMode_lower s :
  getBinMode (VString (lower_string s)) = getBinMode (VString s).
Proof.
  unfold getBinMode. cbn [truthy].
  destruct s as [|a s]; [reflexivity|].
  change (negb (negb (String.eqb (lower_string (String a s)) ""))) with false.
  change (negb (negb (String.eqb (String a s) ""))) with false.
  cbv iota. rewrite rx_match_lower.
  destruct (rx_match MODE_RE 3 (String a s)) as [m|]; [|reflexivity].
  cbn [option_map]. now rewrite !capture_truthy_fold.
Qed.

(** Every expression of the grammar gets the bits of its parts. *)
Lemma getBinMode_grammar s r w e :
  mode_grammar s r w e -> getBinMode (VString s) = Some (mode_bits r w e).
Proof.
  intros (sr & sw & sp & se & -> & Hr & Hw & Hp & He).
  rewrite <- getBinMode_lower, !lower_string_app.
  assert (Er : (r = true /\ (lower_string sr = "r" \/ lower_string sr = "read")
                \/ r = false /\ lower_string sr = "")%string).
  { destruct r; cbn in Hr; [left | right; now subst]. split; [reflexivity|].
    destruct Hr as [<- | [<- | []]]; auto. }
  assert (Ew : (w = true /\ (lower_string sw = "w" \/ lower_string sw = "write")
                \/ w = false /\ lower_string sw = "")%string).
  { destruct w; cbn in Hw; [left | right; now subst]. split; [reflexivity|].
    destruct Hw as [<- | [<- | []]]; auto. }
  assert (Ee : (e = true /\ (lower_string se = "e" \/ lower_string se = "emit")
                \/ e = false /\ lower_string se = "")%string).
  { destruct e; cbn in He; [left | right; now subst]. split; [reflexivity|].
    destruct He as [<- | [<- | []]]; auto. }
  assert (Ep : (lower_string sp = "" \/ lower_string sp = "+")%string).
  { destruct Hp as [-> | ->]; auto. }
  clear Hr Hw He Hp.
  destruct Er as [[-> [-> | ->]] | [-> ->]];
    destruct Ew as [[-> [-> | ->]] | [-> ->]];
    destruct Ee as [[-> [-> | ->]] | [-> ->]];
    destruct Ep as [-> | ->];
    vm_compute; reflexivity.
Qed.

(** What the matcher consumes is in the language; after a pattern that
    ends in [$] nothing is left. *)
Lemma rx_run_sound r : forall caps input c' rest,
  In (c', rest) (rx_run r caps input) ->
  exists pre, input = pre ++ rest /\ rx_lang r pre
              /\ (rx_anchored r = true -> rest = []).
Proof.
  induction r as [c | r1 IH1 r2 IH2 | r1 IH1 r2 IH2 | r1 IH1 | n r1 IH1 | ];
    intros caps input c' rest Hin; cbn [rx_run] in Hin; cbn [rx_lang rx_anchored].
  - destruct input as [|a l]; [destruct Hin|].
    destruct (Ascii.eqb (lower a) (lower c)) eqn:E; [|destruct Hin].
    destruct Hin as [Heq | []]. injection Heq as <- <-.
    apply Ascii.eqb_eq in E.
    exists [a]. split; [reflexivity | split; [eauto | discriminate]].
  - apply in_flat_map in Hin as ([c1 rest1] & H1 & H2). cbn in H2.
    apply IH1 in H1 as (p1 & -> & L1 & _).
    apply IH2 in H2 as (p2 & -> & L2 & A2).
    exists (p1 ++ p2). split; [now rewrite <- app_assoc|].
    split; [exists p1, p2; auto | exact A2].
  - apply in_app_or in Hin as [Hin | Hin].
    + apply IH1 in Hin as (p & -> & L & _). exists p. split; [reflexivity|].
      split; [now left | discriminate].
    + apply IH2 in Hin as (p & -> & L & _). exists p. split; [reflexivity|].
      split; [now right | discriminate].
  - apply in_app_or in Hin as [Hin | Hin].
    + apply IH1 in Hin as (p & -> & L & _). exists p. split; [reflexivity|].
      split; [now right | discriminate].
    + destruct Hin as [Heq | []]. injection Heq as <- <-.
      exists []. split; [reflexivity | split; [now left | discriminate]].
  - apply in_map_iff in Hin as ([c1 rest1] & Heq & Hin). cbn in Heq.
    injection Heq as <- <-.
    apply IH1 in Hin as (p & -> & L & _). exists p. split; [reflexivity|].
    split; [exact L | discriminate].
  - destruct input; [|destruct Hin]. destruct Hin as [Heq | []].
    injection Heq as <- <-. exists []. auto.
Qed.

Lemma string_of_list_ascii_app a b :
  string_of_list_ascii (a ++ b)
  = (string_of_list_ascii a ++ string_of_list_ascii b)%string.
Proof. induction a as [|x a IH]; cbn; [reflexivity | now rewrite IH]. Qed.

(** One optional group of [MODE_RE]: a one-letter or a whole-word
    alternative. *)
Lemma rx_lang_part n c word l :
  rx_lang (ROpt (RGroup n (RAlt (RChar c) (rx_word c word)))) l ->
  exists b, mode_part (string_of_list_ascii l)
              [String (lower c) EmptyString;
               lower_string (String c word)] b.
Proof.
  cbn [rx_lang]. intros [-> | [(a & -> & Ha) | Hw]].
  - exists false. reflexivity.
  - exists true. cbn. left. unfold lower_string. cbn. now rewrite Ha.
  - exists true. cbn [mode_part]. right. left.
    revert c l Hw. induction word as [|d word IH]; intros c l Hw; cbn in Hw.
    + destruct Hw as (a & -> & Ha). unfold lower_string. cbn. now rewrite Ha.
    + destruct Hw as (l1 & l2 & -> & (a & -> & Ha) & Hw).
      specialize (IH d l2 Hw). unfold lower_string in *. cbn in *.
      rewrite list_ascii_of_string_of_list_ascii in *.
      rewrite Ha. f_equal. exact IH.
Qed.

(** A string the matcher accepts is an expression of the grammar. *)
Lemma rx_match_grammar s m :
  rx_match MODE_RE 3 s = Some m -> exists r w e, mode_grammar s r w e.
Proof.
  unfold rx_match. intros Hm.
  destruct (rx_run MODE_RE _ (list_ascii_of_string s)) as [|[c' rest] tl] eqn:E;
    [discriminate|].
  assert (Hin : In (c', rest)
                   (rx_run MODE_RE (replicate 4 None) (list_ascii_of_string s)))
    by (rewrite E; now left).
  apply rx_run_sound in Hin as (pre & Hs & L & A).
  rewrite (A eq_refl), app_nil_r in Hs.
  unfold MODE_RE in L.
  destruct L as (l1 & t1 & -> & L1 & l2 & t2 & -> & L2 & l3 & t3 & -> & L3
                 & l4 & t4 & -> & L4 & ->).
  apply rx_lang_part in L1 as [r Hr].
  apply rx_lang_part in L2 as [w Hw].
  apply rx_lang_part in L4 as [e He].
  exists r, w, e.
  exists (string_of_list_ascii l1), (string_of_list_ascii l2),
         (string_of_list_ascii l3), (string_of_list_ascii l4).
  split; [|split; [exact Hr | split; [exact Hw | split; [|exact He]]]].
  - rewrite <- (string_of_list_ascii_of_string s), Hs, app_nil_r.
    now rewrite !string_of_list_ascii_app.
  - cbn [rx_lang] in L3. destruct L3 as [-> | (a & -> & Ha)]; [now left|].
    right. destruct a as [[] [] [] [] [] [] [] []]; try discriminate Ha.
    reflexivity.
Qed.

Lemma getBinMode_reject s :
  (forall r w e, ~ mode_grammar s r w e) -> getBinMode (VString s) = None.
Proof.
  intros Hno. unfold getBinMode. cbn [truthy].
  destruct s as [|a s].
  - exfalso. apply (Hno false false false).
    exists ""%string, ""%string, ""%string, ""%string. cbn. repeat split; try reflexivity. now left.
  - change (negb (negb (String.eqb (String a s) ""))) with false. cbv iota.
    destruct (rx_match MODE_RE 3 (String a s)) as [m|] eqn:E; [|reflexivity].
    apply rx_match_grammar in E as (r & w & e & Hg).
    exfalso. exact (Hno r w e Hg).
Qed.

End ModeFacts.

(** Unfolding of field reads and assignments only. *)
Ltac wsimpl :=
  cbn [fst snd
       ps_buffer ps_offset ps_length url_protocol url_host
       url_pathname url_query url_href url_parse ch_id
       ch_connecting ch_opening ch_closing ch_connection ch_request
       ch_mode ch_writeQueue ch_encoding ch_url ch_readable
       ch_writable ch_emitable ch_destroyed ch_endsig ch_listeners
       ch_events sk_written sk_flushes sk_broken sk_timeout
       sk_timeout_listeners cn_id cn_chanRefCount cn_reqRefCount cn_channels
       cn_requests cn_sock cn_parser rq_conn rq_id
       rq_flag rq_data rq_present rq_sent rq_destroyed
       rq_prev rq_next rq_chan w_channels w_requests
       w_connections w_all w_disposed w_ticks w_handshakes
       w_next set_ch_id set_ch_connecting set_ch_closing set_ch_connection
       set_ch_request set_ch_mode set_ch_writeQueue set_ch_encoding set_ch_url
       set_ch_readable set_ch_writable set_ch_emitable set_ch_destroyed set_ch_endsig
       set_ch_events set_sk_written set_sk_timeout set_sk_timeout_listeners set_cn_id
       set_cn_chanRefCount set_cn_reqRefCount set_cn_channels set_cn_requests set_cn_sock
       set_cn_parser set_rq_present set_rq_sent set_rq_destroyed set_rq_prev
       set_rq_next set_rq_chan set_w_channels set_w_requests set_w_connections
       set_w_all set_w_disposed set_w_ticks set_w_handshakes set_w_next].

Ltac wsimpl_in H :=
  cbn [fst snd
       ps_buffer ps_offset ps_length url_protocol url_host
       url_pathname url_query url_href url_parse ch_id
       ch_connecting ch_opening ch_closing ch_connection ch_request
       ch_mode ch_writeQueue ch_encoding ch_url ch_readable
       ch_writable ch_emitable ch_destroyed ch_endsig ch_listeners
       ch_events sk_written sk_flushes sk_broken sk_timeout
       sk_timeout_listeners cn_id cn_chanRefCount cn_reqRefCount cn_channels
       cn_requests cn_sock cn_parser rq_conn rq_id
       rq_flag rq_data rq_present rq_sent rq_destroyed
       rq_prev rq_next rq_chan w_channels w_requests
       w_connections w_all w_disposed w_ticks w_handshakes
       w_next set_ch_id set_ch_connecting set_ch_closing set_ch_connection
       set_ch_request set_ch_mode set_ch_writeQueue set_ch_encoding set_ch_url
       set_ch_readable set_ch_writable set_ch_emitable set_ch_destroyed set_ch_endsig
       set_ch_events set_sk_written set_sk_timeout set_sk_timeout_listeners set_cn_id
       set_cn_chanRefCount set_cn_reqRefCount set_cn_channels set_cn_requests set_cn_sock
       set_cn_parser set_rq_present set_rq_sent set_rq_destroyed set_rq_prev
       set_rq_next set_rq_chan set_w_channels set_w_requests set_w_connections
       set_w_all set_w_disposed set_w_ticks set_w_handshakes set_w_next] in H.

(** ** Channel.connect *)

Section ConnectFacts.

Variable H : Host.

(** What [connect] does up to the mode check. *)
Lemma Channel_connect_mode c ch url u id mode w :
  w_channels w !! c = Some ch -> ch_connecting ch = false ->
  connect_target H url = Ok (u, id) ->
  getBinMode mode = None ->
  Channel_connect H c url mode w = (Throw (Error "Invalid mode"), w).
Proof.
  intros Hc Hconn Ht Hm.
  unfold Channel_connect, bind, get_chan, throw.
  rewrite Hc, Hconn, Ht, Hm. reflexivity.
Qed.

(** With a query in the URL, [connect] fails on [uri.query] before it
    has changed anything. *)
Lemma Channel_connect_query c ch url u id mode m w :
  w_channels w !! c = Some ch -> ch_connecting ch = false ->
  connect_target H url = Ok (u, id) ->
  getBinMode mode = Some m ->
  str_truthy (url_query u) = true ->
  Channel_connect H c url mode w
  = (Throw (TypeError "Cannot read property 'query' of undefined"), w).
Proof.
  intros Hc Hconn Ht Hm Hq.
  unfold Channel_connect, bind, get_chan, throw.
  rewrite Hc, Hconn, Ht, Hm, Hq. reflexivity.
Qed.

End ConnectFacts.

(** C9.  [getBinMode] gives every expression of the grammar
    [(r|read)?(w|write)?\+?(e|emit)?], whatever its case, the bits of the
    parts that are present (READ = 1, WRITE = 2, EMIT = 4); it gives the
    empty string 0; and it gives every other string [null], on which
    [Channel.connect], once the URL and the channel id have passed their
    own checks, throws "Invalid mode" and leaves the store untouched. *)
Theorem getBinMode_spec :
  (forall s r w e,
      mode_grammar s r w e -> getBinMode (VString s) = Some (mode_bits r w e))
  /\ getBinMode (VString "") = Some 0
  /\ (forall s,
        (forall r w e, ~ mode_grammar s r w e) ->
        getBinMode (VString s) = None
        /\ forall (H : Host) c ch url u id (w : World),
             w_channels w !! c = Some ch -> ch_connecting ch = false ->
             connect_target H url = Ok (u, id) ->
             Channel_connect H c url (VString s) w
             = (Throw (Error "Invalid mode"), w)).
Proof.
  split; [exact getBinMode_grammar | split; [reflexivity|]].
  intros s Hno. pose proof (getBinMode_reject s Hno) as Hnone.
  split; [exact Hnone|].
  intros H c ch url u id w Hc Hconn Ht.
  eapply Channel_connect_mode; eassumption.
Qed.

(** ** Reading and writing the store *)

Section StoreFacts.

Lemma get_chan_eq c ch w :
  w_channels w !! c = Some ch -> get_chan c w = (Ok ch, w).
Proof. intros E. unfold get_chan. now rewrite E. Qed.

Lemma get_conn_eq c cn w :
  w_connections w !! c = Some cn -> get_conn c w = (Ok cn, w).
Proof. intros E. unfold get_conn. now rewrite E. Qed.

Lemma get_req_eq r rq w :
  w_requests w !! r = Some rq -> get_req r w = (Ok rq, w).
Proof. intros E. unfold get_req. now rewrite E. Qed.

End StoreFacts.

(** ** Channel.write *)

(** C6.  On a writable channel a call of [write] whose payload (the
    Buffer passed, or the encoding of the data) is longer than
    [MAX_PAYLOAD_SIZE] = 10240 bytes throws one of the validation errors
    of [write] and leaves the whole store as it was: nothing reaches the
    socket, nothing is queued, no field of the channel changes.  With a
    valid priority and truthy data the error is the size error. *)
Theorem write_oversize_rejected (H : Host) c ch data arg1 arg2 payload w :
  w_channels w !! c = Some ch -> ch_writable ch = true ->
  payload_of H data (arg_encoding arg1) = Ok payload ->
  MAX_PAYLOAD_SIZE < Js.blen payload ->
  exists e,
    Channel_write H c data arg1 arg2 w = (Throw e, w)
    /\ In e [Error "Bad priority, expected Number between 1-4";
             Error "Expected `data`";
             Error "Cannot send data, max length reach."]
    /\ (forall flag, priority_flag H arg2 = Some flag -> 0 <= flag <= 3 ->
        truthy data = true ->
        e = Error "Cannot send data, max length reach.").
Proof.
  intros Hc Hw Hp Hlen.
  unfold Channel_write, bind. rewrite (get_chan_eq c ch w Hc), Hw.
  cbn [negb]. unfold throw.
  destruct (priority_flag H arg2) as [flag|] eqn:Ef.
  - destruct ((flag <? 0) || (3 <? flag)) eqn:Er.
    + eexists. split; [reflexivity|]. split; [now left|].
      intros flag' [= <-] Hr _. exfalso.
      apply orb_true_iff in Er as [Er | Er]; apply Z.ltb_lt in Er; lia.
    + destruct (truthy data) eqn:Et; cbn [negb].
      * rewrite Hp.
        assert (E : (MAX_PAYLOAD_SIZE <? Js.blen payload) = true)
          by (apply Z.ltb_lt; exact Hlen).
        rewrite E. eexists. split; [reflexivity|].
        split; [right; right; now left | reflexivity].
      * eexists. split; [reflexivity|]. split; [right; now left|].
        intros _ _ _ [=].
  - eexists. split; [reflexivity|]. split; [now left|].
    intros flag [=].
Qed.

(** ** Channel.end *)

Section EndFacts.

(** On an open channel [end] sends one END frame: nothing in [end] or
    [destroy] looks at the size of the message. *)
Lemma Channel_end_open w c ch conn sock (message : option string) :
  open_channel w c ch conn sock ->
  let payload := if str_truthy message
                 then Some (utf8_encode (default "" message)) else None in
  let sig := SignalFrame (ch_id ch) SignalFlag.FLAG_END payload in
  exists w',
    Channel_end c message w = (Ok tt, w')
    /\ written w' conn = sk_written sock ++ [Packet_toBuffer sig]
    /\ chan_field ch_closing w' c = Some true.
Proof.
  intros ((Hc & Hcg & Hq & Hcn & (cn & Hconn & Hs) & Hb) & Hd & Hcl & Hid & Hr)
         payload sig.
  unfold Channel_end, bind.
  rewrite (get_chan_eq c ch w Hc), Hd, Hcl. cbn [orb].
  unfold upd_chan at 1. unfold modify. fold payload. fold sig.
  unfold Channel_destroy, Channel_destroy_n, Channel_destroy_body, bind.
  set (w1 := set_w_channels _ w).
  assert (Hc1 : w_channels w1 !! c = Some (set_ch_endsig (Some sig) ch)).
  { unfold w1. wsimpl. rewrite lookup_alter_eq, Hc. reflexivity. }
  rewrite (get_chan_eq c _ w1 Hc1). wsimpl. rewrite Hd, Hcl, Hid, Hcn.
  cbn [orb negb]. unfold ret at 1. unfold upd_chan at 1. unfold modify.
  set (w2 := set_w_channels _ w1).
  assert (Hc2 : w_channels w2 !! c
                = Some (set_ch_closing true (set_ch_emitable false
                    (set_ch_writable false (set_ch_readable false
                       (set_ch_endsig (Some sig) ch)))))).
  { unfold w2. wsimpl. rewrite lookup_alter_eq, Hc1. reflexivity. }
  rewrite !(get_chan_eq c _ w2 Hc2). wsimpl. rewrite Hr.
  unfold ret at 1. cbv iota.
  rewrite !(get_chan_eq c _ w2 Hc2). wsimpl. rewrite Hr.
  unfold try_catch, Channel_writeOut_with, bind.
  rewrite !(get_chan_eq c _ w2 Hc2). wsimpl. rewrite Hq, Hcg, Hcn.
  unfold Connection_write, bind.
  assert (Hconn2 : w_connections w2 !! conn = Some cn) by exact Hconn.
  rewrite (get_conn_eq conn cn w2 Hconn2), Hs, Hb.
  unfold upd_conn, modify, ret. wsimpl.
  eexists. split; [reflexivity|]. split.
  - unfold written. wsimpl. rewrite lookup_alter_eq, Hconn2.
    cbn [fmap option_fmap option_map]. wsimpl. reflexivity.
  - unfold chan_field. wsimpl. rewrite Hc2. reflexivity.
Qed.

End EndFacts.

(** C10.  [Channel.end(message)] checks no size: on an open channel it
    writes, for every message, the [SignalFrame] with the UTF-8 bytes of
    the message to the socket.  The frame is 7 bytes longer than the
    payload, while the 16-bit length prefix that [toBuffer] stores byte
    by byte reads back as that length modulo [2^16]; so for a message of
    more than 65528 bytes the length field differs from the length of
    the frame. *)
Theorem end_length_prefix_wraps w c ch conn sock (message : option string) :
  open_channel w c ch conn sock ->
  let payload := if str_truthy message
                 then Some (utf8_encode (default "" message)) else None in
  let buf := Packet_toBuffer (SignalFrame (ch_id ch) SignalFlag.FLAG_END payload) in
  (exists w', Channel_end c message w = (Ok tt, w')
              /\ written w' conn = sk_written sock ++ [buf])
  /\ Js.blen buf = 7 + Js.blen (default [] payload)
  /\ packetlen_at buf 0 = (7 + Js.blen (default [] payload)) mod 65536
  /\ (65528 < Js.blen (default [] payload) -> packetlen_at buf 0 <> Js.blen buf).
Proof.
  intros Hopen payload buf.
  assert (Hlen : Js.blen buf = 7 + Js.blen (default [] payload)).
  { unfold buf, Packet_toBuffer. rewrite frame_toBuffer_blen.
    unfold frame_length. destruct payload; reflexivity. }
  assert (Hpre : packetlen_at buf 0 = (7 + Js.blen (default [] payload)) mod 65536).
  { unfold buf, Packet_toBuffer, frame_toBuffer.
    rewrite packetlen_header.
    - unfold frame_length. destruct payload; reflexivity.
    - unfold frame_length, Js.blen. destruct payload; lia. }
  split; [|split; [exact Hlen | split; [exact Hpre|]]].
  - destruct (Channel_end_open w c ch conn sock message Hopen)
      as (w' & Hrun & Hwr & _).
    exists w'. split; assumption.
  - intros Hbig. rewrite Hpre, Hlen.
    pose proof (Z.mod_pos_bound (7 + Js.blen (default [] payload)) 65536
                  ltac:(lia)) as Hb.
    lia.
Qed.


(** ** The defects, run on concrete stores *)

Section Defects.

(** Split a conjunction into its parts, and nothing else. *)
Ltac conjs := repeat match goal with |- _ /\ _ => split end.

Import ExampleHost Scenario.

(** C2.  A URL with a query, ["localhost:7010/x112233?secret"], opened in
    mode "rw": [connect] reads [uri.query] of the never assigned [uri]
    and throws a TypeError; no token is derived, no connection is
    looked up, nothing is opened.  The same URL without the query
    connects. *)
Theorem connect_with_query_throws :
  let url := VString "localhost:7010/x112233?secret" in
  let w' := exec (createChannel host url (VString "rw")) World_init in
  (exists u id, connect_target host url = Ok (u, id)
                /\ url_query u = Some "secret"%string)
  /\ getBinMode (VString "rw") = Some 3
  /\ result (createChannel host url (VString "rw")) World_init
     = Throw (TypeError "Cannot read property 'query' of undefined")
  /\ w_channels w' !! 0%nat = Some Channel_new
  /\ w_connections w' = ∅
  /\ result (createChannel host (VString "localhost:7010/x112233") (VString "rw"))
            World_init = Ok 0%nat.
Proof.
  cbv zeta. split; [eexists _, _; split; vm_compute; reflexivity|].
  conjs; vm_compute; reflexivity.
Qed.

(** C3.  An OPEN response for channel 9 arrives on a live connection
    that has no request pending for 9: [processOpen] evaluates the
    undefined variable [sock] and throws a ReferenceError.  The
    connection is not destroyed, its channel sees no error, and the
    parser stays on the frame. *)
Theorem processOpen_unknown_id_throws :
  let run := Connection_ondata host conn open_9 0 (Js.blen open_9) in
  let w' := exec run w_open in
  queue_of w_open conn 9 = []
  /\ conn_live conn w_open = true
  /\ result run w_open = Throw (ReferenceError "sock is not defined")
  /\ conn_live conn w' = true
  /\ events_of w' chan = [EvConnect]
  /\ written w' conn = written w_open conn
  /\ (cn_parser <$> w_connections w' !! conn)
     = Some (mkParser (Some open_9) 0 7).
Proof. cbv zeta. conjs; vm_compute; reflexivity. Qed.

(** C4.  [end("bye")] while the open request is already on the wire
    stores the END signal and sends nothing; so does [destroy()].  When
    the server then allows the channel, [_open] reaches
    [self._endsig], where [self] is not defined: a ReferenceError is
    thrown, the stored END frame is never written and stays stored.  No
    connect event is emitted. *)
Theorem end_while_opening_never_sent :
  let answer := Connection_ondata host conn allow_1 0 (Js.blen allow_1) in
  req_field rq_sent w_sent req = Some true
  /\ chan_field ch_endsig w_ending chan
     = Some (Some (SignalFrame (Some 1) SignalFlag.FLAG_END
                               (Some (utf8_encode "bye"))))
  /\ written w_ending conn = written w_sent conn
  /\ result answer w_ending = Throw (ReferenceError "self is not defined")
  /\ written (exec answer w_ending) conn = written w_sent conn
  /\ chan_field ch_endsig (exec answer w_ending) chan
     = chan_field ch_endsig w_ending chan
  /\ events_of (exec answer w_ending) chan = []
  /\ chan_field ch_endsig w_destroying chan
     = Some (Some (SignalFrame (Some 1) SignalFlag.FLAG_END None))
  /\ result answer w_destroying = Throw (ReferenceError "self is not defined")
  /\ written (exec answer w_destroying) conn = written w_sent conn.
Proof. cbv zeta. conjs; vm_compute; reflexivity. Qed.

(** C7.  Two requests are queued for channel 1, neither sent.
    Cancelling the second returns [true] and destroys it, but the
    queue still holds it: [prev] is never linked, and
    [this.prev = this.next] would not unlink it either.  The same
    happens when the user destroys the second channel; once the first
    request is denied, the cancelled request is promoted and its OPEN
    frame is written for a channel that is already closed.  (Cancelling
    the head does remove the head, and a sent request is not
    cancelled.) *)
Theorem cancel_leaves_request_queued :
  let w' := exec (OpenRequest_cancel req2) w_two in
  queue_of w_two conn 1 = [req; req2]
  /\ req_field rq_sent w_two req2 = Some false
  /\ result (OpenRequest_cancel req2) w_two = Ok true
  /\ req_field rq_destroyed w' req2 = Some true
  /\ queue_of w' conn 1 = [req; req2]
  /\ req_field rq_next w' req = Some (Some req2)
  /\ queue_of w_two_destroyed conn 1 = [req; req2]
  /\ events_of w_two_destroyed chan2 = [EvClose false None]
  /\ written w_two_denied conn
     = [OpenRequest_toBuffer_of 1 3 None; OpenRequest_toBuffer_of 1 3 None]
  /\ queue_of (exec (OpenRequest_cancel req) w_two) conn 1 = [req2]
  /\ OpenRequest_cancel req w_sent = (Ok false, w_sent).
Proof. cbv zeta. conjs; vm_compute; reflexivity. Qed.

End Defects.

(** ** What a destroyed connection stays *)

Section Preservation.

Lemma preserves_ret (P : World -> Prop) {A : Type} (a : A) : preserves P (ret a).
Proof. intros w Hw. exact Hw. Qed.

Lemma preserves_throw (P : World -> Prop) {A : Type} (e : JsError) :
  preserves P (@throw A e).
Proof. intros w Hw. exact Hw. Qed.

Lemma preserves_bind (P : World -> Prop) {A B : Type} (m : M A) (k : A -> M B) :
  preserves P m -> (forall a, preserves P (k a)) -> preserves P (bind m k).
Proof.
  intros Hm Hk w Hw. unfold bind. specialize (Hm w Hw).
  destruct (m w) as [[a|e] w']; cbn in *; [apply Hk; exact Hm | exact Hm].
Qed.

Lemma preserves_after (P : World -> Prop) {A B : Type} (m : M A) (k : A -> M B) w :
  P (m w).2 -> (forall a, preserves P (k a)) -> P (bind m k w).2.
Proof.
  intros Hm Hk. unfold bind.
  destruct (m w) as [[a|e] w']; cbn in *; [apply Hk; exact Hm | exact Hm].
Qed.

Lemma preserves_try_catch (P : World -> Prop) {A : Type} (m : M A) h :
  preserves P m -> (forall e, preserves P (h e)) -> preserves P (try_catch m h).
Proof.
  intros Hm Hh w Hw. unfold try_catch. specialize (Hm w Hw).
  destruct (m w) as [[a|e] w']; cbn in *; [exact Hm|].
  destruct e; try (apply Hh; exact Hm). exact Hm.
Qed.

Lemma preserves_for_each (P : World -> Prop) {A : Type} (l : list A) f :
  (forall x, preserves P (f x)) -> preserves P (for_each l f).
Proof.
  intros Hf. induction l as [|x l IH]; cbn [for_each].
  - apply preserves_ret.
  - apply preserves_bind; [apply Hf | intros _; exact IH].
Qed.

Lemma preserves_get_world (P : World -> Prop) : preserves P get_world.
Proof. intros w Hw. exact Hw. Qed.

Lemma preserves_get_chan (P : World -> Prop) c : preserves P (get_chan c).
Proof. intros w Hw. unfold get_chan. destruct (w_channels w !! c); exact Hw. Qed.

Lemma preserves_get_conn (P : World -> Prop) c : preserves P (get_conn c).
Proof. intros w Hw. unfold get_conn. destruct (w_connections w !! c); exact Hw. Qed.

Lemma preserves_get_req (P : World -> Prop) r : preserves P (get_req r).
Proof. intros w Hw. unfold get_req. destruct (w_requests w !! r); exact Hw. Qed.

(** From here on the property is: connection [conn] is not live. *)
Variable conn : connRef.

Local Abbreviation dead := (is_dead conn).

Lemma dead_modify (f : World -> World) :
  (forall w, w_connections (f w) = w_connections w) -> preserves dead (modify f).
Proof.
  intros Hf w Hw. unfold is_dead, conn_live in *. cbn. now rewrite Hf.
Qed.

Lemma dead_upd_chan c f : preserves dead (upd_chan c f).
Proof. apply dead_modify. reflexivity. Qed.

Lemma dead_upd_req r f : preserves dead (upd_req r f).
Proof. apply dead_modify. reflexivity. Qed.

Lemma dead_emit c ev : preserves dead (emit c ev).
Proof. apply dead_upd_chan. Qed.

Lemma dead_nextTick t : preserves dead (nextTick t).
Proof. apply dead_modify. reflexivity. Qed.

Lemma dead_upd_conn c f :
  (forall cn, cn_id (f cn) = cn_id cn) -> preserves dead (upd_conn c f).
Proof.
  intros Hf w Hw. unfold is_dead, conn_live in *. cbn.
  destruct (decide (c = conn)) as [-> | Hne].
  - rewrite lookup_alter_eq.
    destruct (w_connections w !! conn) as [cn|]; cbn; [now rewrite Hf | reflexivity].
  - rewrite lookup_alter_ne by exact Hne. exact Hw.
Qed.

Ltac pres_step :=
  first
    [ apply preserves_ret | apply preserves_throw
    | apply preserves_get_world | apply preserves_get_chan
    | apply preserves_get_conn | apply preserves_get_req
    | apply dead_upd_chan | apply dead_upd_req | apply dead_emit
    | apply dead_nextTick
    | (apply dead_upd_conn; intros ?; reflexivity)
    | (apply dead_modify; intros ?; reflexivity)
    | (apply preserves_bind; [|intros ?])
    | (apply preserves_try_catch; [|intros ?])
    | (apply preserves_for_each; intros ?)
    | match goal with
      | |- preserves _ (if ?b then _ else _) => destruct b
      | |- preserves _ (match ?x with _ => _ end) => destruct x
      | |- preserves _ (let _ := _ in _) => cbv zeta
      end ].

(** [known] closes the calls of functions already dealt with, before
    the generic rules get to unfold them. *)
Tactic Notation "pres" "using" tactic(known) := repeat first [known | pres_step].

Lemma dead_setDisposed c state : preserves dead (Connection_setDisposed c state).
Proof. unfold Connection_setDisposed. pres using fail. Qed.

Lemma dead_dispose_if_unused c : preserves dead (dispose_if_unused c).
Proof. unfold dispose_if_unused. pres using (apply dead_setDisposed). Qed.

Lemma dead_finalizeDestroyChannel c err message :
  preserves dead (finalizeDestroyChannel c err message).
Proof.
  unfold finalizeDestroyChannel. pres using (apply dead_dispose_if_unused).
Qed.

Lemma dead_OpenRequest_destroy r err : preserves dead (OpenRequest_destroy r err).
Proof.
  unfold OpenRequest_destroy.
  pres using (first [apply dead_dispose_if_unused
                    | apply dead_finalizeDestroyChannel]).
Qed.

Lemma dead_destroyAndNext_n fuel : forall r err,
  preserves dead (OpenRequest_destroyAndNext_n fuel r err).
Proof.
  induction fuel as [|fuel IH]; intros r err; cbn [OpenRequest_destroyAndNext_n].
  - pres using fail.
  - pres using (first [apply IH | apply dead_OpenRequest_destroy]).
Qed.

Lemma dead_destroyAndNext r err : preserves dead (OpenRequest_destroyAndNext r err).
Proof.
  unfold OpenRequest_destroyAndNext. pres using (apply dead_destroyAndNext_n).
Qed.

(** However [conn.destroy] ends, the connection is not live afterwards. *)
Lemma Connection_destroy_dead err message w :
  dead (exec (Connection_destroy conn err message) w).
Proof.
  unfold exec, Connection_destroy, bind at 1, get_conn.
  destruct (w_connections w !! conn) as [cn|] eqn:Ec.
  - destruct (cn_id cn) as [id|] eqn:Eid.
    + destruct (negb (str_truthy (Some id))) eqn:Et.
      * cbn. unfold is_dead, conn_live. rewrite Ec, Eid.
        now apply negb_true_iff in Et.
      * apply preserves_after.
        -- unfold is_dead, conn_live. cbn. rewrite lookup_alter_eq, Ec. reflexivity.
        -- intros _.
           pres using (first [apply dead_finalizeDestroyChannel
                             | apply dead_destroyAndNext]).
    + cbn. unfold is_dead, conn_live. now rewrite Ec, Eid.
  - cbn. unfold is_dead, conn_live. now rewrite Ec.
Qed.

End Preservation.

(** ** The response to an open request *)

Section ResponseFacts.

Import Js JsFacts.

(** Four bytes read the way [processResponse] and the parser read them
    are their big-endian value. *)
Lemma be32_decode b0 b1 b2 b3 :
  0 <= b0 < 256 -> 0 <= b1 < 256 -> 0 <= b2 < 256 -> 0 <= b3 < 256 ->
  bor (bor (shl b1 16) (shl b2 8)) b3 + ushr (shl b0 24) 0 = be32 b0 b1 b2 b3.
Proof.
  intros H0 H1 H2 H3. unfold be32.
  rewrite ushr_shl24 by lia.
  rewrite !shl_small by lia.
  rewrite (bor_add b1 (b2 * 2 ^ 8) 16)
    by (change (2 ^ 8) with 256; change (2 ^ 16) with 65536; unfold two31; lia).
  replace (b1 * 2 ^ 16 + b2 * 2 ^ 8) with ((b1 * 256 + b2) * 2 ^ 8)
    by (change (2 ^ 8) with 256; change (2 ^ 16) with 65536; lia).
  rewrite (bor_add _ b3 8)
    by (change (2 ^ 8) with 256; unfold two31; lia).
  change (2 ^ 8) with 256. lia.
Qed.

Lemma redirect_content_be32 data start :
  (forall i, 0 <= i < 4 -> 0 <= rd data (start + i) < 256) ->
  redirect_content data start
  = be32 (rd data start) (rd data (start + 1)) (rd data (start + 2))
         (rd data (start + 3)).
Proof.
  intros Hb. unfold redirect_content. apply be32_decode.
  - specialize (Hb 0). rewrite Z.add_0_r in Hb. apply Hb. lia.
  - apply Hb. lia.
  - apply Hb. lia.
  - apply Hb. lia.
Qed.

(** The two branches of a REDIRECT response, after the request has left
    the head of its queue. *)
Lemma processResponse_redirect_bad r rq data start end_ w w1 :
  w_requests w !! r = Some rq ->
  OpenRequest_processResponse_queue rq OpenRequestFlag.FLAG_REDIRECT w = (Ok tt, w1) ->
  end_ - start <> 4 ->
  OpenRequest_processResponse r OpenRequestFlag.FLAG_REDIRECT data start end_ w
  = Connection_destroy (rq_conn rq) (Some (Error "Bad open resp")) None w1.
Proof.
  intros Hr Hq Hne. unfold OpenRequest_processResponse.
  unfold bind at 1. rewrite (get_req_eq r rq w Hr).
  unfold bind at 1. rewrite Hq.
  change (OpenRequestFlag.FLAG_REDIRECT =? OpenRequestFlag.FLAG_ALLOW) with false.
  change (OpenRequestFlag.FLAG_REDIRECT =? OpenRequestFlag.FLAG_REDIRECT) with true.
  cbv iota.
  assert (E : (end_ - start =? 4) = false) by (apply Z.eqb_neq; exact Hne).
  rewrite E. reflexivity.
Qed.

Lemma processResponse_redirect_ok r rq data start end_ w w1 :
  w_requests w !! r = Some rq ->
  OpenRequest_processResponse_queue rq OpenRequestFlag.FLAG_REDIRECT w = (Ok tt, w1) ->
  end_ - start = 4 ->
  OpenRequest_processResponse r OpenRequestFlag.FLAG_REDIRECT data start end_ w
  = (OpenRequest_onresponse rq (redirect_content data start) ;;
     OpenRequest_destroy r None) w1.
Proof.
  intros Hr Hq He. unfold OpenRequest_processResponse.
  unfold bind at 1. rewrite (get_req_eq r rq w Hr).
  unfold bind at 1. rewrite Hq.
  change (OpenRequestFlag.FLAG_REDIRECT =? OpenRequestFlag.FLAG_ALLOW) with false.
  change (OpenRequestFlag.FLAG_REDIRECT =? OpenRequestFlag.FLAG_REDIRECT) with true.
  cbv iota. rewrite He. reflexivity.
Qed.

End ResponseFacts.

(** ** Writing on an open channel *)

Section WriteFacts.

Lemma sock_push_push a b sock :
  sock_push b (sock_push a sock) = sock_push (a ++ b) sock.
Proof. unfold sock_push. cbn. now rewrite app_assoc. Qed.

Lemma sock_push_nil sock : sock_push [] sock = sock.
Proof. unfold sock_push. rewrite app_nil_r. destruct sock; reflexivity. Qed.

(** A packet written out on a ready channel goes to the socket. *)
Lemma Channel_writeOut_ready w c ch conn sock packet :
  write_ready w c ch conn sock ->
  exists w',
    Channel_writeOut c packet w = (Ok (sk_flushes sock), w')
    /\ write_ready w' c ch conn (sock_push [Packet_toBuffer packet] sock)
    /\ w_channels w' = w_channels w /\ w_requests w' = w_requests w.
Proof.
  intros (Hc & Hcg & Hq & Hcn & (cn & Hconn & Hs) & Hb).
  unfold Channel_writeOut, Channel_writeOut_with, bind.
  rewrite (get_chan_eq c ch w Hc), Hq, Hcg, Hcn.
  unfold Connection_write, bind.
  rewrite (get_conn_eq conn cn w Hconn), Hs, Hb.
  unfold upd_conn, modify, ret. wsimpl.
  eexists. split; [reflexivity|]. split; [|split; reflexivity].
  unfold write_ready. wsimpl.
  repeat split; try assumption.
  eexists. split; [rewrite lookup_alter_eq, Hconn; reflexivity|].
  reflexivity.
Qed.

(** The queue of an opening channel is flushed in order, every packet
    with the resolved id. *)
Lemma Channel_open_drain_ready c ch conn newid queue : forall w sock flushed,
  write_ready w c ch conn sock ->
  exists w',
    Channel_open_drain c newid queue flushed w
    = (Ok (Some (match queue with [] => flushed | _ => sk_flushes sock end)), w')
    /\ write_ready w' c ch conn
         (sock_push (map (fun p => Packet_toBuffer (Packet_set_id p (Some newid)))
                         queue) sock)
    /\ w_channels w' = w_channels w /\ w_requests w' = w_requests w.
Proof.
  induction queue as [|p queue IH]; intros w sock flushed Hready.
  - exists w. cbn [Channel_open_drain map]. rewrite sock_push_nil.
    split; [reflexivity|]. split; [exact Hready|]. split; reflexivity.
  - cbn [Channel_open_drain map].
    destruct (Channel_writeOut_ready w c ch conn sock
                (Packet_set_id p (Some newid)) Hready)
      as (w1 & Hrun & Hready1 & Hch1 & Hrq1).
    unfold bind at 1. unfold try_catch, bind at 1. rewrite Hrun.
    unfold ret at 1. cbv iota.
    destruct (IH w1 _ (sk_flushes sock) Hready1) as (w2 & Hrun2 & Hready2 & Hch2 & Hrq2).
    rewrite Hrun2. exists w2.
    rewrite sock_push_push in Hready2.
    split; [|split; [exact Hready2 | split; congruence]].
    destruct queue; reflexivity.
Qed.

(** [_open] on a channel that is waiting and not closing: the channel
    takes the id, registers with the connection, flushes its queue with
    the id and emits [connect] (and [drain] if the last write flushed). *)
Lemma Channel_open_opening w c ch conn sock newid :
  opening_channel w c ch conn sock ->
  let queue := default [] (ch_writeQueue ch) in
  let flushed := match queue with [] => false | _ => sk_flushes sock end in
  let ch' :=
    set_ch_events (ch_events ch ++ EvConnect :: (if flushed then [EvDrain] else []))
      (set_ch_request None (set_ch_writeQueue None (set_ch_connecting false
        (set_ch_id (Some newid) ch)))) in
  exists w',
    Channel_open c newid w = (Ok tt, w')
    /\ write_ready w' c ch' conn
         (sock_push (map (fun p => Packet_toBuffer (Packet_set_id p (Some newid)))
                         queue) sock)
    /\ w_requests w' = w_requests w.
Proof.
  intros (Hc & Hcl & Hcn & (cn & Hconn & Hs) & Hb) queue flushed ch'.
  unfold Channel_open. unfold bind at 1. rewrite (get_chan_eq c ch w Hc).
  unfold bind at 1, upd_chan at 1, modify. rewrite Hcn.
  unfold bind at 1, upd_conn at 1, modify. wsimpl.
  set (ch1 := set_ch_request None (set_ch_writeQueue None (set_ch_connecting false
                (set_ch_id (Some newid) ch)))).
  set (cn1 := set_cn_chanRefCount (cn_chanRefCount cn + 1)
                (set_cn_channels (<[newid := c]> (cn_channels cn)) cn)).
  set (w2 := set_w_connections _ _).
  assert (Hready : write_ready w2 c ch1 conn sock).
  { unfold write_ready, w2. wsimpl. split.
    - rewrite lookup_alter_eq, Hc. reflexivity.
    - repeat split; try assumption; try reflexivity.
      exists cn1. split; [|exact Hs].
      rewrite lookup_alter_eq, Hconn. reflexivity. }
  destruct (Channel_open_drain_ready c ch1 conn newid queue w2 sock false Hready)
    as (w3 & Hrun & Hready3 & Hch3 & Hrq3).
  assert (Hdrain :
    match ch_writeQueue ch with
    | Some (p :: q) => Channel_open_drain c newid (p :: q) false
    | _ => ret (Some false)
    end w2 = (Ok (Some flushed), w3)
    \/ (queue = [] /\ w3 = w2 /\
        match ch_writeQueue ch with
        | Some (p :: q) => Channel_open_drain c newid (p :: q) false
        | _ => ret (Some false)
        end w2 = (Ok (Some flushed), w2))).
  { unfold flushed, queue in *.
    destruct (ch_writeQueue ch) as [[|p q]|]; cbn [from_option] in *.
    - right. cbn in Hrun. injection Hrun as <-. auto.
    - left. exact Hrun.
    - right. cbn in Hrun. injection Hrun as <-. auto. }
  assert (Hdrain' :
    match ch_writeQueue ch with
    | Some (p :: q) => Channel_open_drain c newid (p :: q) false
    | _ => ret (Some false)
    end w2 = (Ok (Some flushed), w3)).
  { destruct Hdrain as [E | (_ & -> & E)]; exact E. }
  unfold bind at 1. rewrite Hdrain'. cbv iota.
  destruct Hready3 as (Hc3 & Hcg3 & Hq3 & Hcn3 & Hsock3 & Hb3).
  unfold bind at 1. rewrite (get_chan_eq c ch1 w3 Hc3).
  change (ch_closing ch1) with (ch_closing ch). rewrite Hcl.
  unfold bind, emit, upd_chan, modify, ret. 
  assert (Hw : exists w',
    (let (r, w') := (Ok tt, set_w_channels
           (alter (fun ch0 => set_ch_events (ch_events ch0 ++ [EvConnect]) ch0) c
              (w_channels w3)) w3) in
     match r with
     | Ok _ => (if flushed
                then fun w0 => (Ok tt, set_w_channels
                   (alter (fun ch0 => set_ch_events (ch_events ch0 ++ [EvDrain]) ch0) c
                      (w_channels w0)) w0)
                else fun w0 => (Ok tt, w0)) w'
     | Throw e => (Throw e, w')
     end) = (Ok tt, w')
    /\ w_channels w' !! c = Some ch'
    /\ w_connections w' = w_connections w3
    /\ w_requests w' = w_requests w3).
  { unfold ch'. destruct flushed; eexists; (split; [reflexivity|]); wsimpl;
      (split; [|split; reflexivity]).
    - rewrite !lookup_alter_eq, Hc3. cbn. rewrite <- app_assoc. reflexivity.
    - rewrite !lookup_alter_eq, Hc3. reflexivity. }
  destruct Hw as (w' & Hrun' & Hc' & Hconn' & Hrq').
  exists w'. split; [exact Hrun'|]. split.
  - unfold write_ready. rewrite Hconn'.
    repeat split; try assumption; try reflexivity.
  - rewrite Hrq', Hrq3. reflexivity.
Qed.

(** [write] on a ready, writable channel frames the payload with the
    id the channel has. *)
Lemma Channel_write_ready (H : Host) w c ch conn sock data arg1 arg2 flag payload :
  write_ready w c ch conn sock -> ch_writable ch = true ->
  priority_flag H arg2 = Some flag -> 0 <= flag <= 3 ->
  truthy data = true ->
  payload_of H data (arg_encoding arg1) = Ok payload ->
  Js.blen payload <= MAX_PAYLOAD_SIZE ->
  let frame := DataFrame (ch_id ch)
                 (Js.bor (Js.shl flag 1)
                         (match data with VBuffer _ => 0 | _ => 1 end))
                 (Some payload) in
  exists w',
    Channel_write H c data arg1 arg2 w = (Ok (sk_flushes sock), w')
    /\ write_ready w' c ch conn (sock_push [Packet_toBuffer frame] sock).
Proof.
  intros Hready Hw Hf Hr Ht Hp Hlen frame.
  pose proof Hready as (Hc & _).
  unfold Channel_write. unfold bind at 1. rewrite (get_chan_eq c ch w Hc).
  rewrite Hw, Hf, Ht, Hp. cbn [negb].
  assert (E1 : ((flag <? 0) || (3 <? flag)) = false).
  { apply orb_false_iff. split; apply Z.ltb_ge; lia. }
  assert (E2 : (MAX_PAYLOAD_SIZE <? Js.blen payload) = false)
    by (apply Z.ltb_ge; exact Hlen).
  rewrite E1, E2.
  destruct (Channel_writeOut_ready w c ch conn sock frame Hready)
    as (w' & Hrun & Hready' & _ & _).
  unfold try_catch. fold frame. rewrite Hrun.
  exists w'. split; [reflexivity | exact Hready'].
Qed.

End WriteFacts.

(** ** Destroying an answered request *)

Section RequestDone.

Lemma same_socket_refl sock : same_socket sock sock.
Proof. repeat split. Qed.

(** Disposal only touches the idle timer of the socket and the two
    connection tables. *)
Lemma Connection_setDisposed_ready w c ch conn sock state :
  write_ready w c ch conn sock ->
  exists w' sock',
    Connection_setDisposed conn state w = (Ok tt, w')
    /\ write_ready w' c ch conn sock' /\ same_socket sock sock'
    /\ w_requests w' = w_requests w.
Proof.
  intros (Hc & Hcg & Hq & Hcn & (cn & Hconn & Hs) & Hb).
  unfold Connection_setDisposed. unfold bind at 1.
  rewrite (get_conn_eq conn cn w Hconn), Hs.
  destruct (cn_id cn) as [id|].
  - destruct (negb (str_truthy (Some id))).
    + exists w, sock. split; [reflexivity|]. split; [|split; [apply same_socket_refl | reflexivity]].
      unfold write_ready; eauto 10.
    + destruct state; unfold bind, upd_conn, modify; wsimpl.
      * eexists _, (set_sk_timeout_listeners (Datatypes.S (sk_timeout_listeners sock))
                      (set_sk_timeout 200 sock)).
        split; [reflexivity|]. split; [|split; [|reflexivity]].
        -- unfold write_ready. wsimpl.
           split; [exact Hc|]. split; [exact Hcg|]. split; [exact Hq|].
           split; [exact Hcn|]. split; [|exact Hb].
           eexists. split; [rewrite lookup_alter_eq, Hconn; reflexivity|].
           reflexivity.
        -- repeat split.
      * eexists _, (set_sk_timeout_listeners 0%nat (set_sk_timeout 0 sock)).
        split; [reflexivity|]. split; [|split; [|reflexivity]].
        -- unfold write_ready. wsimpl.
           split; [exact Hc|]. split; [exact Hcg|]. split; [exact Hq|].
           split; [exact Hcn|]. split; [|exact Hb].
           eexists. split; [rewrite lookup_alter_eq, Hconn; reflexivity|].
           reflexivity.
        -- repeat split.
  - exists w, sock. split; [reflexivity|]. split; [|split; [apply same_socket_refl | reflexivity]].
    unfold write_ready; eauto 10.
Qed.

Lemma dispose_if_unused_ready w c ch conn sock :
  write_ready w c ch conn sock ->
  exists w' sock',
    dispose_if_unused conn w = (Ok tt, w')
    /\ write_ready w' c ch conn sock' /\ same_socket sock sock'
    /\ w_requests w' = w_requests w.
Proof.
  intros Hready. pose proof Hready as (_ & _ & _ & _ & (cn & Hconn & _) & _).
  unfold dispose_if_unused. unfold bind at 1.
  rewrite (get_conn_eq conn cn w Hconn).
  destruct ((cn_chanRefCount cn =? 0) && (cn_reqRefCount cn =? 0)).
  - apply Connection_setDisposed_ready. exact Hready.
  - exists w, sock. split; [reflexivity|].
    split; [exact Hready | split; [apply same_socket_refl | reflexivity]].
Qed.

(** Destroying a request without an error leaves the channels alone. *)
Lemma OpenRequest_destroy_ready w r rq c ch conn sock :
  w_requests w !! r = Some rq -> rq_conn rq = conn ->
  write_ready w c ch conn sock ->
  exists w' sock',
    OpenRequest_destroy r None w = (Ok tt, w')
    /\ write_ready w' c ch conn sock' /\ same_socket sock sock'.
Proof.
  intros Hr Hrc Hready.
  pose proof Hready as (Hc & Hcg & Hq & Hcn & (cn & Hconn & Hs) & Hb).
  unfold OpenRequest_destroy. unfold bind at 1.
  rewrite (get_req_eq r rq w Hr).
  destruct (rq_destroyed rq).
  - exists w, sock. split; [reflexivity|]. split; [exact Hready | apply same_socket_refl].
  - rewrite Hrc. unfold bind at 1. rewrite (get_conn_eq conn cn w Hconn).
    assert (Hstep : exists w1 sock1,
      (if str_truthy (cn_id cn)
       then upd_conn conn (fun cn => set_cn_reqRefCount (cn_reqRefCount cn - 1) cn) ;;
            dispose_if_unused conn
       else ret tt) w = (Ok tt, w1)
      /\ write_ready w1 c ch conn sock1 /\ same_socket sock sock1
      /\ w_requests w1 = w_requests w).
    { destruct (str_truthy (cn_id cn)).
      - unfold bind at 1, upd_conn at 1, modify.
        set (w0 := set_w_connections _ w).
        assert (Hready0 : write_ready w0 c ch conn sock).
        { unfold write_ready, w0. wsimpl. repeat split; try assumption.
          eexists. split; [rewrite lookup_alter_eq, Hconn; reflexivity|].
          exact Hs. }
        destruct (dispose_if_unused_ready w0 c ch conn sock Hready0)
          as (w1 & sock1 & Hrun & Hready1 & Hsame & Hrq).
        exists w1, sock1. auto.
      - exists w, sock. split; [reflexivity|].
        split; [exact Hready | split; [apply same_socket_refl | reflexivity]]. }
    destruct Hstep as (w1 & sock1 & Hrun & Hready1 & Hsame & Hrq).
    unfold bind at 1. rewrite Hrun.
    assert (Hnone : match rq_chan rq, @None JsError with
                    | Some chan, Some e => finalizeDestroyChannel chan (Some e) None
                    | _, _ => ret tt
                    end = ret tt) by (destruct (rq_chan rq); reflexivity).
    rewrite Hnone. unfold bind, ret, upd_req, modify.
    eexists _, sock1. split; [reflexivity|]. split; [|exact Hsame].
    destruct Hready1 as (Hc1 & Hcg1 & Hq1 & Hcn1 & Hsock1 & Hb1).
    unfold write_ready. wsimpl. repeat split; assumption.
Qed.

End RequestDone.

(** ** The REDIRECT response *)

Section RedirectFacts.

Lemma written_ready w c ch conn sock :
  write_ready w c ch conn sock -> written w conn = sk_written sock.
Proof.
  intros (_ & _ & _ & _ & (cn & Hconn & Hs) & _).
  unfold written. now rewrite Hconn, Hs.
Qed.

Lemma be32_range b0 b1 b2 b3 :
  0 <= b0 < 256 -> 0 <= b1 < 256 -> 0 <= b2 < 256 -> 0 <= b3 < 256 ->
  0 <= be32 b0 b1 b2 b3 < Js.two32.
Proof. unfold be32, Js.two32. lia. Qed.

(** The whole of a well-formed REDIRECT on a waiting channel. *)
Lemma processResponse_redirect_opening r rq rq1 data start end_ w w1 c ch sock :
  w_requests w !! r = Some rq ->
  OpenRequest_processResponse_queue rq OpenRequestFlag.FLAG_REDIRECT w = (Ok tt, w1) ->
  end_ - start = 4 ->
  rq_chan rq = Some c -> opening_channel w1 c ch (rq_conn rq) sock ->
  w_requests w1 !! r = Some rq1 -> rq_conn rq1 = rq_conn rq ->
  let newid := redirect_content data start in
  let queue := default [] (ch_writeQueue ch) in
  exists w' ch' sock',
    OpenRequest_processResponse r OpenRequestFlag.FLAG_REDIRECT data start end_ w
    = (Ok tt, w')
    /\ write_ready w' c ch' (rq_conn rq) sock'
    /\ ch_id ch' = Some newid
    /\ ch_writable ch' = ch_writable ch
    /\ ch_events ch'
       = ch_events ch ++ EvConnect ::
           (if match queue with [] => false | _ => sk_flushes sock end
            then [EvDrain] else [])
    /\ sk_written sock'
       = sk_written sock
         ++ map (fun p => Packet_toBuffer (Packet_set_id p (Some newid))) queue
    /\ sk_flushes sock' = sk_flushes sock.
Proof.
  intros Hr Hq He Hchan Hopening Hr1 Hconn1 newid queue.
  rewrite (processResponse_redirect_ok r rq data start end_ w w1 Hr Hq He).
  unfold OpenRequest_onresponse. rewrite Hchan. fold newid.
  destruct (Channel_open_opening w1 c ch (rq_conn rq) sock newid Hopening)
    as (w2 & Hrun2 & Hready2 & Hrq2).
  unfold bind at 1. rewrite Hrun2.
  rewrite <- Hrq2 in Hr1.
  destruct (OpenRequest_destroy_ready w2 r rq1 c _ (rq_conn rq) _ Hr1 Hconn1 Hready2)
    as (w3 & sock3 & Hrun3 & Hready3 & Hw & Hf & _).
  exists w3. eexists. exists sock3.
  split; [exact Hrun3|]. split; [exact Hready3|].
  split; [reflexivity|]. split; [reflexivity|]. split; [reflexivity|].
  split; [exact Hw | exact Hf].
Qed.

End RedirectFacts.

(** C8.  An OPEN response with flag REDIRECT, once the request has left
    the head of its queue: with a payload that is not exactly 4 bytes
    long, [processResponse] is [conn.destroy(new Error("Bad open
    resp"))], after which the connection is not live; with exactly 4
    payload bytes it hands their big-endian value to [onresponse] and
    destroys the request.  On a channel that waits for this answer the
    value becomes the channel's id, the queued packets are written with
    it, [connect] is emitted, and a later [write] is framed with it. *)
Theorem redirect_response :
  forall (w w1 : World) (r : reqRef) (rq : OpenRequest)
         (data : list Z) (start end_ : Z),
    w_requests w !! r = Some rq ->
    OpenRequest_processResponse_queue rq OpenRequestFlag.FLAG_REDIRECT w = (Ok tt, w1) ->
    let conn := rq_conn rq in
    let respond :=
      OpenRequest_processResponse r OpenRequestFlag.FLAG_REDIRECT data start end_ in
    (end_ - start <> 4 ->
       respond w = Connection_destroy conn (Some (Error "Bad open resp")) None w1
       /\ is_dead conn (exec respond w))
    /\ (end_ - start = 4 ->
        (forall i, 0 <= i < 4 -> 0 <= Js.rd data (start + i) < 256) ->
        let newid := be32 (Js.rd data start) (Js.rd data (start + 1))
                          (Js.rd data (start + 2)) (Js.rd data (start + 3)) in
        respond w = (OpenRequest_onresponse rq newid ;; OpenRequest_destroy r None) w1
        /\ forall c ch sock rq1,
             rq_chan rq = Some c -> opening_channel w1 c ch conn sock ->
             w_requests w1 !! r = Some rq1 -> rq_conn rq1 = conn ->
             exists w' ch' sock',
               respond w = (Ok tt, w')
               /\ write_ready w' c ch' conn sock'
               /\ ch_id ch' = Some newid
               /\ ch_events ch'
                  = ch_events ch ++ EvConnect ::
                      (if match default [] (ch_writeQueue ch) with
                          | [] => false
                          | _ => sk_flushes sock
                          end
                       then [EvDrain] else [])
               /\ sk_written sock'
                  = sk_written sock
                    ++ map (fun p => Packet_toBuffer (Packet_set_id p (Some newid)))
                           (default [] (ch_writeQueue ch))
               /\ forall (H : Host) data' arg1 arg2 flag payload,
                    ch_writable ch = true ->
                    priority_flag H arg2 = Some flag -> 0 <= flag <= 3 ->
                    truthy data' = true ->
                    payload_of H data' (arg_encoding arg1) = Ok payload ->
                    Js.blen payload <= MAX_PAYLOAD_SIZE ->
                    exists w'' frame,
                      Channel_write H c data' arg1 arg2 w' = (Ok (sk_flushes sock), w'')
                      /\ written w'' conn = sk_written sock' ++ [frame]
                      /\ ch_at frame 0 = newid
                      /\ Js.slice frame 7 (Js.blen frame) = payload).
Proof.
  intros w w1 r rq data start end_ Hr Hq conn respond. split.
  - intros Hne.
    pose proof (processResponse_redirect_bad r rq data start end_ w w1 Hr Hq Hne)
      as Hrun.
    split; [exact Hrun|].
    unfold exec, respond. rewrite Hrun. apply Connection_destroy_dead.
  - intros He Hbytes newid.
    pose proof (redirect_content_be32 data start Hbytes) as Hdec.
    fold newid in Hdec.
    split.
    + unfold respond.
      rewrite (processResponse_redirect_ok r rq data start end_ w w1 Hr Hq He).
      now rewrite Hdec.
    + intros c ch sock rq1 Hchan Hopening Hr1 Hconn1.
      destruct (processResponse_redirect_opening r rq rq1 data start end_ w w1
                  c ch sock Hr Hq He Hchan Hopening Hr1 Hconn1)
        as (w' & ch' & sock' & Hrun & Hready & Hid & Hwr & Hev & Hwritten & Hfl).
      rewrite Hdec in Hid, Hwritten.
      exists w', ch', sock'.
      split; [exact Hrun|]. split; [exact Hready|]. split; [exact Hid|].
      split; [exact Hev|]. split; [exact Hwritten|].
      intros H data' arg1 arg2 flag payload Hw Hf Hrange Ht Hp Hlen.
      rewrite <- Hwr in Hw.
      destruct (Channel_write_ready H w' c ch' conn sock' data' arg1 arg2 flag
                  payload Hready Hw Hf Hrange Ht Hp Hlen)
        as (w'' & Hrun'' & Hready'').
      rewrite Hfl in Hrun''.
      eexists w'', _. split; [exact Hrun''|].
      split; [exact (written_ready _ _ _ _ _ Hready'')|].
      rewrite Hid. cbn [Packet_toBuffer id_num from_option].
      split.
      * unfold frame_toBuffer. apply ch_header.
        apply be32_range; [specialize (Hbytes 0); rewrite Z.add_0_r in Hbytes| | |];
          apply Hbytes; lia.
      * exact (frame_payload_slice 2 newid _ (Some payload)).
Qed.

(** ** Instances *)

Section Instances.

Import ExampleHost Scenario Example.



Lemma write_oversize_rejected_witness :
  (w_channels w_open !! chan = Some ch_open /\ ch_writable ch_open = true
   /\ MAX_PAYLOAD_SIZE < Js.blen oversize)
  /\ Channel_write host chan (VBuffer oversize) VUndefined VUndefined w_open
     = (Throw (Error "Cannot send data, max length reach."), w_open).
Proof.
  assert (Hc : w_channels w_open !! chan = Some ch_open) by (vm_compute; reflexivity).
  assert (Hlen : MAX_PAYLOAD_SIZE < Js.blen oversize) by (vm_compute; reflexivity).
  split; [auto|].
  destruct (write_oversize_rejected host chan ch_open (VBuffer oversize)
              VUndefined VUndefined oversize w_open Hc eq_refl eq_refl Hlen)
    as (e & Hrun & _ & Hsize).
  rewrite (Hsize 0 eq_refl ltac:(lia) eq_refl) in Hrun. exact Hrun.
Defined.

Lemma getBinMode_spec_witness :
  (mode_grammar "RW+emit" true true true
   /\ (forall r w e, ~ mode_grammar "rx" r w e)
   /\ w_channels w_fresh !! 0%nat = Some Channel_new)
  /\ getBinMode (VString "RW+emit") = Some 7
  /\ Channel_connect host 0%nat (VString "localhost:7010/2") (VString "rx") w_fresh
     = (Throw (Error "Invalid mode"), w_fresh).
Proof.
  assert (Hg : mode_grammar "RW+emit" true true true).
  { exists "R"%string, "W"%string, "+"%string, "emit"%string.
    split; [reflexivity|]. cbn.
    split; [now left|]. split; [now left|]. split; [now right|]. right. now left. }
  assert (Hno : forall r w e, ~ mode_grammar "rx" r w e).
  { intros r w e Hm. apply getBinMode_grammar in Hm. vm_compute in Hm. discriminate. }
  assert (Hc : w_channels w_fresh !! 0%nat = Some Channel_new)
    by (vm_compute; reflexivity).
  split; [auto|]. split.
  - exact (proj1 getBinMode_spec "RW+emit"%string true true true Hg).
  - refine (proj2 (proj2 (proj2 getBinMode_spec) "rx"%string Hno)
              host 0%nat Channel_new (VString "localhost:7010/2") _ _ w_fresh
              Hc eq_refl _).
    vm_compute. reflexivity.
Defined.

Lemma end_length_prefix_wraps_witness :
  (open_channel w_open chan ch_open conn sock_open
   /\ 65528 < Js.blen (utf8_encode long_message))
  /\ let buf := Packet_toBuffer
                  (SignalFrame (Some 1) SignalFlag.FLAG_END
                               (Some (utf8_encode long_message))) in
     packetlen_at buf 0 <> Js.blen buf.
Proof.
  assert (Ho : open_channel w_open chan ch_open conn sock_open).
  { unfold open_channel, write_ready.
    split; [|split; [reflexivity | split; [reflexivity | split; reflexivity]]].
    split; [vm_compute; reflexivity|].
    split; [reflexivity|]. split; [reflexivity|]. split; [reflexivity|].
    split; [|reflexivity].
    eexists. split; vm_compute; reflexivity. }
  assert (Hlen : 65528 < Js.blen (utf8_encode long_message))
    by (vm_compute; reflexivity).
  split; [auto|].
  exact (proj2 (proj2 (proj2
           (end_length_prefix_wraps w_open chan ch_open conn sock_open
              (Some long_message) Ho))) Hlen).
Defined.

Lemma redirect_response_witness :
  let w1 := exec (OpenRequest_processResponse_queue rq_sent_
                    OpenRequestFlag.FLAG_REDIRECT) w_sent in
  (w_requests w_sent !! req = Some rq_sent_
   /\ OpenRequest_processResponse_queue rq_sent_ OpenRequestFlag.FLAG_REDIRECT w_sent
      = (Ok tt, w1)
   /\ 3 - 0 <> 4)
  /\ is_dead conn
       (exec (OpenRequest_processResponse req OpenRequestFlag.FLAG_REDIRECT
                [0; 0; 5] 0 3) w_sent).
Proof.
  cbv zeta.
  assert (Hr : w_requests w_sent !! req = Some rq_sent_) by (vm_compute; reflexivity).
  assert (Hq : OpenRequest_processResponse_queue rq_sent_
                 OpenRequestFlag.FLAG_REDIRECT w_sent
               = (Ok tt, exec (OpenRequest_processResponse_queue rq_sent_
                                 OpenRequestFlag.FLAG_REDIRECT) w_sent))
    by (vm_compute; reflexivity).
  assert (Hne : 3 - 0 <> 4) by lia.
  split; [auto|].
  exact (proj2 (proj1 (redirect_response w_sent _ req rq_sent_ [0; 0; 5] 0 3 Hr Hq)
                  Hne)).
Defined.

End Instances.

(** * Further properties *)

(** ** The parser on streams of frames *)

Section StreamFacts.

Import Js JsFacts.

Local Abbreviation lrun :=
  (parser_run (fun _ : list Dispatched => true) (fun _ log => (Ok tt, log))
              (log_process 1) (log_process 2) (log_process 3)).

Lemma blen_app (a b : list Z) : blen (a ++ b) = blen a + blen b.
Proof. unfold blen. rewrite length_app. lia. Qed.

Lemma blen_nonneg (a : list Z) : 0 <= blen a.
Proof. unfold blen. lia. Qed.

Lemma rd_shift (pre l : list Z) i :
  0 <= i -> rd (pre ++ l) (blen pre + i) = rd l i.
Proof.
  intros Hi. unfold rd, blen.
  destruct (Z.of_nat (List.length pre) + i <? 0) eqn:E1; [apply Z.ltb_lt in E1; lia|].
  destruct (i <? 0) eqn:E2; [apply Z.ltb_lt in E2; lia|].
  rewrite app_nth2 by lia. f_equal. lia.
Qed.

Lemma rd_firstn (l : list Z) k i :
  0 <= i < k -> rd (firstn (Z.to_nat k) l) i = rd l i.
Proof.
  intros Hi. unfold rd. destruct (i <? 0); [reflexivity|].
  rewrite nth_firstn.
  destruct (Nat.ltb_spec (Z.to_nat i) (Z.to_nat k)); [reflexivity | lia].
Qed.

Lemma slice_shift (pre l : list Z) a b :
  0 <= a -> slice (pre ++ l) (blen pre + a) (blen pre + b) = slice l a b.
Proof.
  intros Ha. unfold slice, blen.
  replace (Z.of_nat (List.length pre) + b - (Z.of_nat (List.length pre) + a))
    with (b - a) by lia.
  replace (Z.to_nat (Z.of_nat (List.length pre) + a))
    with (List.length pre + Z.to_nat a)%nat by lia.
  rewrite skipn_app, skipn_all2 by lia.
  replace (List.length pre + Z.to_nat a - List.length pre)%nat with (Z.to_nat a) by lia.
  reflexivity.
Qed.

Lemma slice_app_l (a b : list Z) s e :
  0 <= s -> e <= blen a -> slice (a ++ b) s e = slice a s e.
Proof.
  intros Hs He. unfold slice, blen in *.
  rewrite skipn_app, firstn_app.
  rewrite length_skipn.
  replace (Z.to_nat (e - s) - (List.length a - Z.to_nat s))%nat with 0%nat by lia.
  cbn [firstn]. now rewrite app_nil_r.
Qed.

Lemma slice_to_end (l : list Z) s :
  0 <= s -> slice l s (blen l) = skipn (Z.to_nat s) l.
Proof.
  intros Hs. unfold slice, blen. apply firstn_all2. rewrite length_skipn. lia.
Qed.

Lemma rd_shift0 (pre l : list Z) : rd (pre ++ l) (blen pre) = rd l 0.
Proof. rewrite <- (Z.add_0_r (blen pre)). apply rd_shift. lia. Qed.

Lemma header_shift (pre l : list Z) :
  packetlen_at (pre ++ l) (blen pre) = packetlen_at l 0
  /\ ch_at (pre ++ l) (blen pre) = ch_at l 0
  /\ desc_at (pre ++ l) (blen pre) = desc_at l 0.
Proof.
  unfold packetlen_at, ch_at, desc_at.
  rewrite rd_shift0, !rd_shift by lia. repeat split.
Qed.

Lemma frame_bytes_blen d : blen (frame_bytes d) = 7 + blen (d_payload d).
Proof. unfold frame_bytes. now rewrite frame_toBuffer_blen. Qed.

(** The header fields of a well-formed frame at any place of a buffer. *)
Lemma frame_at pre d rest :
  frame_ok d ->
  let buffer := pre ++ frame_bytes d ++ rest in
  let offset := blen pre in
  packetlen_at buffer offset = blen (frame_bytes d)
  /\ ch_at buffer offset = d_ch d
  /\ op_of_desc (desc_at buffer offset) = d_op d
  /\ flag_of_desc (desc_at buffer offset) = d_flag d
  /\ slice buffer (offset + 7) (offset + blen (frame_bytes d)) = d_payload d.
Proof.
  intros (Hop & Hid & Hflag & Hlen) buffer offset.
  pose proof (blen_nonneg (d_payload d)) as Hnn.
  assert (Hpl : packetlen_at (frame_bytes d ++ rest) 0 = blen (frame_bytes d)).
  { rewrite frame_bytes_blen. unfold frame_bytes, frame_toBuffer.
    rewrite <- app_assoc, packetlen_header by (unfold frame_length; lia).
    unfold frame_length, MAX_PAYLOAD_SIZE in *. apply Z.mod_small. lia. }
  assert (Hch : ch_at (frame_bytes d ++ rest) 0 = d_ch d).
  { unfold frame_bytes, frame_toBuffer. rewrite <- app_assoc. now apply ch_header. }
  assert (Hdesc : desc_at (frame_bytes d ++ rest) 0
                  = store_byte (bor (shl (d_op d) 3) (d_flag d))) by reflexivity.
  destruct (desc_header (d_op d) (d_flag d) Hop Hflag) as [Eop Eflag].
  destruct (header_shift pre (frame_bytes d ++ rest)) as (E1 & E2 & E3).
  unfold buffer, offset. rewrite E1, E2, E3, Hpl, Hch, Hdesc.
  repeat split; try assumption.
  rewrite slice_shift by lia. rewrite slice_app_l by lia.
  exact (frame_payload_slice (d_op d) (d_ch d) (d_flag d) (Some (d_payload d))).
Qed.

(** Complete frames in a buffer are dispatched one after the other. *)
Lemma lrun_stream ds : forall pre log,
  Forall frame_ok ds ->
  let buffer := pre ++ stream ds in
  lrun buffer (blen pre) (blen buffer) log
  = (Ok tt, mkParser None (blen buffer) (blen buffer), log ++ ds).
Proof.
  induction ds as [|d ds IH]; intros pre log Hok buffer.
  - unfold buffer, stream. cbn [map concat]. rewrite !app_nil_r.
    unfold parser_run. rewrite parse_loop_done by lia.
    now rewrite Z.sub_diag.
  - inversion Hok as [|? ? Hd Hds]; subst.
    unfold buffer, stream. cbn [map concat]. fold (stream ds).
    destruct (frame_at pre d (stream ds) Hd) as (Hpl & Hch & Hop & Hflag & Hsl).
    pose proof (frame_bytes_blen d) as HL.
    pose proof (blen_nonneg (d_payload d)) as Hnn.
    pose proof (blen_nonneg (stream ds)) as Hnn2.
    assert (Hlen : blen (pre ++ frame_bytes d ++ stream ds)
                   = blen pre + blen (frame_bytes d) + blen (stream ds))
      by (rewrite !blen_app; lia).
    rewrite parser_run_step;
      [| reflexivity | rewrite Hlen; lia | rewrite Hpl; lia | rewrite Hpl, Hlen; lia].
    rewrite Hpl, Hch, Hop, Hflag.
    destruct Hd as (Hdop & _).
    assert (Eo : d_op d = 1 \/ d_op d = 2 \/ d_op d = 3) by lia.
    assert (Hdisp : dispatch (log_process 1) (log_process 2) (log_process 3)
                      (d_op d) (d_ch d) (d_flag d)
                      (pre ++ frame_bytes d ++ stream ds)
                      (blen pre + 7) (blen pre + blen (frame_bytes d)) log
                    = (Ok tt, log ++ [d])).
    { unfold dispatch, log_process. rewrite Hsl.
      destruct d as [op ch flag payload]. cbn in Eo |- *.
      destruct Eo as [-> | [-> | ->]]; reflexivity. }
    rewrite Hdisp.
    specialize (IH (pre ++ frame_bytes d) (log ++ [d]) Hds).
    cbv zeta in IH. rewrite <- !app_assoc in IH.
    rewrite (blen_app pre (frame_bytes d)) in IH.
    cbn [app] in IH. exact IH.
Qed.

(** The loop stops without a dispatch while the next frame is incomplete. *)
Lemma lrun_break buffer offset length log :
  offset < length ->
  length < offset + 2
  \/ (7 <= packetlen_at buffer offset /\ length < offset + packetlen_at buffer offset) ->
  lrun buffer offset length log = (Ok tt, mkParser (Some buffer) offset length, log).
Proof.
  intros Hlt Hcase. unfold parser_run.
  destruct (Z.to_nat (length - offset)) as [|fuel] eqn:Ef; [lia|].
  cbn [parse_loop].
  assert (E1 : (offset <? length) = true) by (apply Z.ltb_lt; lia).
  assert (E5 : (length - offset =? 0) = false) by (apply Z.eqb_neq; lia).
  rewrite E1. cbn [andb].
  destruct Hcase as [Hshort | [H7 Hshort]].
  - assert (E2 : (length <? offset + 2) = true) by (apply Z.ltb_lt; lia).
    rewrite E2, E5. reflexivity.
  - destruct (length <? offset + 2) eqn:E2; [now rewrite E5|].
    assert (E3 : (packetlen_at buffer offset <? 7) = false) by (apply Z.ltb_ge; lia).
    assert (E4 : (length <? offset + packetlen_at buffer offset) = true)
      by (apply Z.ltb_lt; lia).
    rewrite E3, E4, E5. reflexivity.
Qed.

Lemma firstn_app_le {A : Type} (n : nat) (a b : list A) :
  (n <= List.length a)%nat -> firstn n (a ++ b) = firstn n a.
Proof.
  intros Hn. rewrite firstn_app.
  replace (n - List.length a)%nat with 0%nat by lia.
  cbn [firstn]. apply app_nil_r.
Qed.

Lemma skipn_app_le {A : Type} (n : nat) (a b : list A) :
  (n <= List.length a)%nat -> skipn n (a ++ b) = skipn n a ++ b.
Proof.
  intros Hn. rewrite skipn_app.
  replace (n - List.length a)%nat with 0%nat by lia. reflexivity.
Qed.

Lemma firstn_app_ge {A : Type} (n : nat) (a b : list A) :
  (List.length a <= n)%nat -> firstn n (a ++ b) = a ++ firstn (n - List.length a) b.
Proof. intros Hn. rewrite firstn_app, firstn_all2 by lia. reflexivity. Qed.

Lemma skipn_app_ge {A : Type} (n : nat) (a b : list A) :
  (List.length a <= n)%nat -> skipn n (a ++ b) = skipn (n - List.length a) b.
Proof. intros Hn. rewrite skipn_app, skipn_all2 by lia. reflexivity. Qed.

(** A buffer that ends anywhere in a stream of frames: the complete
    frames are dispatched in order, the bytes of the cut frame stay. *)
Lemma lrun_prefix ds : forall pre log k,
  Forall frame_ok ds -> 0 <= k <= blen (stream ds) ->
  let buffer := pre ++ firstn (Z.to_nat k) (stream ds) in
  exists n off,
    lrun buffer (blen pre) (blen buffer) log
    = (Ok tt,
       mkParser (if blen buffer - off =? 0 then None else Some buffer)
                off (blen buffer),
       log ++ firstn n ds)
    /\ blen pre <= off <= blen buffer
    /\ slice buffer off (blen buffer) ++ skipn (Z.to_nat k) (stream ds)
       = stream (skipn n ds)
    /\ (forall d rest, skipn n ds = d :: rest ->
        blen buffer - off < blen (frame_bytes d)).
Proof.
  induction ds as [|d ds IH]; intros pre log k Hok Hk buffer.
  - unfold stream in *. cbn [map concat] in *. unfold blen in Hk. cbn in Hk.
    assert (k = 0) by lia. subst k.
    exists 0%nat, (blen pre). unfold buffer. cbn [firstn Z.to_nat].
    rewrite !app_nil_r, Z.sub_diag.
    split; [|split; [lia | split]].
    + unfold parser_run. rewrite parse_loop_done by lia.
      now rewrite Z.sub_diag.
    + unfold slice. rewrite Z.sub_diag. reflexivity.
    + intros d rest [=].
  - inversion Hok as [|? ? Hd Hds]; subst.
    pose proof (frame_bytes_blen d) as HL.
    pose proof (blen_nonneg (d_payload d)) as Hnn.
    unfold stream in Hk |- *. cbn [map concat] in Hk |- *. fold (stream ds) in Hk |- *.
    rewrite blen_app in Hk.
    unfold buffer. unfold stream. cbn [map concat]. fold (stream ds).
    destruct (Z_le_gt_dec (blen (frame_bytes d)) k) as [Hge | Hlt].
    + (* the frame is complete *)
      assert (Hf : firstn (Z.to_nat k) (frame_bytes d ++ stream ds)
                   = frame_bytes d
                     ++ firstn (Z.to_nat (k - blen (frame_bytes d))) (stream ds)).
      { rewrite firstn_app_ge by (unfold blen in Hge; lia).
        do 2 f_equal. unfold blen. lia. }
      assert (Hs : skipn (Z.to_nat k) (frame_bytes d ++ stream ds)
                   = skipn (Z.to_nat (k - blen (frame_bytes d))) (stream ds)).
      { rewrite skipn_app_ge by (unfold blen in Hge; lia).
        f_equal. unfold blen. lia. }
      rewrite Hf, Hs.
      set (tail := firstn (Z.to_nat (k - blen (frame_bytes d))) (stream ds)).
      destruct (frame_at pre d tail Hd) as (Hpl & Hch & Hop & Hflag & Hsl).
      pose proof (blen_nonneg tail) as Hnt.
      assert (Hlen : blen (pre ++ frame_bytes d ++ tail)
                     = blen pre + blen (frame_bytes d) + blen tail)
        by (rewrite !blen_app; lia).
      rewrite parser_run_step;
        [| reflexivity | rewrite Hlen; lia | rewrite Hpl; lia | rewrite Hpl, Hlen; lia].
      rewrite Hpl, Hch, Hop, Hflag.
      assert (Hdisp : dispatch (log_process 1) (log_process 2) (log_process 3)
                        (d_op d) (d_ch d) (d_flag d) (pre ++ frame_bytes d ++ tail)
                        (blen pre + 7) (blen pre + blen (frame_bytes d)) log
                      = (Ok tt, log ++ [d])).
      { unfold dispatch, log_process. rewrite Hsl.
        destruct Hd as (Hdop & _).
        assert (Eo : d_op d = 1 \/ d_op d = 2 \/ d_op d = 3) by lia.
        destruct d as [op ch flag payload]. cbn in Eo |- *.
        destruct Eo as [-> | [-> | ->]]; reflexivity. }
      rewrite Hdisp.
      destruct (IH (pre ++ frame_bytes d) (log ++ [d]) (k - blen (frame_bytes d)) Hds
                  ltac:(lia)) as (n & off & Hrun & Hoff & Hrest & Hnext).
      cbv zeta in Hrun, Hoff, Hrest, Hnext. fold tail in Hrun, Hoff, Hrest, Hnext.
      rewrite <- !app_assoc in Hrun, Hoff, Hrest, Hnext.
      rewrite (blen_app pre (frame_bytes d)) in Hrun, Hoff.
      exists (Datatypes.S n), off. cbn [firstn skipn].
      rewrite <- app_assoc in Hrun. cbn [app] in Hrun.
      split; [exact Hrun|]. split; [lia|]. split; [exact Hrest | exact Hnext].
    + (* the frame is cut *)
      assert (Hf : firstn (Z.to_nat k) (frame_bytes d ++ stream ds)
                   = firstn (Z.to_nat k) (frame_bytes d)).
      { apply firstn_app_le. unfold blen in Hlt. lia. }
      assert (Hs : skipn (Z.to_nat k) (frame_bytes d ++ stream ds)
                   = skipn (Z.to_nat k) (frame_bytes d) ++ stream ds).
      { apply skipn_app_le. unfold blen in Hlt. lia. }
      rewrite Hf, Hs.
      set (part := firstn (Z.to_nat k) (frame_bytes d)).
      assert (Hpart : blen part = k).
      { unfold part, blen. rewrite length_firstn. unfold blen in Hlt. lia. }
      assert (Hlen : blen (pre ++ part) = blen pre + k) by (rewrite blen_app; lia).
      exists 0%nat, (blen pre). cbn [firstn skipn]. rewrite app_nil_r.
      split; [|split; [lia | split]].
      * destruct (Z.eq_dec k 0) as [-> | Hk0].
        -- rewrite Hlen, Z.add_0_r, Z.sub_diag. cbn [Z.eqb].
           unfold parser_run. rewrite parse_loop_done by lia.
           now rewrite Z.sub_diag.
        -- assert (E : (blen (pre ++ part) - blen pre =? 0) = false)
             by (apply Z.eqb_neq; lia).
           rewrite E. apply lrun_break; [lia|].
           destruct (Z.eq_dec k 1) as [-> | Hk1]; [left; lia | right].
           destruct (header_shift pre part) as (E1 & _). rewrite E1.
           assert (Hp : packetlen_at part 0 = blen (frame_bytes d)).
           { destruct (frame_at [] d [] Hd) as (Hpl & _).
             cbn [app] in Hpl. rewrite app_nil_r in Hpl.
             change (blen []) with 0 in Hpl. rewrite <- Hpl.
             unfold packetlen_at, part. change (0 + 1) with 1.
             rewrite !rd_firstn by lia. reflexivity. }
           rewrite Hp. lia.
      * rewrite Hlen. rewrite <- (Z.add_0_r (blen pre)) at 1.
        rewrite slice_shift by lia.
        unfold slice. change (Z.to_nat 0) with 0%nat.
        change (skipn 0 part) with part. rewrite Z.sub_0_r.
        rewrite firstn_all2 by (unfold blen in Hpart; lia).
        unfold part, stream. cbn [map concat].
        now rewrite app_assoc, firstn_skipn.
      * intros d' rest [= <- <-]. lia.
Qed.

Lemma slice_whole (l : list Z) : slice l 0 (blen l) = l.
Proof. rewrite slice_to_end by lia. reflexivity. Qed.

Lemma slice_blen (l : list Z) a b :
  0 <= a <= b -> b <= blen l -> blen (slice l a b) = b - a.
Proof.
  intros Ha Hb. unfold slice, blen in *.
  rewrite length_firstn, length_skipn. lia.
Qed.

(** What [ondata] works on is the unread rest followed by the chunk. *)
Lemma parse_log_from_residual ps chunk log :
  parse_log_from ps chunk log
  = lrun (residual ps ++ chunk) 0 (blen (residual ps ++ chunk)) log.
Proof.
  unfold parse_log_from, ondata, parser_input, residual.
  rewrite slice_whole. destruct (ps_buffer ps); reflexivity.
Qed.

Lemma parse_chunks_inv chunks : forall ps log rem,
  Forall frame_ok rem ->
  residual ps ++ concat chunks = stream rem ->
  (forall d rest, rem = d :: rest -> blen (residual ps) < blen (frame_bytes d)) ->
  exists ps',
    parse_chunks ps chunks log = (Ok tt, ps', log ++ rem) /\ residual ps' = [].
Proof.
  induction chunks as [|c cs IH]; intros ps log rem Hok Hbytes Hcut.
  - cbn [concat] in Hbytes. rewrite app_nil_r in Hbytes.
    destruct rem as [|d rest].
    + exists ps. cbn [parse_chunks]. rewrite app_nil_r. split; [reflexivity|].
      exact Hbytes.
    + exfalso. specialize (Hcut d rest eq_refl). rewrite Hbytes in Hcut.
      unfold stream in Hcut. cbn [map concat] in Hcut. rewrite blen_app in Hcut.
      pose proof (blen_nonneg (concat (map frame_bytes rest))). lia.
  - cbn [parse_chunks concat] in *. rewrite parse_log_from_residual.
    set (buf := residual ps ++ c) in *.
    assert (Hk : 0 <= blen buf <= blen (stream rem)).
    { rewrite <- Hbytes, app_assoc. fold buf. rewrite blen_app.
      pose proof (blen_nonneg buf). pose proof (blen_nonneg (concat cs)). lia. }
    assert (Hpre : firstn (Z.to_nat (blen buf)) (stream rem) = buf).
    { rewrite <- Hbytes, app_assoc. fold buf.
      rewrite firstn_app_le by (unfold blen; lia).
      apply firstn_all2. unfold blen. lia. }
    assert (Hpost : skipn (Z.to_nat (blen buf)) (stream rem) = concat cs).
    { rewrite <- Hbytes, app_assoc. fold buf.
      rewrite skipn_app_ge by (unfold blen; lia).
      replace (Z.to_nat (blen buf) - List.length buf)%nat with 0%nat
        by (unfold blen; lia).
      reflexivity. }
    destruct (lrun_prefix rem [] log (blen buf) Hok Hk)
      as (n & off & Hrun & Hoff & Hrest & Hnext).
    cbv zeta in Hrun, Hoff, Hrest, Hnext. cbn [app] in Hrun, Hoff, Hrest, Hnext.
    rewrite Hpre in Hrun, Hoff, Hrest, Hnext. rewrite Hpost in Hrest.
    change (blen []) with 0 in Hrun, Hoff.
    rewrite Hrun.
    set (ps1 := mkParser _ off (blen buf)).
    assert (Hres : residual ps1 = slice buf off (blen buf)).
    { unfold ps1, residual. cbn.
      destruct (blen buf - off =? 0) eqn:E; [|reflexivity].
      apply Z.eqb_eq in E. unfold slice.
      replace (Z.to_nat (blen buf - off)) with 0%nat by lia. reflexivity. }
    destruct (IH ps1 (log ++ firstn n rem) (skipn n rem)) as (ps' & Hrun' & Hres').
    + apply Forall_drop. exact Hok.
    + rewrite Hres. exact Hrest.
    + intros d rest Hd. rewrite Hres, slice_blen by lia. eapply Hnext. exact Hd.
    + exists ps'. rewrite Hrun'. rewrite <- app_assoc, firstn_skipn.
      split; [reflexivity | exact Hres'].
Qed.

End StreamFacts.

(** X1.  However the byte stream of well-formed frames is cut into
    chunks, feeding the chunks to [ondata] one after the other dispatches
    the frames in order, each once with its id, op, flag and payload, and
    leaves no unread bytes. *)
Theorem parse_chunks_stream (ds : list Dispatched) (chunks : list (list Z)) :
  Forall frame_ok ds -> concat chunks = stream ds ->
  exists ps,
    parse_chunks parser_init chunks [] = (Ok tt, ps, ds) /\ residual ps = [].
Proof.
  intros Hok Hbytes.
  destruct (parse_chunks_inv chunks parser_init [] ds Hok) as (ps & Hrun & Hres).
  - exact Hbytes.
  - intros d rest ->. rewrite frame_bytes_blen.
    change (Js.blen (residual parser_init)) with 0.
    pose proof (blen_nonneg (d_payload d)). lia.
  - exists ps. split; assumption.
Qed.


(** ** Frames: what the bookkeeping of connections and requests leaves alone *)

Ltac frame_step prim :=
  first
    [ apply preserves_ret | apply preserves_throw
    | apply preserves_get_world | apply preserves_get_chan
    | apply preserves_get_conn | apply preserves_get_req
    | prim
    | (apply preserves_bind; [|intros ?])
    | (apply preserves_try_catch; [|intros ?])
    | (apply preserves_for_each; intros ?)
    | match goal with
      | |- preserves _ (if ?b then _ else _) => destruct b
      | |- preserves _ (match ?x with _ => _ end) => destruct x
      | |- preserves _ (let _ := _ in _) => cbv zeta
      end ].

Tactic Notation "frames" tactic3(prim) "using" tactic3(known) :=
  repeat first [known | frame_step prim].

Section ChannelFrame.

(** A property of the channels alone. *)
Variable P : World -> Prop.
Hypothesis P_channels : forall w w', w_channels w' = w_channels w -> P w -> P w'.

Lemma keep_modify (f : World -> World) :
  (forall w, w_channels (f w) = w_channels w) -> preserves P (modify f).
Proof. intros Hf w Hw. cbn. eapply P_channels; [apply Hf | exact Hw]. Qed.

Lemma keep_upd_conn c f : preserves P (upd_conn c f).
Proof. apply keep_modify. reflexivity. Qed.

Lemma keep_upd_req r f : preserves P (upd_req r f).
Proof. apply keep_modify. reflexivity. Qed.

Lemma keep_nextTick t : preserves P (nextTick t).
Proof. apply keep_modify. reflexivity. Qed.

Ltac keep_prim :=
  first [ apply keep_upd_conn | apply keep_upd_req | apply keep_nextTick
        | (apply keep_modify; intros ?; reflexivity) ].

Lemma keep_setDisposed c state : preserves P (Connection_setDisposed c state).
Proof. unfold Connection_setDisposed. frames keep_prim using fail. Qed.

Lemma keep_dispose_if_unused c : preserves P (dispose_if_unused c).
Proof.
  unfold dispose_if_unused. frames keep_prim using (apply keep_setDisposed).
Qed.

Lemma keep_Connection_write c buf : preserves P (Connection_write c buf).
Proof. unfold Connection_write. frames keep_prim using fail. Qed.

(** Without an error, destroying a request closes no channel. *)
Lemma keep_OpenRequest_destroy r : preserves P (OpenRequest_destroy r None).
Proof.
  unfold OpenRequest_destroy.
  frames keep_prim using (apply keep_dispose_if_unused).
Qed.

Lemma keep_OpenRequest_cancel r : preserves P (OpenRequest_cancel r).
Proof.
  unfold OpenRequest_cancel.
  frames keep_prim using (apply keep_OpenRequest_destroy).
Qed.

Lemma keep_OpenRequest_send r : preserves P (OpenRequest_send r).
Proof. unfold OpenRequest_send. frames keep_prim using fail. Qed.

End ChannelFrame.

(** ** The mutual recursion of [destroy] and [_writeOut] *)

Lemma OpenRequest_cancel_false r w w' :
  OpenRequest_cancel r w = (Ok false, w') -> w' = w.
Proof.
  unfold OpenRequest_cancel, bind, get_req, get_conn.
  destruct (w_requests w !! r) as [rq|]; [|discriminate].
  destruct (w_connections w !! rq_conn rq) as [cn|]; [|discriminate].
  destruct (rq_sent rq).
  - intros [= <-]. reflexivity.
  - match goal with |- context [match ?m w with _ => _ end] =>
      destruct (m w) as [[[]|e] w1] end; [|discriminate].
    destruct (OpenRequest_destroy r None w1) as [[[]|e] w2]; discriminate.
Qed.

Lemma Channel_destroy_closing d c err w ch :
  w_channels w !! c = Some ch -> ch_closing ch = true ->
  Channel_destroy_n (Datatypes.S d) c err w = (Ok tt, w).
Proof.
  intros Hc Hcl. cbn [Channel_destroy_n].
  unfold Channel_destroy_body, bind, get_chan. rewrite Hc, Hcl.
  rewrite orb_true_r. reflexivity.
Qed.

Lemma Channel_destroy_body_ext
  (f g : chanRef -> option JsError -> M unit) c err w :
  (forall e w' ch, w_channels w' !! c = Some ch -> ch_closing ch = true ->
                   f c e w' = g c e w') ->
  Channel_destroy_body f c err w = Channel_destroy_body g c err w.
Proof.
  intros Hfg. unfold Channel_destroy_body, bind.
  destruct (get_chan c w) as [[ch|e] w0]; [|reflexivity].
  destruct (ch_destroyed ch || ch_closing ch || negb (id_truthy (ch_id ch)));
    [reflexivity|].
  match goal with |- context [match ?m w0 with _ => _ end] =>
    destruct (m w0) as [[[]|e] w1] end; [|reflexivity].
  unfold upd_chan at 1 4, modify.
  set (w2 := set_w_channels _ w1).
  unfold get_chan at 1 3.
  destruct (w_channels w2 !! c) as [ch1|] eqn:E1; [|reflexivity].
  assert (Hcl : ch_closing ch1 = true).
  { subst w2. cbn in E1. rewrite lookup_alter_eq in E1.
    destruct (w_channels w1 !! c); [|discriminate].
    injection E1 as <-. reflexivity. }
  assert (Hout : forall sig,
    try_catch (Channel_writeOut_with f c sig;; ret tt) (fun _ => ret tt) w2
    = try_catch (Channel_writeOut_with g c sig;; ret tt) (fun _ => ret tt) w2).
  { intros sig. unfold try_catch, Channel_writeOut_with, bind, get_chan.
    rewrite E1. destruct (ch_writeQueue ch1); [reflexivity|].
    destruct (ch_connecting ch1); [reflexivity|].
    destruct (ch_connection ch1); [reflexivity|].
    rewrite (Hfg _ _ _ E1 Hcl). reflexivity. }
  assert (Htail : forall w3, w3 = w2 ->
    match get_chan c w3 with
    | (Ok ch2, w') =>
        match ch_request ch2 with
        | Some _ => upd_chan c (set_ch_endsig (Some
            match ch_endsig ch2 with
            | Some s => s
            | None => SignalFrame (ch_id ch2) SignalFlag.FLAG_END None
            end))
        | None => try_catch (Channel_writeOut_with f c
            match ch_endsig ch2 with
            | Some s => s
            | None => SignalFrame (ch_id ch2) SignalFlag.FLAG_END None
            end;; ret tt) (fun _ => ret tt)
        end w'
    | (Throw e, w') => (Throw e, w')
    end =
    match get_chan c w3 with
    | (Ok ch2, w') =>
        match ch_request ch2 with
        | Some _ => upd_chan c (set_ch_endsig (Some
            match ch_endsig ch2 with
            | Some s => s
            | None => SignalFrame (ch_id ch2) SignalFlag.FLAG_END None
            end))
        | None => try_catch (Channel_writeOut_with g c
            match ch_endsig ch2 with
            | Some s => s
            | None => SignalFrame (ch_id ch2) SignalFlag.FLAG_END None
            end;; ret tt) (fun _ => ret tt)
        end w'
    | (Throw e, w') => (Throw e, w')
    end).
  { intros w3 ->. unfold get_chan. rewrite E1.
    destruct (ch_request ch1); [reflexivity|]. apply Hout. }
  destruct (ch_request ch1) as [r|], (ch_endsig ch1) as [s|];
    try (unfold ret at 1 3; cbv beta iota; apply Htail; reflexivity).
  destruct (OpenRequest_cancel r w2) as [[[|]|e] w3] eqn:Ec; [reflexivity| |reflexivity].
  apply OpenRequest_cancel_false in Ec. cbv beta iota. apply Htail. exact Ec.
Qed.

(** X2.  [destroy] and [_writeOut] call each other, yet the nesting stops
    after one level: the call that [_writeOut] makes finds [_closing] set
    and returns at once.  Entering [destroy] with any larger bound on the
    nesting gives the result of [Channel_destroy], in every store. *)
Theorem Channel_destroy_depth (d : nat) (c : chanRef) (err : option JsError)
  (w : World) :
  Channel_destroy_n (Datatypes.S (Datatypes.S d)) c err w = Channel_destroy c err w.
Proof.
  unfold Channel_destroy.
  change (Channel_destroy_body (Channel_destroy_n (Datatypes.S d)) c err w
          = Channel_destroy_body (Channel_destroy_n 1) c err w).
  apply Channel_destroy_body_ext. intros e w' ch Hc Hcl.
  rewrite (Channel_destroy_closing d c e w' ch Hc Hcl).
  rewrite (Channel_destroy_closing 0 c e w' ch Hc Hcl). reflexivity.
Qed.

(** ** Closing a channel *)

Ltac keep_prim HP :=
  first [ apply (keep_upd_conn _ HP) | apply (keep_upd_req _ HP)
        | apply (keep_nextTick _ HP)
        | (apply (keep_modify _ HP); intros ?; reflexivity) ].

Lemma alter_lookup_insert {A : Type} (m : gmap nat A) (i : nat) (f : A -> A) (x : A) :
  m !! i = Some x -> alter f i m = <[i := f x]> m.
Proof.
  intros Hm. rewrite <- (insert_id m i x Hm) at 1. apply alter_insert_eq.
Qed.






(** ** Writing before the channel is open *)

Lemma data_flag_value flag (text : bool) :
  0 <= flag <= 3 ->
  Js.bor (Js.shl flag 1) (if text then 1 else 0) = 2 * flag + (if text then 1 else 0).
Proof.
  intros Hf.
  assert (Hc : flag = 0 \/ flag = 1 \/ flag = 2 \/ flag = 3) by lia.
  destruct Hc as [->|[->|[->| ->]]]; destruct text; reflexivity.
Qed.

Lemma Channel_writeOut_queued destroy c ch packet w :
  w_channels w !! c = Some ch ->
  ch_connecting ch = true \/ is_Some (ch_writeQueue ch) ->
  Channel_writeOut_with destroy c packet w
  = (Ok false,
     set_w_channels
       (<[c := set_ch_writeQueue
                 (Some (default [] (ch_writeQueue ch) ++ [packet])) ch]>
          (w_channels w)) w).
Proof.
  intros Hc Hq. unfold Channel_writeOut_with, bind, get_chan. rewrite Hc.
  destruct (ch_writeQueue ch) as [q|] eqn:Eq.
  - unfold upd_chan, modify, ret.
    rewrite (alter_lookup_insert _ _ _ _ Hc). reflexivity.
  - destruct Hq as [Hq|[q Hq]]; [|discriminate]. rewrite Hq.
    unfold upd_chan, modify, ret.
    rewrite (alter_lookup_insert _ _ _ _ Hc). reflexivity.
Qed.

(** X4.  A [write] on a channel that is still connecting, or that has
    packets waiting, sends nothing: it returns [false] and appends one
    DATA frame to the channel's queue, after the packets already there;
    the frame carries the payload and the flag [2 * (priority - 1)], plus
    1 when the data is not a Buffer.  Nothing else in the store changes,
    so no socket sees a byte. *)
Theorem write_while_connecting (H : Host) (c : chanRef) (ch : Channel)
  (data arg1 arg2 : JsVal) (flag : Z) (payload : list Z) (w : World) :
  w_channels w !! c = Some ch -> ch_writable ch = true ->
  ch_connecting ch = true \/ is_Some (ch_writeQueue ch) ->
  priority_flag H arg2 = Some flag -> 0 <= flag <= 3 ->
  truthy data = true ->
  payload_of H data (arg_encoding arg1) = Ok payload ->
  Js.blen payload <= MAX_PAYLOAD_SIZE ->
  let frame := DataFrame (ch_id ch)
                 (2 * flag + match data with VBuffer _ => 0 | _ => 1 end)
                 (Some payload) in
  Channel_write H c data arg1 arg2 w
  = (Ok false,
     set_w_channels
       (<[c := set_ch_writeQueue
                 (Some (default [] (ch_writeQueue ch) ++ [frame])) ch]>
          (w_channels w)) w).
Proof.
  intros Hc Hw Hq Hf Hr Ht Hp Hlen frame.
  unfold Channel_write. unfold bind at 1. unfold get_chan. rewrite Hc.
  rewrite Hw, Hf, Ht, Hp. cbn [negb].
  assert (E1 : ((flag <? 0) || (3 <? flag)) = false).
  { apply orb_false_iff. split; apply Z.ltb_ge; lia. }
  assert (E2 : (MAX_PAYLOAD_SIZE <? Js.blen payload) = false)
    by (apply Z.ltb_ge; exact Hlen).
  rewrite E1, E2. unfold try_catch, Channel_writeOut.
  rewrite (Channel_writeOut_queued _ c ch _ w Hc Hq).
  assert (Ef : Js.bor (Js.shl flag 1) match data with VBuffer _ => 0 | _ => 1 end
               = 2 * flag + match data with VBuffer _ => 0 | _ => 1 end).
  { pose proof (data_flag_value flag true Hr) as Ht1.
    pose proof (data_flag_value flag false Hr) as Ht0.
    destruct data; assumption. }
  rewrite Ef. reflexivity.
Qed.

(** ** One frame from the socket to a channel *)

Lemma Connection_ondata_one (H : Host) conn cn sock op id flag data w w1 :
  w_connections w !! conn = Some cn -> cn_sock cn = Some sock ->
  ps_buffer (cn_parser cn) = None -> str_truthy (cn_id cn) = true ->
  1 <= op <= 3 -> 0 <= id < Js.two32 -> 0 <= flag <= 7 ->
  frame_length data <= 7 + MAX_PAYLOAD_SIZE ->
  let buf := frame_toBuffer op id flag data in
  dispatch (Connection_processOpen conn) (Connection_processData H conn)
           (Connection_processSignal conn) op id flag buf 7 (Js.blen buf) w
  = (Ok tt, w1) ->
  Connection_ondata H conn buf 0 (Js.blen buf) w
  = (Ok tt,
     set_w_connections
       (alter (set_cn_parser (mkParser None (Js.blen buf) (Js.blen buf))) conn
              (w_connections w1)) w1).
Proof.
  intros Hcn Hs Hp Hlive Hop Hid Hflag Hlen buf Hd.
  subst buf. unfold Connection_ondata, bind, get_conn. rewrite Hcn, Hs.
  match goal with
  | |- context [ondata ?a ?b ?c ?d ?e (cn_parser cn) ?B ?s ?L ?w0] =>
    replace (ondata a b c d e (cn_parser cn) B s L w0)
      with (ondata a b c d e parser_init B s L w0)
      by (unfold ondata, parser_input; rewrite Hp; reflexivity)
  end.
  assert (Hl : conn_live conn w = true) by (unfold conn_live; rewrite Hcn; exact Hlive).
  rewrite (ondata_frame (conn_live conn)
             (fun e => Connection_destroy conn (Some e) None)
             (Connection_processOpen conn) (Connection_processData H conn)
             (Connection_processSignal conn) w op id flag data Hl Hop Hid Hflag Hlen).
  rewrite Hd. reflexivity.
Qed.

Lemma data_flag_decode flag (text : bool) :
  0 <= flag <= 3 ->
  let f := 2 * flag + (if text then 1 else 0) in
  0 <= f <= 7 /\ Js.shr f 1 = flag /\ (Js.band f 1 =? 0) = negb text.
Proof.
  intros Hf.
  assert (Hc : flag = 0 \/ flag = 1 \/ flag = 2 \/ flag = 3) by lia.
  destruct Hc as [->|[->|[->| ->]]]; destruct text; cbv zeta;
    (split; [lia|]); split; reflexivity.
Qed.

(** X5.  What [write] puts in a DATA frame is what the receiving channel
    gets.  The frame for channel [id] with flag [2 * (priority - 1)], plus
    1 for text, arriving whole on a live connection that holds no unread
    bytes, is delivered to the channel registered under [id], when it is
    readable, listens to data and has no encoding set: it emits one data event with the payload
    bytes as a Buffer (or, for text, as the string the host decodes them
    to) and with the sender's priority.  No other channel changes and
    the parser keeps no residue. *)
Theorem data_frame_delivered (H : Host) (conn : connRef) (cn : Connection)
  (sock : Socket) (c : chanRef) (ch : Channel) (id flag : Z) (text : bool)
  (payload : list Z) (w : World) :
  w_connections w !! conn = Some cn -> cn_sock cn = Some sock ->
  ps_buffer (cn_parser cn) = None -> str_truthy (cn_id cn) = true ->
  cn_channels cn !! id = Some c -> 0 < id < Js.two32 ->
  w_channels w !! c = Some ch -> ch_readable ch = true ->
  has_listener ch "data" = true -> ch_encoding ch = None ->
  0 <= flag <= 3 -> Js.blen payload <= MAX_PAYLOAD_SIZE ->
  let frame := Packet_toBuffer
                 (DataFrame (Some id) (2 * flag + (if text then 1 else 0))
                            (Some payload)) in
  let message := if text then VString (Buffer_toString H payload None)
                 else VBuffer payload in
  exists w',
    Connection_ondata H conn frame 0 (Js.blen frame) w = (Ok tt, w')
    /\ w_channels w'
       = <[c := set_ch_events (ch_events ch ++ [EvData message (flag + 1)]) ch]>
           (w_channels w)
    /\ (cn_parser <$> w_connections w' !! conn)
       = Some (mkParser None (Js.blen frame) (Js.blen frame)).
Proof.
  intros Hcn Hs Hp Hlive Hreg Hid Hc Hrd Hls Henc Hf Hlen frame message.
  destruct (data_flag_decode flag text Hf) as (Hf7 & Hshr & Hband).
  cbv zeta in Hf7, Hshr, Hband.
  set (f := 2 * flag + (if text then 1 else 0)) in *.
  assert (Hd : dispatch (Connection_processOpen conn) (Connection_processData H conn)
             (Connection_processSignal conn) 2 id f frame 7 (Js.blen frame) w
           = (Ok tt,
              set_w_channels
                (<[c := set_ch_events (ch_events ch ++ [EvData message (flag + 1)]) ch]>
                   (w_channels w)) w)).
  { unfold dispatch. cbn [Z.eqb Pos.eqb].
    unfold Connection_processData, bind, get_conn. rewrite Hcn.
    assert (E0 : (id =? ALL_CHANNELS) = false)
      by (apply Z.eqb_neq; unfold ALL_CHANNELS; lia).
    rewrite E0, Hreg. unfold get_chan at 1. rewrite Hc, Hrd.
    unfold Channel_ondata, bind. unfold get_chan. rewrite Hc, Henc.
    cbn [str_truthy orb]. rewrite Hband, negb_involutive.
    assert (Hsl : Js.slice frame 7 (Js.blen frame) = payload)
      by exact (frame_payload_slice 2 id f (Some payload)).
    rewrite Hsl, Hshr.
    destruct text; cbn [negb];
      rewrite ?bool_decide_eq_false_2 by discriminate;
      unfold ret; rewrite Hls; unfold emit, upd_chan, modify;
      rewrite (alter_lookup_insert _ _ _ _ Hc); reflexivity. }
  assert (HL : frame_length (Some payload) <= 7 + MAX_PAYLOAD_SIZE)
    by (unfold frame_length; lia).
  pose proof (Connection_ondata_one H conn cn sock 2 id f (Some payload) w _
                Hcn Hs Hp Hlive ltac:(lia) ltac:(lia) Hf7 HL Hd) as Hrun.
  eexists. split; [exact Hrun|]. split; [reflexivity|].
  cbn. rewrite lookup_alter_eq, Hcn. reflexivity.
Qed.


(** ** What disposal and closing do to the rest of the store *)

(** Records in normal form: field reads and assignments evaluated. *)
Ltac wnorm :=
  cbv beta iota delta [fst snd compose
       ps_buffer ps_offset ps_length url_protocol url_host
       url_pathname url_query url_href url_parse ch_id
       ch_connecting ch_opening ch_closing ch_connection ch_request
       ch_mode ch_writeQueue ch_encoding ch_url ch_readable
       ch_writable ch_emitable ch_destroyed ch_endsig ch_listeners
       ch_events sk_written sk_flushes sk_broken sk_timeout
       sk_timeout_listeners cn_id cn_chanRefCount cn_reqRefCount cn_channels
       cn_requests cn_sock cn_parser rq_conn rq_id
       rq_flag rq_data rq_present rq_sent rq_destroyed
       rq_prev rq_next rq_chan w_channels w_requests
       w_connections w_all w_disposed w_ticks w_handshakes
       w_next set_ch_id set_ch_connecting set_ch_closing set_ch_connection
       set_ch_request set_ch_mode set_ch_writeQueue set_ch_encoding set_ch_url
       set_ch_readable set_ch_writable set_ch_emitable set_ch_destroyed set_ch_endsig
       set_ch_events set_sk_written set_sk_timeout set_sk_timeout_listeners set_cn_id
       set_cn_chanRefCount set_cn_reqRefCount set_cn_channels set_cn_requests set_cn_sock
       set_cn_parser set_rq_present set_rq_sent set_rq_destroyed set_rq_prev
       set_rq_next set_rq_chan set_w_channels set_w_requests set_w_connections
       set_w_all set_w_disposed set_w_ticks set_w_handshakes set_w_next].

Lemma conns_only_refl w : conns_only w w.
Proof. repeat split. Qed.

Lemma conns_only_trans w1 w2 w3 :
  conns_only w1 w2 -> conns_only w2 w3 -> conns_only w1 w3.
Proof.
  intros (A1 & A2 & A3 & A4 & A5) (B1 & B2 & B3 & B4 & B5).
  repeat split; congruence.
Qed.

Lemma Connection_setDisposed_effect c state w :
  is_Some (w_connections w !! c) ->
  exists w',
    Connection_setDisposed c state w = (Ok tt, w')
    /\ conns_only w w'
    /\ forall (A : Type) (g : Connection -> A), timer_blind g ->
         forall c', g <$> w_connections w' !! c' = g <$> w_connections w !! c'.
Proof.
  intros [cn Hc]. unfold Connection_setDisposed, bind, get_conn. rewrite Hc.
  assert (Hsame : exists w', (Ok tt, w) = (Ok tt, w') /\ conns_only w w'
            /\ forall (A : Type) (g : Connection -> A), timer_blind g ->
                 forall c', g <$> w_connections w' !! c' = g <$> w_connections w !! c').
  { exists w. split; [reflexivity|]. split; [apply conns_only_refl|]. reflexivity. }
  destruct (cn_id cn) as [id|]; [|exact Hsame].
  destruct (cn_sock cn) as [sock|] eqn:Es; [|exact Hsame].
  destruct (negb _); [exact Hsame|].
  destruct state; unfold upd_conn, modify; (eexists; split; [reflexivity|]);
    (split; [repeat split|]); intros A g Hg c'; cbn;
    (destruct (decide (c' = c)) as [->|Hne];
     [rewrite lookup_alter_eq, Hc; cbn; f_equal; apply Hg; exact Es
     |rewrite lookup_alter_ne by congruence; reflexivity]).
Qed.

Lemma dispose_if_unused_effect c w :
  is_Some (w_connections w !! c) ->
  exists w',
    dispose_if_unused c w = (Ok tt, w')
    /\ conns_only w w'
    /\ forall (A : Type) (g : Connection -> A), timer_blind g ->
         forall c', g <$> w_connections w' !! c' = g <$> w_connections w !! c'.
Proof.
  intros Hc. unfold dispose_if_unused, bind, get_conn.
  destruct Hc as [cn Hc]. rewrite Hc.
  destruct (_ && _).
  - apply Connection_setDisposed_effect. eauto.
  - exists w. split; [reflexivity|]. split; [apply conns_only_refl|]. reflexivity.
Qed.

(** [finalizeDestroyChannel] on a channel that is not destroyed: the
    channel record, and what is left of everything else. *)
Lemma finalizeDestroyChannel_effect c err message w ch :
  w_channels w !! c = Some ch -> ch_destroyed ch = false ->
  (forall conn, ch_connection ch = Some conn -> is_Some (w_connections w !! conn)) ->
  exists w',
    finalizeDestroyChannel c err message w = (Ok tt, w')
    /\ w_channels w' = <[c := closed_channel ch err message]> (w_channels w)
    /\ w_requests w' = w_requests w /\ w_ticks w' = w_ticks w
    /\ forall (A : Type) (g : Connection -> A), timer_blind g ->
         forall c', g <$> w_connections w' !! c'
                    = g <$> unregister c ch (w_connections w) !! c'.
Proof.
  intros Hc Hd Hconn.
  unfold finalizeDestroyChannel. unfold bind at 1. unfold get_chan. rewrite Hc.
  cbv zeta. rewrite Hd.
  match goal with |- context [bind ?m _] =>
    assert (Hpart : exists w1, m w = (Ok tt, w1) /\ conns_only w w1
              /\ forall (A : Type) (g : Connection -> A), timer_blind g ->
                   forall c', g <$> w_connections w1 !! c'
                              = g <$> unregister c ch (w_connections w) !! c')
  end.
  { unfold unregister.
    assert (Hsame : exists w1, (Ok tt, w) = (Ok tt, w1) /\ conns_only w w1
              /\ forall (A : Type) (g : Connection -> A), timer_blind g ->
                   forall c', g <$> w_connections w1 !! c'
                              = g <$> w_connections w !! c').
    { exists w. split; [reflexivity|]. split; [apply conns_only_refl|]. reflexivity. }
    destruct (ch_connection ch) as [conn|]; [|exact Hsame].
    destruct (ch_id ch) as [idz|]; [|exact Hsame].
    destruct (id_truthy (Some idz)); [|exact Hsame].
    destruct (Hconn conn eq_refl) as [cn Hcn].
    unfold bind at 1, get_conn. rewrite Hcn.
    destruct (decide _); [|exact Hsame].
    unfold bind, upd_conn at 1, modify.
    match goal with |- context [dispose_if_unused conn ?w0] =>
      destruct (dispose_if_unused_effect conn w0) as (w1 & E1 & Hco & Hg) end.
    { cbn. rewrite lookup_alter_eq, Hcn. cbn. eauto. }
    exists w1. split; [exact E1|]. split.
    - eapply conns_only_trans; [|exact Hco]. repeat split.
    - intros A g HB c'. rewrite (Hg A g HB c'). cbn.
      rewrite (alter_lookup_insert _ _ _ _ Hcn). reflexivity. }
  destruct Hpart as (w1 & E1 & (Hch1 & Hrq1 & Htk1 & _) & Hg).
  unfold bind at 1. rewrite E1.
  assert (Hc1 : w_channels w1 !! c = Some ch) by (rewrite Hch1; exact Hc).
  rewrite <- Hch1, <- Hrq1, <- Htk1.
  destruct err as [e|]; unfold bind, emit, upd_chan, modify, ret;
    (eexists; split; [reflexivity|]); cbn;
    rewrite !alter_alter_eq, (alter_lookup_insert _ _ _ _ Hc1);
    (split; [unfold closed_channel; destruct ch; wnorm;
             rewrite <- ?app_assoc; reflexivity|]);
    (split; [reflexivity|]); (split; [reflexivity|]); exact Hg.
Qed.

(** ** The server closes a channel *)

Lemma timer_blind_channels :
  timer_blind (fun cn => (cn_channels cn, cn_chanRefCount cn)).
Proof. intros cn sock t n Hs. reflexivity. Qed.

Lemma timer_blind_written :
  timer_blind (fun cn => match cn_sock cn with
                         | Some s => sk_written s
                         | None => []
                         end).
Proof. intros cn sock t n Hs. cbn. rewrite Hs. reflexivity. Qed.


Lemma timer_blind_requests : timer_blind cn_requests.
Proof. intros cn sock t n Hs. reflexivity. Qed.

(** X8.  When the client closed first, the server's END (or ERROR) for the
    channel, arriving whole with no unread bytes before it, is the
    acknowledgement.  The channel, already closing, is
    finalized without error and without message: the payload of the
    frame is not passed on, and the connection writes nothing.  The
    channel leaves the connection's table, and an open request that has
    been waiting for the same id is now scheduled to be sent. *)
Theorem end_acknowledged (H : Host) (conn : connRef) (cn : Connection)
  (sock : Socket) (c : chanRef) (ch : Channel) (id flag : Z)
  (payload : list Z) (w : World) :
  w_connections w !! conn = Some cn -> cn_sock cn = Some sock ->
  ps_buffer (cn_parser cn) = None -> str_truthy (cn_id cn) = true ->
  cn_channels cn !! id = Some c -> 0 < id < Js.two32 ->
  w_channels w !! c = Some ch -> ch_destroyed ch = false ->
  ch_closing ch = true -> ch_connection ch = Some conn -> ch_id ch = Some id ->
  flag = SignalFlag.FLAG_END \/ flag = SignalFlag.FLAG_ERROR ->
  Js.blen payload <= MAX_PAYLOAD_SIZE ->
  (forall r, cn_requests cn !! id = Some r ->
     exists rq, w_requests w !! r = Some rq
                /\ rq_present rq = false /\ rq_sent rq = false) ->
  let frame := Packet_toBuffer (SignalFrame (Some id) flag (Some payload)) in
  exists w' cn',
    Connection_ondata H conn frame 0 (Js.blen frame) w = (Ok tt, w')
    /\ w_channels w' = <[c := closed_channel ch None None]> (w_channels w)
    /\ written w' conn = sk_written sock
    /\ w_connections w' !! conn = Some cn'
    /\ cn_channels cn' = delete id (cn_channels cn)
    /\ w_ticks w' = w_ticks w ++ match cn_requests cn !! id with
                                 | Some r => [TickSend r]
                                 | None => []
                                 end.
Proof.
  intros Hcn Hs Hp Hlive Hreg Hid Hc Hd Hcl Hcc Hcid Hflag Hlen Hpend frame.
  assert (HB : Js.blen frame = 7 + Js.blen payload)
    by exact (frame_toBuffer_blen 3 id flag (Some payload)).
  assert (Hidt : id_truthy (Some id) = true).
  { cbn. apply negb_true_iff, Z.eqb_neq. lia. }
  destruct (finalizeDestroyChannel_effect c None None w ch Hc Hd)
    as (w2 & E2 & Hch2 & Hrq2 & Htk2 & Hg).
  { intros conn' Hc'. rewrite Hcc in Hc'. injection Hc' as <-. eauto. }
  assert (Hun : unregister c ch (w_connections w)
                = <[conn := set_cn_chanRefCount (cn_chanRefCount cn - 1)
                              (set_cn_channels (delete id (cn_channels cn)) cn)]>
                    (w_connections w)).
  { unfold unregister. rewrite Hcc, Hcid, Hidt, Hcn.
    destruct (decide (cn_channels cn !! id = Some c)) as [_|Hn];
      [reflexivity | exfalso; apply Hn; exact Hreg]. }
  pose proof (Hg _ _ timer_blind_channels conn) as G1.
  pose proof (Hg _ _ timer_blind_written conn) as G2.
  pose proof (Hg _ _ timer_blind_requests conn) as G3.
  rewrite Hun, lookup_insert_eq in G1, G2, G3.
  destruct (w_connections w2 !! conn) as [cn2|] eqn:E; [|discriminate].
  cbn in G1, G2, G3. injection G1 as G1a G1b. injection G2 as G2.
  injection G3 as G3. rewrite Hs in G2.
  assert (Hsend : exists w3,
    match cn_requests cn !! id with
    | Some request => OpenRequest_send request
    | None => ret tt
    end w2 = (Ok tt, w3)
    /\ w_channels w3 = w_channels w2 /\ w_connections w3 = w_connections w2
    /\ w_ticks w3 = w_ticks w2 ++ match cn_requests cn !! id with
                                  | Some r => [TickSend r]
                                  | None => []
                                  end).
  { destruct (cn_requests cn !! id) as [r|] eqn:Er.
    - destruct (Hpend r eq_refl) as (rq & Hr & Hpr & Hse).
      unfold OpenRequest_send, bind, get_req. rewrite Hrq2, Hr, Hpr, Hse.
      unfold upd_req, nextTick, modify. eexists. split; [reflexivity|].
      repeat split.
    - exists w2. split; [reflexivity|]. rewrite app_nil_r. repeat split. }
  destruct Hsend as (w3 & E3 & Hch3 & Hcn3 & Htk3).
  assert (Hdisp : dispatch (Connection_processOpen conn) (Connection_processData H conn)
             (Connection_processSignal conn) 3 id flag frame 7 (Js.blen frame) w
           = (Ok tt, w3)).
  { unfold dispatch. cbn [Z.eqb Pos.eqb].
    unfold Connection_processSignal. unfold bind at 1. unfold get_conn at 1.
    rewrite Hcn.
    assert (E0 : (id =? ALL_CHANNELS) = false)
      by (apply Z.eqb_neq; unfold ALL_CHANNELS; lia).
    assert (EE : (flag =? SignalFlag.FLAG_EMIT) = false)
      by (destruct Hflag as [-> | ->]; reflexivity).
    assert (EF : ((flag =? SignalFlag.FLAG_END) || (flag =? SignalFlag.FLAG_ERROR)) = true)
      by (destruct Hflag as [-> | ->]; reflexivity).
    rewrite EE, EF, E0, Hreg. unfold bind at 1. unfold get_chan at 1.
    rewrite Hc, Hcl. unfold bind at 1. rewrite E2.
    unfold bind, get_conn. rewrite E, G3. exact E3. }
  assert (HL : frame_length (Some payload) <= 7 + MAX_PAYLOAD_SIZE)
    by (unfold frame_length; lia).
  pose proof (Connection_ondata_one H conn cn sock 3 id flag
                (Some payload) w w3
                Hcn Hs Hp Hlive ltac:(lia) ltac:(lia)
                ltac:(destruct Hflag as [-> | ->];
                      unfold SignalFlag.FLAG_END, SignalFlag.FLAG_ERROR; lia)
                HL Hdisp) as Hrun.
  eexists _, (set_cn_parser _ cn2). split; [exact Hrun|].
  split; [cbn; rewrite Hch3; exact Hch2|].
  split.
  - unfold written. cbn. rewrite Hcn3, lookup_alter_eq, E. cbn. exact G2.
  - split; [cbn; rewrite Hcn3, lookup_alter_eq, E; reflexivity|].
    split; [exact G1a|]. cbn. rewrite Htk3, Htk2. reflexivity.
Qed.

(** ** Opening an id that is in use *)


(** ** Connections up to idle timers *)

Lemma timer_blind_core : timer_blind conn_core.
Proof.
  intros cn sock t n Hs. unfold conn_core. cbn. rewrite Hs. reflexivity.
Qed.

Lemma conns_eqv_refl m : conns_eqv m m.
Proof. intros c. reflexivity. Qed.

Lemma conns_eqv_sym m m' : conns_eqv m m' -> conns_eqv m' m.
Proof. intros Hm c. symmetry. apply Hm. Qed.


Lemma conns_eqv_of_blind m m' :
  (forall (A : Type) (g : Connection -> A), timer_blind g ->
     forall c, g <$> m !! c = g <$> m' !! c) ->
  conns_eqv m m'.
Proof. intros Hg c. apply (Hg _ _ timer_blind_core). Qed.

Lemma conns_eqv_lookup m m' c cn :
  conns_eqv m m' -> m !! c = Some cn ->
  exists cn', m' !! c = Some cn' /\ conn_core cn' = conn_core cn.
Proof.
  intros Hm Hc. specialize (Hm c). rewrite Hc in Hm.
  destruct (m' !! c) as [cn'|]; [|discriminate].
  exists cn'. split; [reflexivity|].
  change (Some (conn_core cn) = Some (conn_core cn')) in Hm.
  apply (inj Some) in Hm. congruence.
Qed.


Lemma conns_eqv_insert m m' c cn cn' :
  conns_eqv m m' -> conn_core cn = conn_core cn' ->
  conns_eqv (<[c := cn]> m) (<[c := cn']> m').
Proof.
  intros Hm Hc c'. destruct (decide (c' = c)) as [->|Hne].
  - rewrite !lookup_insert_eq. cbn. congruence.
  - rewrite !lookup_insert_ne by congruence. apply Hm.
Qed.

Lemma conn_core_fields cn cn' :
  conn_core cn = conn_core cn' ->
  cn_id cn = cn_id cn' /\ cn_chanRefCount cn = cn_chanRefCount cn'
  /\ cn_reqRefCount cn = cn_reqRefCount cn' /\ cn_channels cn = cn_channels cn'
  /\ cn_requests cn = cn_requests cn' /\ cn_parser cn = cn_parser cn'
  /\ match cn_sock cn, cn_sock cn' with
     | Some s, Some s' => same_socket s s'
     | None, None => True
     | _, _ => False
     end.
Proof.
  unfold conn_core. intros He.
  injection He as H1 H2 H3 H4 H5 H6 H7.
  repeat (split; [assumption|]).
  destruct (cn_sock cn), (cn_sock cn'); try discriminate; [|exact I].
  cbn in H7. injection H7 as Ha Hb Hc. unfold same_socket. auto.
Qed.


Lemma release_eqv rq m m' :
  conns_eqv m m' -> conns_eqv (release rq m) (release rq m').
Proof.
  intros Hm. unfold release.
  pose proof (Hm (rq_conn rq)) as Hc.
  destruct (m !! rq_conn rq) as [cn|], (m' !! rq_conn rq) as [cn'|];
    try discriminate; [|exact Hm].
  change (Some (conn_core cn) = Some (conn_core cn')) in Hc.
  apply (inj Some) in Hc.
  pose proof (conn_core_fields cn cn' Hc) as (Hid & _).
  rewrite <- Hid.
  destruct (str_truthy (cn_id cn)); [|exact Hm].
  apply conns_eqv_insert; [exact Hm|].
  unfold conn_core in *. cbn. congruence.
Qed.


Lemma release_is_Some rq m c :
  is_Some (release rq m !! c) <-> is_Some (m !! c).
Proof.
  unfold release.
  destruct (m !! rq_conn rq) as [cn|] eqn:E; [|reflexivity].
  destruct (str_truthy (cn_id cn)); [|reflexivity].
  destruct (decide (c = rq_conn rq)) as [->|Hne].
  - rewrite lookup_insert_eq, E. split; eauto.
  - rewrite lookup_insert_ne by congruence. reflexivity.
Qed.

(** The request gives back its reference. *)
Lemma OpenRequest_release_effect (rq : OpenRequest) (cn : Connection) w :
  w_connections w !! rq_conn rq = Some cn ->
  exists w1,
    (if str_truthy (cn_id cn) then
       upd_conn (rq_conn rq)
         (fun cn => set_cn_reqRefCount (cn_reqRefCount cn - 1) cn) ;;
       dispose_if_unused (rq_conn rq)
     else ret tt) w = (Ok tt, w1)
    /\ conns_only w w1
    /\ conns_eqv (w_connections w1) (release rq (w_connections w)).
Proof.
  intros Hcn. unfold release. rewrite Hcn.
  destruct (str_truthy (cn_id cn)).
  - unfold bind, upd_conn at 1, modify.
    match goal with |- context [dispose_if_unused _ ?w0] =>
      destruct (dispose_if_unused_effect (rq_conn rq) w0) as (w1 & E1 & Hco & Hg) end.
    { cbn. rewrite lookup_alter_eq, Hcn. cbn. eauto. }
    exists w1. split; [exact E1|]. split.
    + eapply conns_only_trans; [|exact Hco]. repeat split.
    + apply conns_eqv_of_blind. intros A g HB c'. rewrite (Hg A g HB c'). cbn.
      rewrite (alter_lookup_insert _ _ _ _ Hcn). reflexivity.
  - exists w. split; [reflexivity|]. split; [apply conns_only_refl|].
    apply conns_eqv_refl.
Qed.

(** [OpenRequest.destroy] without an error, or of a request that has no
    channel to tell. *)
Lemma OpenRequest_destroy_quiet r err w rq :
  w_requests w !! r = Some rq -> rq_destroyed rq = false ->
  is_Some (w_connections w !! rq_conn rq) ->
  err = None \/ rq_chan rq = None ->
  exists w',
    OpenRequest_destroy r err w = (Ok tt, w')
    /\ w_requests w' = <[r := set_rq_destroyed true rq]> (w_requests w)
    /\ w_channels w' = w_channels w /\ w_ticks w' = w_ticks w
    /\ conns_eqv (w_connections w') (release rq (w_connections w)).
Proof.
  intros Hr Hd [cn Hcn] Hq.
  unfold OpenRequest_destroy. unfold bind at 1. unfold get_req. rewrite Hr, Hd.
  unfold bind at 1. unfold get_conn. rewrite Hcn.
  destruct (OpenRequest_release_effect rq cn w Hcn)
    as (w1 & E1 & (Hch1 & Hrq1 & Htk1 & _) & He1).
  unfold bind at 1. rewrite E1.
  assert (Hmid : (match rq_chan rq, err with
                  | Some chan, Some e => finalizeDestroyChannel chan (Some e) None
                  | _, _ => ret tt
                  end) w1 = (Ok tt, w1)).
  { destruct Hq as [-> | ->]; [destruct (rq_chan rq)|]; reflexivity. }
  unfold bind. rewrite Hmid. unfold upd_req, modify.
  eexists. split; [reflexivity|]. cbn.
  split; [rewrite Hrq1; apply alter_lookup_insert; exact Hr|].
  split; [exact Hch1|]. split; [exact Htk1|]. exact He1.
Qed.


(** ** The open request is refused *)




(** ** Destroying a connection *)

Lemma release_requests rq m c cn' :
  release rq m !! c = Some cn' ->
  exists cn, m !! c = Some cn
             /\ cn_requests cn' = cn_requests cn
             /\ cn_channels cn' = cn_channels cn
             /\ cn_id cn' = cn_id cn.
Proof.
  unfold release.
  assert (Hsame : m !! c = Some cn' ->
            exists cn, m !! c = Some cn /\ cn_requests cn' = cn_requests cn
                       /\ cn_channels cn' = cn_channels cn
                       /\ cn_id cn' = cn_id cn) by (intros; eauto).
  destruct (m !! rq_conn rq) as [cn|] eqn:E; [|exact Hsame].
  destruct (str_truthy (cn_id cn)); [|exact Hsame].
  destruct (decide (c = rq_conn rq)) as [->|Hne].
  - rewrite lookup_insert_eq. intros [= <-]. exists cn. auto.
  - rewrite lookup_insert_ne by congruence. exact Hsame.
Qed.








(** ** The socket fails, closes or drains *)


Lemma drain_loop conn cn :
  forall (l : list (Z * chanRef)) w,
    NoDup l.*2 ->
    w_connections w !! conn = Some cn ->
    (forall k c, (k, c) ∈ l ->
       cn_channels cn !! k = Some c /\ is_Some (w_channels w !! c)) ->
    exists w',
      for_each l (fun kv =>
        cn' <- get_conn conn ;;
        match cn_channels cn' !! kv.1 with
        | Some chan =>
          ch <- get_chan chan ;;
          if has_listener ch "drain" then emit chan EvDrain else ret tt
        | None => throw (TypeError "Cannot read property '_events' of undefined")
        end) w = (Ok tt, w')
      /\ w_connections w' = w_connections w /\ w_requests w' = w_requests w
      /\ (forall k c ch, (k, c) ∈ l -> w_channels w !! c = Some ch ->
            w_channels w' !! c
            = Some (if has_listener ch "drain"
                    then set_ch_events (ch_events ch ++ [EvDrain]) ch
                    else ch))
      /\ (forall c, c ∉ l.*2 -> w_channels w' !! c = w_channels w !! c).
Proof.
  induction l as [|[k c] l IH]; intros w Hv Hcn Hreg.
  - exists w. split; [reflexivity|]. split; [reflexivity|]. split; [reflexivity|].
    split; [|reflexivity]. intros k c ch Hin. inversion Hin.
  - cbn [for_each]. rewrite !fmap_cons in *. cbn [fst snd] in *.
    apply NoDup_cons in Hv as [Hv1 Hv2].
    destruct (Hreg k c ltac:(left)) as (Hkc & ch & Hc).
    set (ch1 := if has_listener ch "drain"
                then set_ch_events (ch_events ch ++ [EvDrain]) ch else ch).
    set (w1 := set_w_channels (<[c := ch1]> (w_channels w)) w).
    assert (E1 : (ch0 <- get_chan c ;;
                  if has_listener ch0 "drain" then emit c EvDrain else ret tt) w
                 = (Ok tt, w1)).
    { unfold bind, get_chan. rewrite Hc. subst w1 ch1.
      destruct (has_listener ch "drain").
      - unfold emit, upd_chan, modify.
        rewrite (alter_lookup_insert _ _ _ _ Hc). reflexivity.
      - unfold ret. rewrite insert_id by exact Hc. destruct w; reflexivity. }
    destruct (IH w1 Hv2 Hcn) as (w' & E' & Hcn' & Hrq' & Hcl' & Hot').
    { intros k' c' Hin.
      destruct (Hreg k' c' ltac:(right; exact Hin)) as (Hkc' & Hs').
      split; [exact Hkc'|]. subst w1. cbn.
      destruct (decide (c' = c)) as [->|Hne];
        [rewrite lookup_insert_eq; eauto
        |rewrite lookup_insert_ne by congruence; exact Hs']. }
    exists w'. split.
    { unfold bind at 1. unfold bind at 1. unfold get_conn at 1. rewrite Hcn, Hkc.
      rewrite E1. exact E'. }
    split; [exact Hcn'|]. split; [exact Hrq'|].
    split.
    + intros k' c' ch' Hin Hc'.
      apply elem_of_cons in Hin as [Heq|Hin].
      * injection Heq as -> ->. rewrite Hot' by exact Hv1.
        subst w1. cbn. rewrite lookup_insert_eq.
        assert (ch' = ch) by congruence. subst ch'. reflexivity.
      * assert (Hne : c' <> c).
        { intros ->. apply Hv1. apply list_elem_of_fmap. exists (k', c). auto. }
        apply (Hcl' k' c' ch' Hin). subst w1. cbn.
        rewrite lookup_insert_ne by congruence. exact Hc'.
    + intros c' Hnot. apply not_elem_of_cons in Hnot as [Hne Hnot].
      rewrite Hot' by exact Hnot. subst w1. cbn.
      rewrite lookup_insert_ne by congruence. reflexivity.
Qed.

(** X14.  When the socket drains, the channels that listen hear it, once
    each.  The drain handler emits drain on every channel registered
    with the connection that has a drain listener; registered channels
    without one, and all other channels, are unchanged, as are the
    connections and the requests. *)
Theorem socket_drain_broadcast (conn : connRef) (cn : Connection) (w : World) :
  w_connections w !! conn = Some cn ->
  (forall k c, cn_channels cn !! k = Some c -> is_Some (w_channels w !! c)) ->
  (forall k1 k2 c, cn_channels cn !! k1 = Some c ->
                   cn_channels cn !! k2 = Some c -> k1 = k2) ->
  exists w',
    Connection_onSockDrain conn w = (Ok tt, w')
    /\ w_connections w' = w_connections w /\ w_requests w' = w_requests w
    /\ (forall k c ch, cn_channels cn !! k = Some c ->
          w_channels w !! c = Some ch ->
          w_channels w' !! c
          = Some (if has_listener ch "drain"
                  then set_ch_events (ch_events ch ++ [EvDrain]) ch
                  else ch))
    /\ (forall c, (forall k, cn_channels cn !! k <> Some c) ->
          w_channels w' !! c = w_channels w !! c).
Proof.
  intros Hcn Hex Hinj.
  set (l := map_to_list (cn_channels cn)).
  assert (Hl : forall k c, (k, c) ∈ l <-> cn_channels cn !! k = Some c)
    by (intros; apply elem_of_map_to_list).
  assert (Hv : NoDup l.*2).
  { apply NoDup_fmap_2_strong; [|apply NoDup_map_to_list].
    intros [k1 c1] [k2 c2] H1 H2 Heq. cbn in Heq. subst c2.
    apply Hl in H1. apply Hl in H2. f_equal. exact (Hinj k1 k2 c1 H1 H2). }
  destruct (drain_loop conn cn l w Hv Hcn) as (w' & E & Hcn' & Hrq' & Hcl & Hot).
  { intros k c Hin. apply Hl in Hin. split; [exact Hin | exact (Hex k c Hin)]. }
  exists w'. split.
  { unfold Connection_onSockDrain, bind, get_conn. rewrite Hcn. exact E. }
  split; [exact Hcn'|]. split; [exact Hrq'|]. split.
  - intros k c ch Hkc Hc. apply (Hcl k c ch); [apply Hl; exact Hkc | exact Hc].
  - intros c Hnone. apply Hot. intros Hin.
    apply list_elem_of_fmap in Hin as ([k' c'] & Heq & Hin). cbn in Heq. subst c'.
    apply Hl in Hin. exact (Hnone k' Hin).
Qed.

(** ** Parking a connection and using it again *)

(** X15.  A connection that nobody uses is parked, not closed, and the
    next channel to the same host takes it back.  [setDisposed(true)] on
    a live connection with a socket moves it from [Connection.all] to
    [Connection.disposed] and arms the 200 ms idle timer.  A following
    [Connection.getConnection] for a URL with the same protocol and host
    returns that very connection, puts the two tables back as they were,
    disarms the timer, and starts no handshake; channels and requests
    are not touched. *)
Theorem dispose_then_reuse (url : Url) (conn : connRef) (cn : Connection)
  (id : string) (sock : Socket) (w : World) :
  w_connections w !! conn = Some cn -> cn_id cn = Some id -> id <> ""%string ->
  cn_sock cn = Some sock ->
  id = (default "" (url_protocol url) ++ url_host url)%string ->
  w_all w !! id = Some conn -> w_disposed w !! id = None ->
  exists w1 w2,
    Connection_setDisposed conn true w = (Ok tt, w1)
    /\ w_all w1 !! id = None /\ w_disposed w1 !! id = Some conn
    /\ w_connections w1 !! conn
       = Some (set_cn_sock
                 (Some (set_sk_timeout_listeners
                          (Datatypes.S (sk_timeout_listeners sock))
                          (set_sk_timeout 200 sock))) cn)
    /\ Connection_getConnection url w1 = (Ok conn, w2)
    /\ w_all w2 = w_all w /\ w_disposed w2 = w_disposed w
    /\ w_handshakes w2 = w_handshakes w
    /\ w_connections w2
       = <[conn := set_cn_sock
                     (Some (set_sk_timeout_listeners 0%nat (set_sk_timeout 0 sock)))
                     cn]> (w_connections w)
    /\ w_channels w2 = w_channels w /\ w_requests w2 = w_requests w.
Proof.
  intros Hcn Hid Hne Hs Hurl Hall Hdis.
  assert (Ht : negb (str_truthy (Some id)) = false).
  { cbn. rewrite negb_involutive. apply String.eqb_neq. exact Hne. }
  set (sock1 := set_sk_timeout_listeners (Datatypes.S (sk_timeout_listeners sock))
                  (set_sk_timeout 200 sock)).
  set (cn1 := set_cn_sock (Some sock1) cn).
  set (w1 := set_w_all (delete id (w_all w))
               (set_w_disposed (<[id := conn]> (w_disposed w))
                  (set_w_connections (<[conn := cn1]> (w_connections w)) w))).
  assert (E1 : Connection_setDisposed conn true w = (Ok tt, w1)).
  { unfold Connection_setDisposed, bind, get_conn. rewrite Hcn, Hid, Hs, Ht.
    unfold upd_conn, modify. rewrite (alter_lookup_insert _ _ _ _ Hcn).
    reflexivity. }
  assert (Hcn1 : w_connections w1 !! conn = Some cn1)
    by (subst w1; cbn; apply lookup_insert_eq).
  eexists w1, _. split; [exact E1|].
  split; [subst w1; cbn; apply lookup_delete_eq|].
  split; [subst w1; cbn; apply lookup_insert_eq|].
  split; [exact Hcn1|].
  split.
  { unfold Connection_getConnection, bind, get_world. rewrite <- Hurl.
    assert (Ha : w_all w1 !! id = None) by (subst w1; cbn; apply lookup_delete_eq).
    assert (Hd : w_disposed w1 !! id = Some conn)
      by (subst w1; cbn; apply lookup_insert_eq).
    rewrite Ha, Hd.
    unfold Connection_setDisposed, bind, get_conn. rewrite Hcn1.
    change (cn_id cn1) with (cn_id cn). rewrite Hid.
    change (cn_sock cn1) with (Some sock1). rewrite Ht.
    unfold upd_conn, modify, ret.
    rewrite (alter_lookup_insert _ _ _ _ Hcn1). reflexivity. }
  cbn.
  split; [apply insert_delete_id; exact Hall|].
  split; [rewrite delete_insert_eq; apply delete_id; exact Hdis|].
  split; [reflexivity|].
  split; [rewrite insert_insert_eq; reflexivity|].
  split; reflexivity.
Qed.

(** ** The queue of open requests for one id *)

Lemma chain_nonempty reqs r l : chain reqs r l -> l <> [].
Proof. intros Hc. destruct Hc; discriminate. Qed.

Lemma chain_dom reqs r l :
  chain reqs r l -> forall x, x ∈ l -> is_Some (reqs !! x).
Proof.
  induction 1 as [r rq Hr Hn | r rq n l Hr Hn Hc IH]; intros x Hx.
  - apply list_elem_of_singleton in Hx as ->. eauto.
  - apply elem_of_cons in Hx as [->|Hx]; [eauto | exact (IH x Hx)].
Qed.

Lemma chain_length reqs r l :
  chain reqs r l -> NoDup l -> (length l <= size reqs)%nat.
Proof.
  intros Hc Hnd.
  rewrite <- (size_list_to_set (C := gset nat) l Hnd).
  rewrite <- (size_dom (D := gset nat) reqs).
  apply subseteq_size. intros x Hx.
  apply elem_of_list_to_set in Hx. apply elem_of_dom.
  exact (chain_dom reqs r l Hc x Hx).
Qed.

Lemma chain_from_chain reqs r l :
  chain reqs r l -> forall fuel, (length l <= fuel)%nat ->
  chain_from fuel reqs r = l.
Proof.
  induction 1 as [r rq Hr Hn | r rq n l Hr Hn Hc IH]; intros fuel Hf.
  - destruct fuel as [|fuel]; [cbn in Hf; lia|].
    cbn [chain_from]. rewrite Hr, Hn. reflexivity.
  - destruct fuel as [|fuel]; [cbn in Hf; lia|].
    cbn [chain_from]. rewrite Hr, Hn. f_equal. apply IH. cbn in Hf. lia.
Qed.

Lemma chain_last_chain reqs r l lst :
  chain reqs r l -> last l = Some lst ->
  forall fuel, (length l <= fuel)%nat -> chain_last fuel reqs r = Ok lst.
Proof.
  induction 1 as [r rq Hr Hn | r rq n l Hr Hn Hc IH]; intros Hl fuel Hf.
  - destruct fuel as [|fuel]; [cbn in Hf; lia|].
    cbn [chain_last]. rewrite Hr, Hn. cbn in Hl. congruence.
  - destruct fuel as [|fuel]; [cbn in Hf; lia|].
    cbn [chain_last]. rewrite Hr, Hn. apply IH; [|cbn in Hf; lia].
    destruct l as [|y l]; [exfalso; exact (chain_nonempty _ _ _ Hc eq_refl)|].
    rewrite last_cons_cons in Hl. exact Hl.
Qed.

Lemma chain_insert_fresh reqs r l this x :
  chain reqs r l -> this ∉ l -> chain (<[this := x]> reqs) r l.
Proof.
  induction 1 as [r rq Hr Hn | r rq n l Hr Hn Hc IH]; intros Hnot.
  - apply (chain_one _ r rq); [|exact Hn].
    rewrite lookup_insert_ne; [exact Hr|]. intros ->. apply Hnot. left.
  - apply not_elem_of_cons in Hnot as [Hne Hnot].
    apply (chain_cons _ r rq n l); [|exact Hn | exact (IH Hnot)].
    rewrite lookup_insert_ne by congruence. exact Hr.
Qed.

Lemma chain_snoc reqs r l lst this new :
  chain reqs r l -> NoDup l -> last l = Some lst ->
  reqs !! this = Some new -> rq_next new = None -> this ∉ l ->
  chain (alter (set_rq_next (Some this)) lst reqs) r (l ++ [this]).
Proof.
  induction 1 as [r rq Hr Hn | r rq n l Hr Hn Hc IH];
    intros Hnd Hl Hthis Hnew Hnot.
  - cbn in Hl. injection Hl as <-.
    assert (Hne : this <> r) by (intros ->; apply Hnot; left).
    apply (chain_cons _ r (set_rq_next (Some this) rq) this [this]).
    + rewrite lookup_alter_eq, Hr. reflexivity.
    + reflexivity.
    + apply (chain_one _ this new); [|exact Hnew].
      rewrite lookup_alter_ne by congruence. exact Hthis.
  - apply NoDup_cons in Hnd as [Hr1 Hnd].
    apply not_elem_of_cons in Hnot as [Hne Hnot].
    destruct l as [|y l]; [exfalso; exact (chain_nonempty _ _ _ Hc eq_refl)|].
    rewrite last_cons_cons in Hl.
    cbn [app]. apply (chain_cons _ r rq n ((y :: l) ++ [this])).
    + rewrite lookup_alter_ne; [exact Hr|].
      intros ->. apply Hr1. exact (last_Some_elem_of _ _ Hl).
    + exact Hn.
    + exact (IH Hnd Hl Hthis Hnew Hnot).
Qed.

(** X16.  Open requests for one id queue up in the order they are made.
    [new OpenRequest(conn, id, flag, data)] creates one request, not
    sent and not destroyed, raises the connection's request count by
    one, and puts the request at the end of the queue for [id]: the
    queue afterwards is the queue before followed by the new request,
    which is the head exactly when the queue was empty.  The queue before
    is any chain of [next] links without repetition. *)
Theorem OpenRequest_new_appends (conn : connRef) (cn : Connection) (id flag : Z)
  (data : option (list Z)) (l : list reqRef) (w : World) :
  w_connections w !! conn = Some cn ->
  w_requests w !! w_next w = None ->
  match cn_requests cn !! id with
  | Some first => chain (w_requests w) first l /\ NoDup l
  | None => l = []
  end ->
  let this := w_next w in
  exists w',
    OpenRequest_new conn id flag data w = (Ok this, w')
    /\ queue_of w conn id = l
    /\ queue_of w' conn id = l ++ [this]
    /\ w_requests w' !! this
       = Some (mkOpenRequest conn id flag data false false false None None None)
    /\ (cn_reqRefCount <$> w_connections w' !! conn) = Some (cn_reqRefCount cn + 1)
    /\ w_channels w' = w_channels w.
Proof.
  intros Hcn Hfresh Hq this.
  set (new := mkOpenRequest conn id flag data false false false None None None).
  set (reqs1 := <[this := new]> (w_requests w)).
  unfold OpenRequest_new. unfold bind at 1. unfold get_conn at 1. rewrite Hcn.
  unfold bind at 1. unfold alloc_req at 1. fold this. fold new. fold reqs1.
  destruct (cn_requests cn !! id) as [first|] eqn:Ef.
  - destruct Hq as (Hc & Hnd).
    assert (Hnot : this ∉ l).
    { intros Hin. destruct (chain_dom _ _ _ Hc this Hin) as [x Hx].
      unfold this in Hx. congruence. }
    pose proof (chain_insert_fresh _ _ _ this new Hc Hnot) as Hc1. fold reqs1 in Hc1.
    destruct (last l) as [lst|] eqn:El;
      [|apply last_None in El; exfalso; exact (chain_nonempty _ _ _ Hc El)].
    pose proof (chain_length _ _ _ Hc1 Hnd) as Hlen1.
    pose proof (chain_snoc reqs1 first l lst this new Hc1 Hnd El
                  (lookup_insert_eq _ _ _) eq_refl Hnot) as Hc2.
    assert (Hnd2 : NoDup (l ++ [this])).
    { apply NoDup_app. split; [exact Hnd|]. split; [|apply NoDup_singleton].
      intros x Hx Hx'. apply list_elem_of_singleton in Hx' as ->. exact (Hnot Hx). }
    pose proof (chain_length _ _ _ Hc2 Hnd2) as Hlen2.
    eexists. split.
    { unfold bind at 1. unfold bind at 1. unfold get_world at 1.
      unfold chain_fuel. cbn [w_requests set_w_next set_w_requests].
      rewrite (chain_last_chain reqs1 first l lst Hc1 El) by lia.
      unfold bind, upd_req, upd_conn, modify, ret. reflexivity. }
    split.
    { unfold queue_of. rewrite Hcn, Ef. apply chain_from_chain; [exact Hc|].
      unfold chain_fuel. pose proof (chain_length _ _ _ Hc Hnd). lia. }
    split.
    { unfold queue_of. wsimpl. rewrite lookup_alter_eq, Hcn.
      cbn [fmap option_fmap option_map]. wsimpl. rewrite Ef.
      apply chain_from_chain; [exact Hc2|]. unfold chain_fuel. wsimpl. lia. }
    split.
    { cbn. rewrite lookup_alter_ne.
      - apply lookup_insert_eq.
      - intros ->. apply Hnot. exact (last_Some_elem_of _ _ El). }
    split; [cbn; rewrite lookup_alter_eq, Hcn; reflexivity | reflexivity].
  - subst l. eexists. split.
    { unfold bind, upd_conn, modify, ret. reflexivity. }
    split; [unfold queue_of; rewrite Hcn, Ef; reflexivity|].
    split.
    { unfold queue_of. wsimpl. rewrite lookup_alter_eq, lookup_alter_eq, Hcn.
      cbn [fmap option_fmap option_map]. wsimpl.
      rewrite lookup_insert_eq. unfold chain_fuel. cbn [chain_from]. wsimpl.
      unfold reqs1 at 1. rewrite lookup_insert_eq. reflexivity. }
    split; [cbn; apply lookup_insert_eq|].
    split; [cbn; rewrite lookup_alter_eq, lookup_alter_eq, Hcn; reflexivity
           | reflexivity].
Qed.

(** X17.  Cancelling the request at the head of its queue.  A request
    that has been sent cannot be cancelled: [cancel] returns false and
    changes nothing.  A head request that has not been sent is
    cancelled: [cancel] returns true, the request is destroyed without
    telling its channel, and the queue for its id loses its head, so
    that the request behind it, if any, is the new head; no channel
    changes and nothing is scheduled. *)
Theorem cancel_head_request (conn : connRef) (cn : Connection) (id : Z)
  (r : reqRef) (rq : OpenRequest) (l : list reqRef) (w : World) :
  w_requests w !! r = Some rq -> rq_conn rq = conn -> rq_id rq = id ->
  rq_destroyed rq = false ->
  w_connections w !! conn = Some cn -> cn_requests cn !! id = Some r ->
  chain (w_requests w) r l -> NoDup l ->
  (rq_sent rq = true -> OpenRequest_cancel r w = (Ok false, w))
  /\ (rq_sent rq = false ->
      exists w',
        OpenRequest_cancel r w = (Ok true, w')
        /\ queue_of w conn id = l
        /\ queue_of w' conn id = tail l
        /\ w_requests w' = <[r := set_rq_destroyed true rq]> (w_requests w)
        /\ w_channels w' = w_channels w /\ w_ticks w' = w_ticks w).
Proof.
  intros Hr Hrc Hri Hrd Hcn Hhead Hc Hnd. split.
  - intros Hs. unfold OpenRequest_cancel, bind, get_req, get_conn.
    rewrite Hr. cbv zeta. rewrite Hrc, Hcn, Hs. reflexivity.
  - intros Hs.
    set (reqs' := match rq_next rq with
                  | Some n => <[id := n]> (cn_requests cn)
                  | None => delete id (cn_requests cn)
                  end).
    set (cn1 := set_cn_requests reqs' cn).
    set (w1 := set_w_connections (<[conn := cn1]> (w_connections w)) w).
    assert (E1 : (if decide (cn_requests cn !! id = Some r) then
                    match rq_next rq with
                    | Some n =>
                      upd_conn conn (fun cn =>
                        set_cn_requests (<[id := n]> (cn_requests cn)) cn)
                    | None =>
                      upd_conn conn (fun cn =>
                        set_cn_requests (delete id (cn_requests cn)) cn)
                    end
                  else
                    match rq_prev rq with
                    | Some _ => upd_req r (set_rq_prev (rq_next rq))
                    | None => ret tt
                    end) w = (Ok tt, w1)).
    { destruct (decide (cn_requests cn !! id = Some r)) as [_|Hn];
        [|exfalso; exact (Hn Hhead)].
      subst w1 cn1 reqs'. unfold upd_conn, modify.
      destruct (rq_next rq); rewrite (alter_lookup_insert _ _ _ _ Hcn); reflexivity. }
    assert (Hcn1 : w_connections w1 !! conn = Some cn1)
      by (subst w1; cbn; apply lookup_insert_eq).
    destruct (OpenRequest_destroy_quiet r None w1 rq Hr Hrd)
      as (w' & E' & Hrq' & Hch' & Htk' & He').
    { rewrite Hrc. eauto. }
    { left. reflexivity. }
    change (w_requests w1) with (w_requests w) in Hrq'.
    change (w_channels w1) with (w_channels w) in Hch'.
    change (w_ticks w1) with (w_ticks w) in Htk'.
    assert (Hs' : is_Some (release rq (w_connections w1) !! conn))
      by (apply release_is_Some; eauto).
    destruct Hs' as [cn2 Hcn2].
    destruct (release_requests _ _ _ _ Hcn2) as (cn3 & Hcn3 & Hq3 & _ & _).
    assert (cn3 = cn1) by congruence. subst cn3.
    destruct (conns_eqv_lookup _ _ conn _ (conns_eqv_sym _ _ He') Hcn2)
      as (cn' & Hcn' & Hcore).
    destruct (conn_core_fields _ _ Hcore) as (_ & _ & _ & _ & Hrqs' & _).
    assert (Hq : cn_requests cn' = reqs') by (rewrite Hrqs', Hq3; reflexivity).
    exists w'. split.
    { unfold OpenRequest_cancel. unfold bind at 1. unfold get_req at 1.
      rewrite Hr. cbv zeta. rewrite Hrc, Hri.
      unfold bind at 1. unfold get_conn at 1. rewrite Hcn, Hs.
      unfold bind at 1. rewrite E1. unfold bind. rewrite E'. reflexivity. }
    split.
    { unfold queue_of. rewrite Hcn, Hhead. apply chain_from_chain; [exact Hc|].
      unfold chain_fuel. pose proof (chain_length _ _ _ Hc Hnd). lia. }
    split.
    { unfold queue_of. rewrite Hcn', Hq. subst reqs'.
      inversion Hc as [r0 rq0 Hr0 Hn0 | r0 rq0 n l' Hr0 Hn0 Hc']; subst.
      - assert (rq0 = rq) by congruence. subst rq0. rewrite Hn0.
        rewrite lookup_delete_eq. reflexivity.
      - assert (rq0 = rq) by congruence. subst rq0. rewrite Hn0.
        rewrite lookup_insert_eq. cbn [tail].
        apply NoDup_cons in Hnd as [Hnot Hnd'].
        apply chain_from_chain.
        + rewrite Hrq'. apply chain_insert_fresh; assumption.
        + unfold chain_fuel.
          pose proof (chain_length _ _ _
                        (chain_insert_fresh _ _ _ r (set_rq_destroyed true rq)
                           Hc' Hnot) Hnd') as Hlen.
          rewrite <- Hrq' in Hlen. lia. }
    split; [exact Hrq'|]. split; [exact Hch' | exact Htk'].
Qed.

(** ** The handshake completes *)



(** ** What a channel reports about itself *)


(** X20.  [readyState] once the channel is open, mode by mode.  When
    [_open] runs on a waiting channel whose flags are those that
    [connect] derives from the mode bits, the channel ends up neither
    connecting nor closing and reports "read", "write" or "readwrite",
    with "+emit" appended when bit 4 is set.  Two modes have no name of
    their own: mode 0 reports [undefined], and mode 4, emit without read
    or write, reports the text "undefined+emit".  The [url] getter now
    gives the URL stored by [connect]. *)
Theorem readyState_once_open (w : World) (c : chanRef) (ch : Channel)
  (conn : connRef) (sock : Socket) (newid mode : Z) :
  opening_channel w c (with_mode mode ch) conn sock ->
  0 <= mode <= 7 -> newid <> 0 ->
  exists w' ch',
    Channel_open c newid w = (Ok tt, w')
    /\ w_channels w' !! c = Some ch'
    /\ Channel_readyState ch' = default None (readyState_table !! Z.to_nat mode)
    /\ Channel_url ch' = ch_url ch.
Proof.
  intros Hopen Hm Hid.
  pose proof Hopen as (_ & _ & Hcn & _).
  destruct (Channel_open_opening w c (with_mode mode ch) conn sock newid Hopen)
    as (w' & E & (Hc' & _) & _).
  eexists w', _. split; [exact E|]. split; [exact Hc'|].
  unfold with_mode in Hcn. wsimpl_in Hcn.
  assert (Ht : id_truthy (Some newid) = true)
    by (cbn; apply negb_true_iff, Z.eqb_neq; exact Hid).
  split.
  - unfold Channel_readyState, with_mode. wsimpl. rewrite Ht.
    pose proof Hopen as (_ & Hcl & _). unfold with_mode in Hcl. wsimpl_in Hcl.
    rewrite Hcl. cbn [negb].
    assert (Hc : mode = 0 \/ mode = 1 \/ mode = 2 \/ mode = 3
                 \/ mode = 4 \/ mode = 5 \/ mode = 6 \/ mode = 7) by lia.
    destruct Hc as [->|[->|[->|[->|[->|[->|[->| ->]]]]]]]; reflexivity.
  - unfold Channel_url, with_mode. wsimpl. rewrite Ht, Hcn. reflexivity.
Qed.

(** ** Connecting a channel *)

(** X21.  [connect] to a host for which no connection exists.  With a URL
    and a mode that pass the checks, and no query in the URL, [connect]
    marks the channel as connecting, with the id and the flags of the
    mode, so that it reports "opening"; it creates the connection for
    protocol and host, enters it in [Connection.all] and starts one
    handshake for it; and it creates one open request for the id, which
    is the queue of that id and counts as the connection's only
    reference.  Nothing is written and nothing is deferred: the request
    waits for the handshake. *)
Theorem connect_new_host (H : Host) (c : chanRef) (ch : Channel)
  (url mode : JsVal) (u : Url) (id m : Z) (w : World) :
  w_channels w !! c = Some ch -> ch_connecting ch = false ->
  connect_target H url = Ok (u, id) -> getBinMode mode = Some m ->
  str_truthy (url_query u) = false ->
  let cid := (default "" (url_protocol u) ++ url_host u)%string in
  w_all w !! cid = None -> w_disposed w !! cid = None ->
  let conn := w_next w in
  let r := Datatypes.S (w_next w) in
  let ch' :=
    set_ch_request (Some r) (set_ch_connection (Some conn)
      (with_mode m (set_ch_url (Some (url_href u)) (set_ch_connecting true
        (set_ch_mode (Some m) (set_ch_id (Some id) ch)))))) in
  exists w',
    Channel_connect H c url mode w = (Ok tt, w')
    /\ w_channels w' = <[c := ch']> (w_channels w)
    /\ Channel_readyState ch' = Some "opening"%string
    /\ w_connections w'
       = <[conn := mkConnection (Some cid) 0 1 ∅ {[id := r]} None parser_init]>
           (w_connections w)
    /\ w_requests w'
       = <[r := mkOpenRequest conn id m None false false false None None (Some c)]>
           (w_requests w)
    /\ queue_of w' conn id = [r]
    /\ w_all w' = <[cid := conn]> (w_all w)
    /\ w_disposed w' = w_disposed w
    /\ w_handshakes w' = w_handshakes w ++ [(conn, u)]
    /\ w_ticks w' = w_ticks w.
Proof.
  intros Hc Hcg Ht Hm Hq cid Hall Hdis conn r ch'.
  set (ch1 := with_mode m (set_ch_url (Some (url_href u)) (set_ch_connecting true
                (set_ch_mode (Some m) (set_ch_id (Some id) ch))))).
  set (cn0 := mkConnection (Some cid) 0 0 ∅ ∅ None parser_init).
  set (rq0 := mkOpenRequest conn id m None false false false None None None).
  eexists. split.
  { unfold Channel_connect. unfold bind at 1. unfold get_chan at 1.
    rewrite Hc. cbv zeta. rewrite Hcg, Ht, Hm, Hq.
    unfold bind at 1. unfold ret at 1. cbv beta iota.
    unfold bind at 1. unfold upd_chan at 1, modify.
    rewrite (alter_lookup_insert _ _ _ _ Hc).
    change (set_ch_emitable _ (set_ch_writable _ (set_ch_readable _
              (set_ch_url (Some (url_href u)) (set_ch_connecting true
                 (set_ch_mode (Some m) (set_ch_id (Some id) ch)))))))
      with ch1.
    unfold bind at 1.
    unfold Connection_getConnection. fold cid.
    unfold bind at 1. unfold get_world at 1. wsimpl. rewrite Hall, Hdis.
    unfold bind at 1. unfold Connection_new. unfold bind at 1.
    unfold alloc_conn at 1. wsimpl. fold conn. fold cn0.
    unfold bind at 1. unfold modify at 1. wsimpl. unfold ret at 1.
    unfold bind at 1. unfold Connection_connect. unfold bind at 1.
    unfold get_conn at 1. wsimpl. rewrite lookup_insert_eq.
    change (cn_sock cn0) with (@None Socket). cbv iota.
    unfold modify at 1. wsimpl. unfold ret at 1.
    unfold bind at 1. unfold upd_chan at 1, modify. wsimpl.
    rewrite alter_insert_eq.
    unfold bind at 1. unfold Connection_open. unfold bind at 1.
    unfold get_conn at 1. wsimpl. rewrite lookup_insert_eq. cbv zeta.
    change (cn_channels cn0) with (∅ : gmap Z chanRef).
    rewrite lookup_empty.
    unfold bind at 1. unfold ret at 1. cbv iota.
    unfold bind at 1. unfold OpenRequest_new. unfold bind at 1.
    unfold get_conn at 1. wsimpl. rewrite lookup_insert_eq.
    unfold bind at 1. unfold alloc_req at 1. wsimpl. fold r.
    change (cn_requests cn0) with (∅ : gmap Z reqRef). rewrite lookup_empty.
    unfold bind at 1. unfold upd_conn at 1, modify. wsimpl.
    rewrite alter_insert_eq.
    unfold bind at 1. unfold upd_conn at 1, modify. wsimpl.
    rewrite alter_insert_eq. unfold ret at 1.
    unfold bind at 1. unfold upd_req at 1, modify. wsimpl.
    rewrite alter_insert_eq.
    change (cn_sock cn0) with (@None Socket).
    unfold bind at 1.
    rewrite (bool_decide_eq_false_2 (is_Some (@None Socket)))
      by (intros [? Hx]; discriminate).
    cbn [andb]. unfold ret. cbv beta iota.
    unfold upd_chan, modify. wsimpl. rewrite alter_insert_eq.
    reflexivity. }
  wsimpl.
  split; [reflexivity|].
  split; [subst ch'; unfold Channel_readyState, with_mode; wsimpl; reflexivity|].
  split; [reflexivity|].
  split; [reflexivity|].
  split.
  { unfold queue_of. wsimpl. rewrite lookup_insert_eq. wsimpl.
    change (cn_requests cn0) with (∅ : gmap Z reqRef).
    rewrite lookup_insert_eq. unfold chain_fuel. cbn [chain_from]. wsimpl.
    rewrite lookup_insert_eq. reflexivity. }
  repeat split.
Qed.

(** X22.  [connect] to a host whose connection is up.  When
    [Connection.all] holds a connection for the protocol and host, with
    a socket, and neither a channel nor a request for the id, [connect]
    starts no handshake: it queues one open request on that connection
    and defers its sending, writing nothing itself.  The next tick
    marks the request as sent and writes one OPEN frame of 7 bytes to
    the socket, with the id and with the mode as its flag. *)
Theorem connect_live_host (H : Host) (c : chanRef) (ch : Channel)
  (url mode : JsVal) (u : Url) (id m : Z) (conn : connRef) (cn : Connection)
  (sock : Socket) (w : World) :
  w_channels w !! c = Some ch -> ch_connecting ch = false ->
  connect_target H url = Ok (u, id) -> getBinMode mode = Some m ->
  str_truthy (url_query u) = false ->
  let cid := (default "" (url_protocol u) ++ url_host u)%string in
  w_all w !! cid = Some conn ->
  w_connections w !! conn = Some cn ->
  cn_sock cn = Some sock -> sk_broken sock = None ->
  cn_channels cn !! id = None -> cn_requests cn !! id = None ->
  w_ticks w = [] ->
  let r := w_next w in
  exists w1 w2,
    Channel_connect H c url mode w = (Ok tt, w1)
    /\ w_handshakes w1 = w_handshakes w
    /\ written w1 conn = sk_written sock
    /\ w_ticks w1 = [TickSend r]
    /\ (ch_request <$> w_channels w1 !! c) = Some (Some r)
    /\ queue_of w1 conn id = [r]
    /\ run_tick w1 = (Ok tt, w2)
    /\ written w2 conn = sk_written sock ++ [frame_toBuffer OP_OPEN id m None]
    /\ Js.blen (frame_toBuffer OP_OPEN id m None) = 7
    /\ (rq_sent <$> w_requests w2 !! r) = Some true
    /\ w_ticks w2 = [].
Proof.
  intros Hc Hcg Ht Hm Hq cid Hall Hcn Hs Hb Hnc Hnr Htk r.
  set (ch1 := set_ch_emitable (Js.band m EMIT =? EMIT)
                (set_ch_writable (Js.band m WRITE =? WRITE)
                  (set_ch_readable (Js.band m READ =? READ)
                    (set_ch_url (Some (url_href u)) (set_ch_connecting true
                      (set_ch_mode (Some m) (set_ch_id (Some id) ch))))))).
  set (rq0 := mkOpenRequest conn id m None false false false None None None).
  eexists _, _. split.
  { unfold Channel_connect. unfold bind at 1. unfold get_chan at 1.
    rewrite Hc. cbv zeta. rewrite Hcg, Ht, Hm, Hq.
    unfold bind at 1. unfold ret at 1. cbv beta iota.
    unfold bind at 1. unfold upd_chan at 1, modify.
    rewrite (alter_lookup_insert _ _ _ _ Hc). fold ch1.
    unfold bind at 1.
    unfold Connection_getConnection. fold cid.
    unfold bind at 1. unfold get_world at 1. wsimpl. rewrite Hall.
    unfold ret at 1.
    unfold bind at 1. unfold upd_chan at 1, modify. wsimpl.
    rewrite alter_insert_eq.
    unfold bind at 1. unfold Connection_open. unfold bind at 1.
    unfold get_conn at 1. wsimpl. rewrite Hcn. cbv zeta. rewrite Hnc.
    unfold bind at 1. unfold ret at 1. cbv iota.
    unfold bind at 1. unfold OpenRequest_new. unfold bind at 1.
    unfold get_conn at 1. wsimpl. rewrite Hcn.
    unfold bind at 1. unfold alloc_req at 1. wsimpl. fold r. fold rq0.
    rewrite Hnr.
    unfold bind at 1. unfold upd_conn at 1, modify. wsimpl.
    rewrite (alter_lookup_insert _ _ _ _ Hcn).
    unfold bind at 1. unfold upd_conn at 1, modify. wsimpl.
    rewrite alter_insert_eq. unfold ret at 1.
    unfold bind at 1. unfold upd_req at 1, modify. wsimpl.
    rewrite alter_insert_eq.
    rewrite Hs.
    rewrite (bool_decide_eq_true_2 (is_Some (Some sock))) by eauto.
    rewrite (bool_decide_eq_true_2 (@None chanRef = None)) by reflexivity.
    cbn [andb].
    unfold bind at 1. unfold OpenRequest_send. unfold bind at 1.
    unfold get_req at 1. wsimpl. rewrite lookup_insert_eq. wsimpl.
    change (rq_present rq0) with false. change (rq_sent rq0) with false.
    cbv iota. unfold bind, upd_req, nextTick, modify, ret. wsimpl.
    rewrite alter_insert_eq.
    unfold upd_chan, modify. wsimpl. rewrite alter_insert_eq.
    reflexivity. }
  wsimpl. split; [reflexivity|].
  split.
  { unfold written. wsimpl. rewrite lookup_insert_eq. wsimpl. rewrite Hs.
    reflexivity. }
  split; [rewrite Htk; reflexivity|].
  split; [rewrite lookup_insert_eq; reflexivity|].
  split.
  { unfold queue_of. wsimpl. rewrite lookup_insert_eq. wsimpl.
    rewrite lookup_insert_eq. unfold chain_fuel. cbn [chain_from]. wsimpl.
    rewrite lookup_insert_eq. reflexivity. }
  split.
  { unfold run_tick. unfold bind at 1. unfold get_world at 1. wsimpl.
    rewrite Htk. cbn [app]. unfold bind at 1. unfold modify at 1. wsimpl.
    unfold OpenRequest_send_tick. unfold bind at 1.
    unfold upd_req at 1, modify. wsimpl. rewrite alter_insert_eq.
    unfold bind at 1. unfold get_req at 1. wsimpl. rewrite lookup_insert_eq.
    wsimpl. unfold try_catch, bind, Connection_write, bind, get_conn. wsimpl.
    rewrite lookup_insert_eq. wsimpl. rewrite Hs, Hb.
    unfold upd_conn, modify, ret. wsimpl. rewrite alter_insert_eq.
    reflexivity. }
  wsimpl. split.
  { unfold written. wsimpl. rewrite lookup_insert_eq. wsimpl. reflexivity. }
  split; [reflexivity|].
  split; [rewrite lookup_insert_eq; reflexivity | reflexivity].
Qed.

(** ** The handshake *)

Section GetSockFacts.

Variable ex : Exports.
Variable parse : option string -> Res SockUrl.
Variable STATUS_CODES : Z -> option string.

Local Abbreviation doreq := (dorequest ex parse STATUS_CODES).

Lemma dorequest_bound : forall answers url redirections,
  1 <= redirections <= 5 ->
  (length (doreq url redirections answers).2 <= Z.to_nat (6 - redirections))%nat
  /\ (followRedirects ex = false ->
      (length (doreq url redirections answers).2 <= 1)%nat).
Proof.
  induction answers as [|a rest IH]; intros url red Hr;
    cbn [dorequest];
    destruct (negb (bool_decide (su_protocol url = Some "http:"%string))
              && negb (bool_decide (su_protocol url = Some "https:"%string)));
    try (cbn [snd length]; split; [lia | intros; lia]).
  destruct a as [err | upgrade sock | code msg location];
    try (cbn [snd length]; split; [lia | intros; lia]).
  destruct ((code =? 301) || (code =? 302) || (code =? 307));
    [|cbn [snd length]; split; [lia | intros; lia]].
  destruct (followRedirects ex) eqn:Ef;
    [|cbn [snd length]; split; [lia | intros; lia]].
  destruct (red =? MAX_REDIRECTS) eqn:Em;
    [cbn [snd length]; split; [lia | intros; discriminate]|].
  destruct (parse location) as [url'|err];
    [|cbn [snd length]; split; [lia | intros; discriminate]].
  apply Z.eqb_neq in Em. unfold MAX_REDIRECTS in Em.
  destruct (IH url' (red + 1) ltac:(lia)) as (IH1 & _).
  destruct (doreq url' (red + 1) rest) as [result made].
  cbn [snd length] in *. split; [lia | intros; discriminate].
Qed.

Lemma dorequest_redirected : forall l rest url redirections,
  followRedirects ex = true ->
  su_protocol url = Some "http:"%string \/ su_protocol url = Some "https:"%string ->
  1 <= redirections <= 5 ->
  Forall (redirecting parse) l ->
  length l = Z.to_nat (6 - redirections) ->
  exists made,
    doreq url redirections (l ++ rest)
    = (Some (SockFailed (Error "Max HTTP redirections reached")), made)
    /\ length made = length l.
Proof.
  induction l as [|a l IH]; intros rest url red Hf Hp Hr Hall Hlen.
  - cbn [length] in Hlen. lia.
  - apply Forall_cons in Hall as [Ha Hall].
    destruct Ha as (code & msg & location & url' & -> & Hcode & Hparse & Hp').
    cbn [app dorequest].
    assert (E1 : negb (bool_decide (su_protocol url = Some "http:"%string))
                 && negb (bool_decide (su_protocol url = Some "https:"%string))
                 = false).
    { destruct Hp as [-> | ->]; reflexivity. }
    assert (E2 : (code =? 301) || (code =? 302) || (code =? 307) = true).
    { destruct Hcode as [-> | [-> | ->]]; reflexivity. }
    rewrite E1, E2, Hf.
    destruct (red =? MAX_REDIRECTS) eqn:Em.
    + apply Z.eqb_eq in Em. unfold MAX_REDIRECTS in Em. subst red.
      cbn [length] in Hlen. change (Z.to_nat (6 - 5)) with 1%nat in Hlen.
      destruct l; [|cbn in Hlen; lia].
      eexists. split; reflexivity.
    + apply Z.eqb_neq in Em. unfold MAX_REDIRECTS in Em. rewrite Hparse.
      destruct (IH rest url' (red + 1) Hf Hp' ltac:(lia) Hall) as (made & E & Hl).
      { cbn [length] in Hlen. lia. }
      rewrite E. eexists. split; [reflexivity|]. cbn [length]. lia.
Qed.


End GetSockFacts.

(** X23.  The handshake follows at most four redirects.  Whatever the
    server answers, [getSock] makes at most five requests, and at most
    one when [followRedirects] is off.  When redirects are followed and
    the server answers the first five requests with a redirect (301, 302
    or 307) to a location that parses to an http or https URL, the fifth
    answer ends the handshake: the callback gets the error "Max HTTP
    redirections reached" after exactly five requests, and nothing that
    the server would answer later is asked for. *)
Theorem getSock_redirect_limit (ex : Exports)
  (parse : option string -> Res SockUrl) (STATUS_CODES : Z -> option string)
  (url : SockUrl) (answers : list HttpAnswer) :
  (length (getSock ex parse STATUS_CODES url answers).2 <= 5)%nat
  /\ (followRedirects ex = false ->
      (length (getSock ex parse STATUS_CODES url answers).2 <= 1)%nat)
  /\ (followRedirects ex = true ->
      su_protocol url = Some "http:"%string
      \/ su_protocol url = Some "https:"%string ->
      (5 <= length answers)%nat ->
      Forall (redirecting parse) (take 5 answers) ->
      exists made,
        getSock ex parse STATUS_CODES url answers
        = (Some (SockFailed (Error "Max HTTP redirections reached")), made)
        /\ length made = 5%nat).
Proof.
  unfold getSock.
  destruct (dorequest_bound ex parse STATUS_CODES answers url 1 ltac:(lia))
    as (H1 & H2).
  split; [exact H1|]. split; [exact H2|].
  intros Hf Hp Hlen Hall.
  rewrite <- (take_drop 5 answers).
  destruct (dorequest_redirected ex parse STATUS_CODES (take 5 answers)
              (drop 5 answers) url 1 Hf Hp ltac:(lia) Hall)
    as (made & E & Hl).
  { rewrite length_take. change (Z.to_nat (6 - 1)) with 5%nat. lia. }
  exists made. split; [exact E|]. rewrite Hl, length_take. lia.
Qed.


(** ** The open request is granted *)









(** ** Writing to a dead socket *)

(** [destroy] on an open channel whose socket throws on write: the
    channel is left closing, the END frame is not sent and the error is
    dropped. *)
Lemma Channel_destroy_dead_socket c ch conn cn sock e err w :
  w_channels w !! c = Some ch -> ch_connecting ch = false ->
  ch_writeQueue ch = None -> ch_connection ch = Some conn ->
  w_connections w !! conn = Some cn -> cn_sock cn = Some sock ->
  sk_broken sock = Some e -> e <> Diverged ->
  ch_destroyed ch = false -> ch_closing ch = false ->
  id_truthy (ch_id ch) = true -> ch_request ch = None ->
  Channel_destroy c err w
  = (Ok tt,
     set_w_channels
       (<[c := set_ch_closing true (set_ch_emitable false (set_ch_writable false
                 (set_ch_readable false ch)))]> (w_channels w)) w).
Proof.
  intros Hc Hcg Hq Hcc Hcn Hs Hb Hne Hd Hcl Hid Hrq.
  unfold Channel_destroy. cbn [Channel_destroy_n].
  unfold Channel_destroy_body. unfold bind at 1. unfold get_chan at 1.
  rewrite Hc, Hd, Hcl, Hid, Hcc. cbn [orb negb].
  unfold bind at 1. unfold ret at 1. unfold bind at 1.
  unfold upd_chan at 1, modify. rewrite (alter_lookup_insert _ _ _ _ Hc).
  unfold bind at 1. unfold get_chan at 1. wsimpl. rewrite lookup_insert_eq.
  wsimpl. rewrite Hrq. unfold bind at 1. unfold ret at 1.
  unfold bind at 1. unfold get_chan at 1. wsimpl. rewrite lookup_insert_eq.
  wsimpl. rewrite Hrq.
  unfold try_catch, Channel_writeOut_with, bind, get_chan. wsimpl.
  rewrite lookup_insert_eq. wsimpl. rewrite Hq, Hcg, Hcc.
  unfold Connection_write, bind, get_conn. wsimpl. rewrite Hcn, Hs, Hb.
  unfold throw. destruct e; try reflexivity. exfalso; apply Hne; reflexivity.
Qed.

(** X26.  [write] and [dispatch] never pass on the exception of a dead
    socket.  On an open channel whose socket throws on write, a call
    with acceptable arguments returns false; the channel is left
    closing and no longer readable, writable or emitable; nothing is
    written, no END frame is sent, and no event is emitted: the
    exception handed to [destroy] is dropped, and the channel stays in
    this state until the connection finalizes it. *)
Theorem write_on_dead_socket (H : Host) (c : chanRef) (ch : Channel)
  (conn : connRef) (cn : Connection) (sock : Socket) (e : JsError)
  (data : JsVal) (w : World) :
  w_channels w !! c = Some ch -> ch_connecting ch = false ->
  ch_writeQueue ch = None -> ch_connection ch = Some conn ->
  w_connections w !! conn = Some cn -> cn_sock cn = Some sock ->
  sk_broken sock = Some e -> e <> Diverged ->
  ch_destroyed ch = false -> ch_closing ch = false ->
  id_truthy (ch_id ch) = true -> ch_request ch = None ->
  truthy data = true ->
  let w' := set_w_channels
              (<[c := set_ch_closing true (set_ch_emitable false
                        (set_ch_writable false (set_ch_readable false ch)))]>
                 (w_channels w)) w in
  (forall arg1 arg2 flag payload,
     ch_writable ch = true ->
     priority_flag H arg2 = Some flag -> 0 <= flag <= 3 ->
     payload_of H data (arg_encoding arg1) = Ok payload ->
     Js.blen payload <= MAX_PAYLOAD_SIZE ->
     Channel_write H c data arg1 arg2 w = (Ok false, w'))
  /\ (forall encoding payload,
       ch_emitable ch = true ->
       payload_of H data encoding = Ok payload ->
       Js.blen payload <= MAX_PAYLOAD_SIZE ->
       Channel_dispatch H c data encoding w = (Ok false, w')).
Proof.
  intros Hc Hcg Hq Hcc Hcn Hs Hb Hne Hd Hcl Hid Hrq Ht w'.
  assert (Hout : forall packet,
    try_catch (Channel_writeOut c packet)
      (fun writeException => Channel_destroy c (Some writeException) ;; ret false) w
    = (Ok false, w')).
  { intros packet. unfold try_catch, Channel_writeOut, Channel_writeOut_with.
    unfold bind at 1. unfold get_chan. rewrite Hc, Hq, Hcg, Hcc.
    unfold Connection_write, bind, get_conn. rewrite Hcn, Hs, Hb. unfold throw.
    rewrite (Channel_destroy_dead_socket c ch conn cn sock e (Some e) w);
      try assumption.
    destruct e; try reflexivity. exfalso; apply Hne; reflexivity. }
  split.
  - intros arg1 arg2 flag payload Hw Hf Hr Hp Hlen.
    assert (E2 : (MAX_PAYLOAD_SIZE <? Js.blen payload) = false)
      by (apply Z.ltb_ge; exact Hlen).
    unfold Channel_write. unfold bind at 1. unfold get_chan.
    rewrite Hc, Hw, Hf, Ht, Hp. cbn [negb].
    assert (E1 : ((flag <? 0) || (3 <? flag)) = false).
    { apply orb_false_iff. split; apply Z.ltb_ge; lia. }
    rewrite E1, E2. apply Hout.
  - intros encoding payload He Hp Hlen.
    assert (E2 : (MAX_PAYLOAD_SIZE <? Js.blen payload) = false)
      by (apply Z.ltb_ge; exact Hlen).
    unfold Channel_dispatch. unfold bind at 1. unfold get_chan.
    rewrite Hc, He, Ht, Hp. cbn [negb]. rewrite E2. apply Hout.
Qed.

(** ** A payload that is not JSON *)

(** [destroy(err)] on an open channel whose socket takes writes: the
    END frame goes out, the channel is left closing, and [err] is not
    looked at. *)
Lemma Channel_destroy_open_effect c ch conn cn sock err w :
  w_channels w !! c = Some ch -> ch_connecting ch = false ->
  ch_writeQueue ch = None -> ch_connection ch = Some conn ->
  w_connections w !! conn = Some cn -> cn_sock cn = Some sock ->
  sk_broken sock = None ->
  ch_destroyed ch = false -> ch_closing ch = false ->
  id_truthy (ch_id ch) = true -> ch_request ch = None ->
  let sig := match ch_endsig ch with
             | Some s => s
             | None => SignalFrame (ch_id ch) SignalFlag.FLAG_END None
             end in
  Channel_destroy c err w
  = (Ok tt,
     set_w_connections
       (<[conn := set_cn_sock (Some (sock_push [Packet_toBuffer sig] sock)) cn]>
          (w_connections w))
       (set_w_channels
          (<[c := set_ch_closing true (set_ch_emitable false (set_ch_writable false
                    (set_ch_readable false ch)))]> (w_channels w)) w)).
Proof.
  intros Hc Hcg Hq Hcc Hcn Hs Hb Hd Hcl Hid Hrq sig.
  unfold Channel_destroy. cbn [Channel_destroy_n].
  unfold Channel_destroy_body. unfold bind at 1. unfold get_chan at 1.
  rewrite Hc, Hd, Hcl, Hid, Hcc. cbn [orb negb].
  unfold bind at 1. unfold ret at 1. unfold bind at 1.
  unfold upd_chan at 1, modify. rewrite (alter_lookup_insert _ _ _ _ Hc).
  unfold bind at 1. unfold get_chan at 1. wsimpl. rewrite lookup_insert_eq.
  wsimpl. rewrite Hrq. unfold bind at 1. unfold ret at 1.
  unfold bind at 1. unfold get_chan at 1. wsimpl. rewrite lookup_insert_eq.
  wsimpl. rewrite Hrq. fold sig.
  unfold try_catch, Channel_writeOut_with, bind, get_chan. wsimpl.
  rewrite lookup_insert_eq. wsimpl. rewrite Hq, Hcg, Hcc.
  unfold Connection_write, bind, get_conn. wsimpl. rewrite Hcn, Hs, Hb.
  unfold upd_conn, modify, ret. wsimpl.
  rewrite (alter_lookup_insert _ _ _ _ Hcn). reflexivity.
Qed.

(** X27.  A DATA frame whose payload is not JSON closes a channel that
    reads JSON.  The frame arrives whole on a live connection with a
    working socket, for an open, readable channel with encoding
    ["json"], and [JSON.parse] throws on the payload text: the channel
    emits nothing, neither data nor error; it is left closing, no longer
    readable, writable or emitable, and one END frame for it is written
    to the socket. *)
Theorem bad_json_closes_channel (H : Host) (conn : connRef) (cn : Connection)
  (sock : Socket) (c : chanRef) (ch : Channel) (id flag : Z)
  (payload : list Z) (exception : JsError) (w : World) :
  w_connections w !! conn = Some cn -> cn_sock cn = Some sock ->
  sk_broken sock = None ->
  ps_buffer (cn_parser cn) = None -> str_truthy (cn_id cn) = true ->
  cn_channels cn !! id = Some c -> 0 < id < Js.two32 ->
  w_channels w !! c = Some ch -> ch_readable ch = true ->
  ch_encoding ch = Some "json"%string ->
  ch_connecting ch = false -> ch_writeQueue ch = None ->
  ch_connection ch = Some conn -> ch_destroyed ch = false ->
  ch_closing ch = false -> id_truthy (ch_id ch) = true ->
  ch_request ch = None -> ch_endsig ch = None ->
  0 <= flag <= 7 -> Js.blen payload <= MAX_PAYLOAD_SIZE ->
  JSON_parse H (Buffer_toString H payload (Some "utf8"%string)) = Throw exception ->
  exception <> Diverged ->
  let frame := Packet_toBuffer (DataFrame (Some id) flag (Some payload)) in
  exists w',
    Connection_ondata H conn frame 0 (Js.blen frame) w = (Ok tt, w')
    /\ w_channels w'
       = <[c := set_ch_closing true (set_ch_emitable false (set_ch_writable false
                  (set_ch_readable false ch)))]> (w_channels w)
    /\ written w' conn
       = sk_written sock
         ++ [Packet_toBuffer (SignalFrame (ch_id ch) SignalFlag.FLAG_END None)].
Proof.
  intros Hcn Hs Hb Hp Hlive Hreg Hid Hc Hrd Henc Hcg Hq Hcc Hd Hcl Hidt Hrq Hes
         Hf Hlen Hjson Hne frame.
  pose proof (Channel_destroy_open_effect c ch conn cn sock (Some exception) w
                Hc Hcg Hq Hcc Hcn Hs Hb Hd Hcl Hidt Hrq) as Hdes.
  cbv zeta in Hdes. rewrite Hes in Hdes.
  match type of Hdes with _ = (_, ?w1) => set (wd := w1) in * end.
  assert (Hdisp : dispatch (Connection_processOpen conn) (Connection_processData H conn)
             (Connection_processSignal conn) 2 id flag frame 7 (Js.blen frame) w
           = (Ok tt, wd)).
  { unfold dispatch. cbn [Z.eqb Pos.eqb].
    unfold Connection_processData, bind, get_conn. rewrite Hcn.
    assert (E0 : (id =? ALL_CHANNELS) = false)
      by (apply Z.eqb_neq; unfold ALL_CHANNELS; lia).
    rewrite E0, Hreg. unfold get_chan at 1. rewrite Hc, Hrd.
    unfold Channel_ondata, bind. unfold get_chan. rewrite Hc, Henc.
    cbn [str_truthy orb].
    rewrite bool_decide_eq_true_2 by reflexivity.
    assert (Hsl : Js.slice frame 7 (Js.blen frame) = payload)
      by exact (frame_payload_slice 2 id flag (Some payload)).
    rewrite Hsl, Hjson.
    change (negb ("json" =? "")%string) with true. cbn [orb].
    destruct exception; [| | | |exfalso; apply Hne; reflexivity].
    all: rewrite Hdes; reflexivity. }
  assert (HL : frame_length (Some payload) <= 7 + MAX_PAYLOAD_SIZE)
    by (unfold frame_length; lia).
  pose proof (Connection_ondata_one H conn cn sock 2 id flag (Some payload) w wd
                Hcn Hs Hp Hlive ltac:(lia) ltac:(lia) Hf HL Hdisp) as Hrun.
  eexists. split; [exact Hrun|]. split; [reflexivity|].
  unfold written, wd. cbn. rewrite lookup_alter_eq, lookup_insert_eq. reflexivity.
Qed.

(** ** Encodings *)


(** ** Frames for all channels *)




(** ** Further instances *)

Section MoreInstances.

Import ExampleHost Scenario Example Cases.

Lemma parse_chunks_stream_witness :
  exists ps,
    parse_chunks parser_init five_chunks [] = (Ok tt, ps, two_frames)
    /\ residual ps = [].
Proof.
  apply parse_chunks_stream; [|vm_compute; reflexivity].
  constructor; [|constructor; [|constructor]];
    unfold frame_ok; cbn; unfold Js.two32, MAX_PAYLOAD_SIZE, Js.blen; cbn; lia.
Defined.


Lemma write_while_connecting_witness :
  Channel_write host chan (VBuffer hello) VUndefined VUndefined w_connecting
  = (Ok false,
     set_w_channels
       (<[chan := set_ch_writeQueue (Some [DataFrame (Some 1) 0 (Some hello)])
                    ch_connecting_]> (w_channels w_connecting)) w_connecting).
Proof.
  apply (write_while_connecting host chan ch_connecting_ (VBuffer hello)
           VUndefined VUndefined 0 hello w_connecting).
  - vm_compute. reflexivity.
  - reflexivity.
  - left. reflexivity.
  - reflexivity.
  - lia.
  - reflexivity.
  - reflexivity.
  - vm_compute. discriminate.
Defined.

Lemma data_frame_delivered_witness :
  let frame := Packet_toBuffer (DataFrame (Some 1) 5 (Some hello)) in
  exists w',
    Connection_ondata host conn frame 0 (Js.blen frame) w_listening = (Ok tt, w')
    /\ w_channels w'
       = <[chan := set_ch_events
                     [EvConnect; EvData (VString (Buffer_toString host hello None)) 3]
                     ch_listening]> (w_channels w_listening).
Proof.
  destruct (data_frame_delivered host conn cn_open sock_open chan ch_listening
              1 2 true hello w_listening) as (w' & H1 & H2 & _).
  - vm_compute. reflexivity.
  - reflexivity.
  - reflexivity.
  - reflexivity.
  - vm_compute. reflexivity.
  - unfold Js.two32. lia.
  - vm_compute. reflexivity.
  - reflexivity.
  - reflexivity.
  - reflexivity.
  - lia.
  - vm_compute. discriminate.
  - exists w'. split; [exact H1 | exact H2].
Defined.



Lemma end_acknowledged_witness :
  let frame := Packet_toBuffer
                 (SignalFrame (Some 1) SignalFlag.FLAG_END (Some [98; 121; 101])) in
  exists w',
    Connection_ondata host conn frame 0 (Js.blen frame) w_closing = (Ok tt, w')
    /\ w_channels w' = <[chan := closed_channel ch_closing_ None None]>
                         (w_channels w_closing)
    /\ written w' conn = sk_written sock_closing.
Proof.
  destruct (end_acknowledged host conn cn_closing sock_closing chan ch_closing_
              1 SignalFlag.FLAG_END [98; 121; 101] w_closing)
    as (w' & cn' & H1 & H2 & H3 & _).
  - vm_compute. reflexivity.
  - reflexivity.
  - reflexivity.
  - reflexivity.
  - vm_compute. reflexivity.
  - unfold Js.two32. lia.
  - vm_compute. reflexivity.
  - reflexivity.
  - reflexivity.
  - reflexivity.
  - reflexivity.
  - left. reflexivity.
  - vm_compute. discriminate.
  - intros r Hr. vm_compute in Hr. discriminate.
  - exists w'. split; [exact H1|]. split; [exact H2 | exact H3].
Defined.








Lemma socket_drain_broadcast_witness :
  exists w',
    Connection_onSockDrain conn w_listening = (Ok tt, w')
    /\ w_channels w' !! chan
       = Some (set_ch_events [EvConnect; EvDrain] ch_listening).
Proof.
  destruct (socket_drain_broadcast conn cn_open w_listening)
    as (w' & H1 & _ & _ & H2 & _).
  - vm_compute. reflexivity.
  - intros k c Hk. cbn [cn_open cn_sent cn_connecting cn_channels cn_requests] in Hk.
    apply lookup_singleton_Some in Hk as [<- <-].
    vm_compute. eexists. reflexivity.
  - intros k1 k2 c Hk1 Hk2.
    cbn [cn_open cn_channels] in Hk1, Hk2.
    apply lookup_singleton_Some in Hk1 as [<- _].
    apply lookup_singleton_Some in Hk2 as [<- _]. reflexivity.
  - exists w'. split; [exact H1|].
    rewrite (H2 1 chan ch_listening); [reflexivity | vm_compute; reflexivity
                                        | vm_compute; reflexivity].
Defined.

Lemma dispose_then_reuse_witness :
  exists w1 w2,
    Connection_setDisposed conn true w_open = (Ok tt, w1)
    /\ w_disposed w1 !! "http:localhost:7010"%string = Some conn
    /\ Connection_getConnection url_1 w1 = (Ok conn, w2)
    /\ w_all w2 = w_all w_open /\ w_disposed w2 = w_disposed w_open
    /\ w_handshakes w2 = w_handshakes w_open.
Proof.
  destruct (dispose_then_reuse url_1 conn cn_open "http:localhost:7010"
              sock_open w_open)
    as (w1 & w2 & H1 & _ & H2 & _ & H3 & H4 & H5 & H6 & _).
  - vm_compute. reflexivity.
  - reflexivity.
  - discriminate.
  - reflexivity.
  - vm_compute. reflexivity.
  - vm_compute. reflexivity.
  - vm_compute. reflexivity.
  - exists w1, w2. repeat (split; [assumption|]). assumption.
Defined.

Lemma OpenRequest_new_appends_witness :
  exists w',
    OpenRequest_new conn 1 3 None w_connecting = (Ok 3%nat, w')
    /\ queue_of w_connecting conn 1 = [req]
    /\ queue_of w' conn 1 = [req; 3%nat].
Proof.
  destruct (OpenRequest_new_appends conn cn_connecting 1 3 None [req] w_connecting)
    as (w' & H1 & H2 & H3 & _).
  - vm_compute. reflexivity.
  - vm_compute. reflexivity.
  - change (cn_requests cn_connecting !! 1) with (Some req).
    split; [|apply NoDup_singleton].
    apply (chain_one _ req rq_waiting); [vm_compute; reflexivity | reflexivity].
  - exists w'. split; [exact H1|]. split; [exact H2 | exact H3].
Defined.

Lemma cancel_head_request_witness :
  exists w',
    OpenRequest_cancel req w_connecting = (Ok true, w')
    /\ queue_of w_connecting conn 1 = [req]
    /\ queue_of w' conn 1 = []
    /\ OpenRequest_cancel req w_sent = (Ok false, w_sent).
Proof.
  destruct (cancel_head_request conn cn_connecting 1 req rq_waiting [req] w_connecting)
    as (_ & Hun).
  - vm_compute. reflexivity.
  - reflexivity.
  - reflexivity.
  - reflexivity.
  - vm_compute. reflexivity.
  - reflexivity.
  - apply (chain_one _ req rq_waiting); [vm_compute; reflexivity | reflexivity].
  - apply NoDup_singleton.
  - destruct (Hun eq_refl) as (w' & H1 & H2 & H3 & _).
    exists w'. split; [exact H1|]. split; [exact H2|]. split; [exact H3|].
    destruct (cancel_head_request conn cn_sent 1 req rq_sent_ [req] w_sent)
      as (Hsent & _).
    + vm_compute. reflexivity.
    + reflexivity.
    + reflexivity.
    + reflexivity.
    + vm_compute. reflexivity.
    + reflexivity.
    + apply (chain_one _ req rq_sent_); [vm_compute; reflexivity | reflexivity].
    + apply NoDup_singleton.
    + exact (Hsent eq_refl).
Defined.



Lemma readyState_once_open_witness :
  exists w' ch',
    Channel_open chan 1 w_sent = (Ok tt, w')
    /\ w_channels w' !! chan = Some ch'
    /\ Channel_readyState ch' = Some "readwrite"%string
    /\ Channel_url ch' = Some "http://localhost:7010/1"%string.
Proof.
  apply (readyState_once_open w_sent chan ch_connecting_ conn sock_open 1 3).
  - split; [vm_compute; reflexivity|]. split; [reflexivity|].
    split; [reflexivity|]. split; [|reflexivity].
    exists cn_sent. split; [vm_compute; reflexivity | reflexivity].
  - lia.
  - lia.
Defined.

Lemma connect_new_host_witness :
  exists w',
    Channel_connect host 0%nat (VString "localhost:7010/1") (VString "rw") w_fresh
    = (Ok tt, w')
    /\ queue_of w' 1%nat 1 = [2%nat]
    /\ w_handshakes w' = [(1%nat, url_1)]
    /\ w_ticks w' = [].
Proof.
  destruct (connect_new_host host 0%nat Channel_new (VString "localhost:7010/1")
              (VString "rw") url_1 1 3 w_fresh)
    as (w' & H1 & _ & _ & _ & _ & H2 & _ & _ & H3 & H4).
  - vm_compute. reflexivity.
  - reflexivity.
  - vm_compute. reflexivity.
  - vm_compute. reflexivity.
  - reflexivity.
  - vm_compute. reflexivity.
  - vm_compute. reflexivity.
  - exists w'. split; [exact H1|]. split; [exact H2|]. split; [exact H3 | exact H4].
Defined.

Lemma connect_live_host_witness :
  exists w1 w2,
    Channel_connect host 3%nat (VString "localhost:7010/2") (VString "r") w_third
    = (Ok tt, w1)
    /\ written w1 conn = [[0; 7; 0; 0; 0; 1; 11]]
    /\ run_tick w1 = (Ok tt, w2)
    /\ written w2 conn = [[0; 7; 0; 0; 0; 1; 11]; [0; 7; 0; 0; 0; 2; 9]].
Proof.
  destruct (connect_live_host host 3%nat Channel_new (VString "localhost:7010/2")
              (VString "r") url_2 2 1 conn cn_open sock_open w_third)
    as (w1 & w2 & H1 & _ & H2 & _ & _ & _ & H3 & H4 & _).
  - vm_compute. reflexivity.
  - reflexivity.
  - vm_compute. reflexivity.
  - vm_compute. reflexivity.
  - reflexivity.
  - vm_compute. reflexivity.
  - vm_compute. reflexivity.
  - reflexivity.
  - reflexivity.
  - vm_compute. reflexivity.
  - vm_compute. reflexivity.
  - vm_compute. reflexivity.
  - exists w1, w2. split; [exact H1|]. split; [exact H2|]. split; [exact H3|].
    rewrite H4. vm_compute. reflexivity.
Defined.

Lemma getSock_redirect_limit_witness :
  exists made,
    getSock ex_default parse_location (fun _ => None) url_a six_redirects
    = (Some (SockFailed (Error "Max HTTP redirections reached")), made)
    /\ length made = 5%nat.
Proof.
  apply (proj2 (proj2 (getSock_redirect_limit ex_default parse_location
                         (fun _ => None) url_a six_redirects))).
  - reflexivity.
  - left. reflexivity.
  - vm_compute. lia.
  - apply Forall_forall. intros a Ha.
    assert (a = AnsResponse 302 None (Some "http://b/"%string)).
    { vm_compute in Ha. repeat (apply elem_of_cons in Ha as [Ha|Ha]; [exact Ha|]).
      inversion Ha. }
    subst a. eexists 302, None, (Some "http://b/"%string), _.
    split; [reflexivity|]. split; [right; left; reflexivity|].
    split; [reflexivity|]. left. reflexivity.
Defined.



Lemma write_on_dead_socket_witness :
  Channel_write host chan (VBuffer hello) VUndefined VUndefined w_dead
  = (Ok false,
     set_w_channels
       (<[chan := set_ch_closing true (set_ch_emitable false
                    (set_ch_writable false (set_ch_readable false ch_open)))]>
          (w_channels w_dead)) w_dead).
Proof.
  destruct (write_on_dead_socket host chan ch_open conn cn_dead sock_dead
              (Error "EPIPE") (VBuffer hello) w_dead) as [Hwrite _].
  - vm_compute. reflexivity.
  - reflexivity.
  - reflexivity.
  - reflexivity.
  - vm_compute. reflexivity.
  - reflexivity.
  - reflexivity.
  - discriminate.
  - reflexivity.
  - reflexivity.
  - reflexivity.
  - reflexivity.
  - reflexivity.
  - apply (Hwrite VUndefined VUndefined 0 hello).
    + reflexivity.
    + reflexivity.
    + lia.
    + reflexivity.
    + vm_compute. discriminate.
Defined.

Lemma bad_json_closes_channel_witness :
  let frame := Packet_toBuffer (DataFrame (Some 1) 1 (Some hello)) in
  exists w',
    Connection_ondata host_strict conn frame 0 (Js.blen frame) w_json = (Ok tt, w')
    /\ w_channels w'
       = <[chan := set_ch_closing true (set_ch_emitable false (set_ch_writable false
                     (set_ch_readable false ch_json)))]> (w_channels w_json)
    /\ written w' conn = [[0; 7; 0; 0; 0; 1; 11]; [0; 7; 0; 0; 0; 1; 25]].
Proof.
  destruct (bad_json_closes_channel host_strict conn cn_open sock_open chan ch_json
              1 1 hello (Error "Unexpected token") w_json) as (w' & H1 & H2 & H3).
  - vm_compute. reflexivity.
  - reflexivity.
  - reflexivity.
  - reflexivity.
  - reflexivity.
  - vm_compute. reflexivity.
  - unfold Js.two32. lia.
  - vm_compute. reflexivity.
  - reflexivity.
  - reflexivity.
  - reflexivity.
  - reflexivity.
  - reflexivity.
  - reflexivity.
  - reflexivity.
  - reflexivity.
  - reflexivity.
  - reflexivity.
  - lia.
  - vm_compute. discriminate.
  - reflexivity.
  - discriminate.
  - exists w'. split; [exact H1|]. split; [exact H2|]. rewrite H3.
    vm_compute. reflexivity.
Defined.



End MoreInstances.
